(** * Codex access control: the ACL service over its Mongo collections

    A shallow embedding of [services/accessControlService.js] together with
    the two Mongoose schemas it queries ([models/Acl], [models/User]).

    - The [Acl] collection is a list of documents in natural (insertion)
      order; the [User] collection is a list of user documents.
    - Each Mongo query is the boolean predicate its filter object denotes;
      [Acl.findOne] is [find], [Acl.find] is [filter], [Acl.updateMany] is a
      [map] together with the number of documents it touched.
    - [new Date()] is an input, [now], in milliseconds since the epoch.
    - Ids are [ObjectId] values already; the parsing done by
      [new mongoose.Types.ObjectId(hex)] is outside the model. *)

From Stdlib Require Import List String Ascii ZArith NArith Bool Lia PeanoNat Sorted.
Import ListNotations.
Local Open Scope string_scope.
Local Open Scope list_scope.

(** ** Values *)

Definition ObjectId := N.

(** Milliseconds since the epoch. A JavaScript [Date] holds at most
    8.64e15 of them on either side; a number beyond that makes an Invalid
    Date, which is outside the model (see [dateInRange]). *)
Definition Date := Z.

(** A [Date] path of a stored document. MongoDB tells three cases apart: the
    field is not there, it is there and holds [null], it holds a date.
    [{ $exists: false }] selects the first case only, [{ $gt: d }] the third
    only. *)
Inductive DateField : Type :=
| Missing
| Null
| At (d : Date).

Module PERMISSIONS.
Definition READ : string := "read".
Definition WRITE : string := "write".
Definition DELETE : string := "delete".
Definition ADMIN : string := "admin".
(** [Object.values(PERMISSIONS)], in key order. *)
Definition values : list string := [READ; WRITE; DELETE; ADMIN].
End PERMISSIONS.

(** ** Documents *)

(** A document of the [Acl] collection ([aclSchema], with the two paths that
    [{ timestamps: true }] adds). [granteeId] is [None] when the path is
    [null] or missing: the equality filter [granteeId: null] selects both. *)
Record Acl : Type := mkAcl {
  acl_id : ObjectId;
  resourceType : string;
  resourceId : ObjectId;
  granteeType : string;
  granteeId : option ObjectId;
  granteeName : option string;
  permission : string;
  grantedBy : ObjectId;
  grantedAt : Date;
  expiresAt : DateField;
  active : bool;
  createdAt : Date;
  updatedAt : Date
}.

(** A document of the [User] collection ([userSchema]). *)
Record User : Type := mkUser {
  user_id : ObjectId;
  username : string;
  displayName : option string;
  groups : list string
}.

(** ** Query operators *)

Definition isSome {A : Type} (o : option A) : bool :=
  match o with Some _ => true | None => false end.

(** [{ path: oid }] on an ObjectId path. *)
Definition eqOid (field : option ObjectId) (v : ObjectId) : bool :=
  match field with Some x => N.eqb x v | None => false end.

(** [{ path: v }] where [v] is an ObjectId or [null]. *)
Definition eqOidOrNull (field v : option ObjectId) : bool :=
  match field, v with
  | Some x, Some y => N.eqb x y
  | None, None => true
  | _, _ => false
  end.

(** [{ path: { $in: names } }] on a string path. *)
Definition inNames (field : option string) (names : list string) : bool :=
  match field with
  | Some n => existsb (String.eqb n) names
  | None => false
  end.

(** [{ path: { $in: names } }] on a required string path. *)
Definition inStrings (field : string) (names : list string) : bool :=
  existsb (String.eqb field) names.

(** [{ expiresAt: { $exists: false } }]. *)
Definition notExists (f : DateField) : bool :=
  match f with Missing => true | _ => false end.

(** [{ expiresAt: { $gt: now } }]. *)
Definition gtDate (f : DateField) (now : Date) : bool :=
  match f with At d => Z.ltb now d | _ => false end.

(** The tail every read query shares:
    [active: true, $or: [{expiresAt: {$exists: false}}, {expiresAt: {$gt: new Date()}}]]. *)
Definition activeUnexpired (now : Date) (a : Acl) : bool :=
  active a && (notExists (expiresAt a) || gtDate (expiresAt a) now).

Definition findOne (q : Acl -> bool) (acls : list Acl) : option Acl :=
  find q acls.

Definition findAll (q : Acl -> bool) (acls : list Acl) : list Acl :=
  filter q acls.

Definition findById (users : list User) (id : ObjectId) : option User :=
  find (fun u => N.eqb (user_id u) id) users.

(** ** hasPermission *)

(** Filter of the first two queries of [hasPermission]. *)
Definition directQuery (rt : string) (rid uid : ObjectId) (perm : string)
    (now : Date) (a : Acl) : bool :=
  String.eqb (resourceType a) rt
  && N.eqb (resourceId a) rid
  && String.eqb (granteeType a) "user"
  && eqOid (granteeId a) uid
  && String.eqb (permission a) perm
  && activeUnexpired now a.

(** Filter of the group query. *)
Definition groupQuery (rt : string) (rid : ObjectId) (names : list string)
    (perm : string) (now : Date) (a : Acl) : bool :=
  String.eqb (resourceType a) rt
  && N.eqb (resourceId a) rid
  && String.eqb (granteeType a) "group"
  && inNames (granteeName a) names
  && String.eqb (permission a) perm
  && activeUnexpired now a.

(** Filter of the public query. *)
Definition publicQuery (rt : string) (rid : ObjectId) (perm : string)
    (now : Date) (a : Acl) : bool :=
  String.eqb (resourceType a) rt
  && N.eqb (resourceId a) rid
  && String.eqb (granteeType a) "public"
  && String.eqb (permission a) perm
  && activeUnexpired now a.

Definition hasPermission (users : list User) (acls : list Acl) (now : Date)
    (userId : ObjectId) (rt : string) (rid : ObjectId) (perm : string) : bool :=
  let adminPermission :=
    findOne (directQuery rt rid userId PERMISSIONS.ADMIN now) acls in
  if isSome adminPermission then true else
  let directPermission := findOne (directQuery rt rid userId perm now) acls in
  if isSome directPermission then true else
  let groupPermission :=
    match findById users userId with
    | Some user =>
        if (0 <? List.length (groups user))%nat
        then findOne (groupQuery rt rid (groups user) perm now) acls
        else None
    | None => None
    end in
  if isSome groupPermission then true else
  let publicPermission := findOne (publicQuery rt rid perm now) acls in
  isSome publicPermission.

(** ** getPermissionHierarchy *)

Definition getPermissionHierarchy (perm : string) : list string :=
  if String.eqb perm PERMISSIONS.ADMIN then
    [PERMISSIONS.ADMIN; PERMISSIONS.DELETE; PERMISSIONS.WRITE; PERMISSIONS.READ]
  else if String.eqb perm PERMISSIONS.DELETE then
    [PERMISSIONS.DELETE; PERMISSIONS.WRITE; PERMISSIONS.READ]
  else if String.eqb perm PERMISSIONS.WRITE then
    [PERMISSIONS.WRITE; PERMISSIONS.READ]
  else if String.eqb perm PERMISSIONS.READ then
    [PERMISSIONS.READ]
  else [].

(** ** The collection as state *)

(** The [Acl] collection together with the driver's ObjectId generator, from
    which [new Acl(...)] draws the [_id] of a document. *)
Record AclCollection : Type := mkCollection {
  documents : list Acl;
  nextObjectId : ObjectId
}.

(** ** grantPermission *)

(** What [grantPermission] rejects with. The service throws plain [Error]s
    with the two messages below; [save()] rejects with Mongoose's
    [ValidationError] when a path fails its schema validator (the first
    failing path is reported here). *)
Inductive GrantError : Type :=
| InvalidPermission (perm : string)
| UserNotFound (id : ObjectId)
| SchemaValidation (path : string).

Definition resourceTypeEnum : list string := ["document"; "folder"; "system"].
Definition granteeTypeEnum : list string := ["user"; "group"; "role"; "public"].
Definition permissionEnum : list string := ["read"; "write"; "delete"; "admin"].

(** The validators of [aclSchema] that can fail on a document built by
    [grantPermission]: the three [enum] paths ([resourceId] is always set).
    The cast of [expiresAt] fails only on an Invalid Date, which the model
    is not given. *)
Definition validateAcl (a : Acl) : option string :=
  if negb (inStrings (resourceType a) resourceTypeEnum) then Some "resourceType"
  else if negb (inStrings (granteeType a) granteeTypeEnum) then Some "granteeType"
  else if negb (inStrings (permission a) permissionEnum) then Some "permission"
  else None.

(** [granteeType === 'user' && granteeId] followed by [User.findById]: the id
    that was looked up and not found, if any. *)
Definition unresolvedGrantee (users : list User) (gt : string)
    (gid : option ObjectId) : option ObjectId :=
  match gid with
  | Some id =>
      if String.eqb gt "user" && negb (isSome (findById users id))
      then Some id else None
  | None => None
  end.

(** [gid] is [None] when the [granteeId] argument is falsy (left out, [null]
    or the empty string): the guard and the conditional both test its truth
    value. [expires] is the last argument: [None] stands for [null], which is
    also what the parameter defaults to when it is left out, and the document
    then stores [expiresAt: null]. *)
Definition grantPermission (users : list User) (now : Date)
    (rt : string) (rid : ObjectId) (gt : string) (gid : option ObjectId)
    (gname : option string) (perm : string) (grantedById : ObjectId)
    (expires : option Date) (c : AclCollection)
    : (GrantError + Acl) * AclCollection :=
  if negb (inStrings perm PERMISSIONS.values) then
    (inl (InvalidPermission perm), c)
  else
    match unresolvedGrantee users gt gid with
    | Some id => (inl (UserNotFound id), c)
    | None =>
        let aclEntry :=
          mkAcl (nextObjectId c) rt rid gt gid gname perm grantedById now
                (match expires with Some d => At d | None => Null end)
                true now now in
        let generator := N.succ (nextObjectId c) in
        match validateAcl aclEntry with
        | Some path =>
            (inl (SchemaValidation path), mkCollection (documents c) generator)
        | None =>
            (inr aclEntry, mkCollection (documents c ++ [aclEntry]) generator)
        end
    end.

(** ** revokePermission *)

(** The filter of [revokePermission]; [gid] is [None] when the [granteeId]
    argument is falsy, and the filter then asks for [granteeId: null]. *)
Definition revokeQuery (rt : string) (rid : ObjectId) (gt : string)
    (gid : option ObjectId) (perm : string) (a : Acl) : bool :=
  String.eqb (resourceType a) rt
  && N.eqb (resourceId a) rid
  && String.eqb (granteeType a) gt
  && eqOidOrNull (granteeId a) gid
  && String.eqb (permission a) perm
  && active a.

(** The update [{ active: false }], to which [timestamps] adds [updatedAt]. *)
Definition deactivate (now : Date) (a : Acl) : Acl :=
  mkAcl (acl_id a) (resourceType a) (resourceId a) (granteeType a)
        (granteeId a) (granteeName a) (permission a) (grantedBy a)
        (grantedAt a) (expiresAt a) false (createdAt a) now.

(** [Acl.updateMany(filter, update)] and its [modifiedCount]: every document
    the filter selects has [active = true], so the update changes each. *)
Definition updateMany (q : Acl -> bool) (upd : Acl -> Acl) (docs : list Acl)
    : list Acl * nat :=
  (map (fun a => if q a then upd a else a) docs, List.length (filter q docs)).

Definition revokePermission (now : Date) (rt : string) (rid : ObjectId)
    (gt : string) (gid : option ObjectId) (perm : string) (c : AclCollection)
    : nat * AclCollection :=
  let result :=
    updateMany (revokeQuery rt rid gt gid perm) (deactivate now) (documents c) in
  (snd result, mkCollection (fst result) (nextObjectId c)).

(** ** getResourcePermissions *)

(** What [populate('grantedBy', 'username displayName')] puts in place of the
    grantor's id: the selected paths of the user document, or [null] when no
    such user exists. *)
Record Grantor : Type := mkGrantor {
  grantor_id : ObjectId;
  grantor_username : string;
  grantor_displayName : option string
}.

Definition populateGrantedBy (users : list User) (a : Acl) : option Grantor :=
  match findById users (grantedBy a) with
  | Some u => Some (mkGrantor (user_id u) (username u) (displayName u))
  | None => None
  end.

Definition resourceQuery (rt : string) (rid : ObjectId) (now : Date)
    (a : Acl) : bool :=
  String.eqb (resourceType a) rt
  && N.eqb (resourceId a) rid
  && activeUnexpired now a.

Definition getResourcePermissions (users : list User) (acls : list Acl)
    (now : Date) (rt : string) (rid : ObjectId) : list (Acl * option Grantor) :=
  map (fun a => (a, populateGrantedBy users a))
      (findAll (resourceQuery rt rid now) acls).

(** ** getUserAccessibleResources *)

(** An [ObjectId] instance on the JavaScript heap. [acl.resourceId] is an
    object, and [Set] tells objects apart by reference (SameValueZero), not
    by the id they hold. *)
Record OidObject : Type := mkOidObject {
  oid_address : nat;
  oid_value : ObjectId
}.

(** Hydration of a query result: every returned document is deserialised
    into objects of its own, so the [resourceId] of each sits at a fresh
    address, here handed out in sequence from [heap]. *)
Fixpoint hydrate (heap : nat) (docs : list Acl) : list (Acl * nat) :=
  match docs with
  | [] => []
  | a :: rest => (a, heap) :: hydrate (S heap) rest
  end.

(** [acl => acl.resourceId] on a hydrated document. *)
Definition resourceIdObject (h : Acl * nat) : OidObject :=
  mkOidObject (snd h) (resourceId (fst h)).

Definition sameValueZero (x y : OidObject) : bool :=
  Nat.eqb (oid_address x) (oid_address y).

Definition setAdd (s : list OidObject) (x : OidObject) : list OidObject :=
  if existsb (sameValueZero x) s then s else s ++ [x].

(** [[...new Set(xs)]]: the elements in insertion order, one per reference. *)
Definition newSet (xs : list OidObject) : list OidObject :=
  fold_left setAdd xs [].

Definition directAclsQuery (rt : string) (uid : ObjectId) (perm : string)
    (now : Date) (a : Acl) : bool :=
  String.eqb (resourceType a) rt
  && String.eqb (granteeType a) "user"
  && eqOid (granteeId a) uid
  && inStrings (permission a) (getPermissionHierarchy perm)
  && activeUnexpired now a.

Definition groupAclsQuery (rt : string) (names : list string) (perm : string)
    (now : Date) (a : Acl) : bool :=
  String.eqb (resourceType a) rt
  && String.eqb (granteeType a) "group"
  && inNames (granteeName a) names
  && inStrings (permission a) (getPermissionHierarchy perm)
  && activeUnexpired now a.

Definition publicAclsQuery (rt : string) (perm : string) (now : Date)
    (a : Acl) : bool :=
  String.eqb (resourceType a) rt
  && String.eqb (granteeType a) "public"
  && inStrings (permission a) (getPermissionHierarchy perm)
  && activeUnexpired now a.

(** [heap] is the first free address when the call starts; the three query
    results are hydrated one after the other. *)
Definition getUserAccessibleResources (users : list User) (acls : list Acl)
    (now : Date) (heap : nat) (userId : ObjectId) (rt : string) (perm : string)
    : list OidObject :=
  let directAcls := hydrate heap (findAll (directAclsQuery rt userId perm now) acls) in
  let heap1 := (heap + List.length directAcls)%nat in
  let groupAcls :=
    match findById users userId with
    | Some user =>
        if (0 <? List.length (groups user))%nat
        then hydrate heap1 (findAll (groupAclsQuery rt (groups user) perm now) acls)
        else []
    | None => []
    end in
  let groupResourceIds := map resourceIdObject groupAcls in
  let heap2 := (heap1 + List.length groupAcls)%nat in
  let publicAcls := hydrate heap2 (findAll (publicAclsQuery rt perm now) acls) in
  let directResourceIds := map resourceIdObject directAcls in
  let publicResourceIds := map resourceIdObject publicAcls in
  newSet (directResourceIds ++ groupResourceIds ++ publicResourceIds).

(** The ids held by a list of [ObjectId] instances. *)
Definition idValues (xs : list OidObject) : list ObjectId :=
  map oid_value xs.

(** ** Sample data *)

Definition docD : ObjectId := 100%N.
Definition docE : ObjectId := 101%N.

(** A member of group "eng", and a user with no group at all. *)
Definition userP : User := mkUser 1%N "pat" (Some "Pat") ["eng"].
Definition userQ : User := mkUser 2%N "quinn" None [].
Definition sampleUsers : list User := [userP; userQ].

(** A stored grant on document [docD], made by [userQ]. Those below that
    expire at 9000 are documents as [grantPermission] writes them, see
    [sample_grants_granted]. *)
Definition sampleGrant (id : ObjectId) (gt : string) (gid : option ObjectId)
    (gname : option string) (perm : string) (at_ : Date) (expires : DateField)
    (act : bool) : Acl :=
  mkAcl id "document" docD gt gid gname perm 2%N at_ expires act at_ at_.

Definition groupWriteEng : Acl :=
  sampleGrant 10%N "group" None (Some "eng") "write" 1000%Z (At 9000%Z) true.
Definition groupWriteOps : Acl :=
  sampleGrant 11%N "group" None (Some "ops") "write" 1100%Z Missing true.
Definition directAdminP : Acl :=
  sampleGrant 12%N "user" (Some 1%N) None "admin" 1200%Z (At 9000%Z) true.
Definition directReadP : Acl :=
  sampleGrant 13%N "user" (Some 1%N) None "read" 1300%Z (At 9000%Z) true.
Definition publicRead : Acl :=
  sampleGrant 14%N "public" None (Some "public") "read" 1400%Z (At 9000%Z) true.
Definition directReadExpiredP : Acl :=
  sampleGrant 15%N "user" (Some 1%N) None "read" 1500%Z (At 2000%Z) true.

Definition emptyCollection : AclCollection := mkCollection [] 0%N.

(** Two grants on [docD], both expiring at 9000: the first made when the
    server clock read 2000, the second when it read 1000 ([Date.now] is wall
    clock time and may step back, or differ between two servers). *)
Definition skewedCollection : AclCollection :=
  snd (grantPermission sampleUsers 1000%Z "document" docD "public" None
         (Some "public") "read" 2%N (Some 9000%Z)
         (snd (grantPermission sampleUsers 2000%Z "document" docD "user"
                 (Some 1%N) None "read" 2%N (Some 9000%Z) emptyCollection))).

(** The same grant made twice in a row. *)
Definition twiceGranted : AclCollection :=
  snd (grantPermission sampleUsers 1100%Z "document" docD "user" (Some 1%N)
         None "read" 2%N None
         (snd (grantPermission sampleUsers 1000%Z "document" docD "user"
                 (Some 1%N) None "read" 2%N None emptyCollection))).

(** Two group grants of [write] on [docD] as [grantPermission] stores
    them: the one to "eng" was made with a [granteeId] in the call, the one
    to "ops" without. *)
Definition mixedGroupGrants : AclCollection :=
  snd (grantPermission sampleUsers 1100%Z "document" docD "group" None
         (Some "ops") "write" 2%N None
         (snd (grantPermission sampleUsers 1000%Z "document" docD "group"
                 (Some 5%N) (Some "eng") "write" 2%N None emptyCollection))).

(** The collection with every [granteeName] replaced through [rename], all
    other paths kept. *)
Definition renameGrantee (rename : option string -> option string) (a : Acl)
    : Acl :=
  mkAcl (acl_id a) (resourceType a) (resourceId a) (granteeType a)
        (granteeId a) (rename (granteeName a)) (permission a) (grantedBy a)
        (grantedAt a) (expiresAt a) (active a) (createdAt a) (updatedAt a).

Definition renameGrantees (rename : option string -> option string)
    (c : AclCollection) : AclCollection :=
  mkCollection (map (renameGrantee rename) (documents c)) (nextObjectId c).

(** The document [grantPermission] builds, as a function of its arguments,
    the clock and the generated [_id]. *)
Definition builtEntry (id : ObjectId) (now : Date) (rt : string)
    (rid : ObjectId) (gt : string) (gid : option ObjectId)
    (gname : option string) (perm : string) (grantedById : ObjectId)
    (expires : option Date) : Acl :=
  mkAcl id rt rid gt gid gname perm grantedById now
        (match expires with Some d => At d | None => Null end) true now now.

(** ** Dates the code can hold *)

(** An expiry argument that is left out or is a valid [Date]. *)
Definition dateInRange (expires : option Date) : Prop :=
  match expires with
  | Some d => (-8640000000000000 <= d <= 8640000000000000)%Z
  | None => True
  end.

(** ** Invariant of the collection *)

(** Every stored [_id] was drawn from the generator before its present
    value, and no two documents share one. *)
Definition idsFresh (c : AclCollection) : Prop :=
  Forall (fun d => (acl_id d < nextObjectId c)%N) (documents c)
  /\ NoDup (map acl_id (documents c)).

(** * The callers: token check and document routes *)

(** ** JavaScript values *)

(** A JSON-like JavaScript value: what a [Mixed] path holds and what
    [xml2js] hands back. The properties of an object are listed in the order
    in which [for ... in] visits them. [Number] stands for the numbers. *)
#[warnings="-register-all"]
Inductive JsValue (Number : Type) : Type :=
| JsUndefined
| JsNull
| JsBoolean (b : bool)
| JsNumber (n : Number)
| JsString (s : string)
| JsArray (items : list (JsValue Number))
| JsObject (props : list (string * JsValue Number)).

Arguments JsUndefined {Number}.
Arguments JsNull {Number}.
Arguments JsBoolean {Number} b.
Arguments JsNumber {Number} n.
Arguments JsString {Number} s.
Arguments JsArray {Number} items.
Arguments JsObject {Number} props.

(** ** authenticateToken *)

(** [s.split(' ')]: the pieces of [s] between single spaces; two spaces in a
    row enclose an empty piece, and the empty string has one empty piece. *)
Fixpoint splitSpaces (s : string) : list string :=
  match s with
  | EmptyString => [EmptyString]
  | String c rest =>
      if Ascii.eqb c " "%char then EmptyString :: splitSpaces rest
      else match splitSpaces rest with
           | piece :: pieces => String c piece :: pieces
           | [] => [String c EmptyString]
           end
  end.

(** Truth value of a string or [undefined]. *)
Definition truthy (s : option string) : bool :=
  match s with
  | Some EmptyString => false
  | Some _ => true
  | None => false
  end.

(** [authHeader && authHeader.split(' ')[1]], as far as [!token] and
    [jwt.verify(token, ...)] can tell: the second piece when there is a
    non-empty header with a second piece. *)
Definition headerToken (authHeader : option string) : option string :=
  if truthy authHeader then
    match authHeader with
    | Some h => nth_error (splitSpaces h) 1
    | None => None
    end
  else None.

(** The payload of a verified token, as [routes/auth.js] signs it. *)
Record TokenPayload : Type := mkPayload {
  payload_id : ObjectId;
  payload_username : string
}.

(** What the middleware does with the request: answer it, or set
    [req.userId] and [req.username] and call [next()]. *)
Inductive AuthOutcome : Type :=
| Respond (status : nat) (error : string)
| Next (userId : ObjectId) (username : string).

(** [verify] stands for [jwt.verify] under the configured secret: the
    decoded payload, or [None] when it reports an error. *)
Definition authenticateToken (verify : string -> option TokenPayload)
    (authHeader : option string) : AuthOutcome :=
  let token := headerToken authHeader in
  if negb (truthy token) then Respond 401 "Access token required"
  else
    match token with
    | Some t =>
        match verify t with
        | None => Respond 403 "Invalid or expired token"
        | Some user => Next (payload_id user) (payload_username user)
        end
    | None => Respond 401 "Access token required"
    end.

(** ** Documents *)

(** A document of the [Document] collection ([documentSchema] with its
    timestamps); numbers in [metadata] are kept as their digits. *)
Record Document : Type := mkDocument {
  doc_id : ObjectId;
  doc_name : string;
  doc_path : string;
  doc_size : option N;
  doc_mimeType : option string;
  doc_contentHash : option string;
  doc_metadata : JsValue string;
  doc_uploadedBy : option ObjectId;
  doc_uploadedAt : Date;
  doc_lastAccessed : option Date;
  doc_tags : list string;
  doc_status : string;
  doc_createdAt : Date;
  doc_updatedAt : Date
}.

(** The two collections the document routes work on. *)
Record Database : Type := mkDatabase {
  aclCollection : AclCollection;
  documentCollection : list Document
}.

Definition findDocumentById (docs : list Document) (id : ObjectId)
    : option Document :=
  find (fun d => N.eqb (doc_id d) id) docs.

(** [document.save()] on a document that was loaded from the collection:
    the stored document with that [_id] is replaced. *)
Definition saveDocument (d : Document) (docs : list Document) : list Document :=
  map (fun x => if N.eqb (doc_id x) (doc_id d) then d else x) docs.

(** [document.lastAccessed = new Date()] then [save()], which stamps
    [updatedAt]; a path set to the value it already has is not modified,
    and [save()] of an unmodified document writes nothing. *)
Definition touchDocument (now : Date) (d : Document) : Document :=
  if match doc_lastAccessed d with Some t => Z.eqb t now | None => false end
  then d
  else
    mkDocument (doc_id d) (doc_name d) (doc_path d) (doc_size d) (doc_mimeType d)
      (doc_contentHash d) (doc_metadata d) (doc_uploadedBy d) (doc_uploadedAt d)
      (Some now) (doc_tags d) (doc_status d) (doc_createdAt d) now.

(** [document.status = 'deleted'] then [save()], with the same proviso. *)
Definition markDeleted (now : Date) (d : Document) : Document :=
  if String.eqb (doc_status d) "deleted" then d
  else
    mkDocument (doc_id d) (doc_name d) (doc_path d) (doc_size d) (doc_mimeType d)
      (doc_contentHash d) (doc_metadata d) (doc_uploadedBy d) (doc_uploadedAt d)
      (doc_lastAccessed d) (doc_tags d) "deleted" (doc_createdAt d) now.

(** What [.select('name size mimeType uploadedAt lastAccessed uploadedBy tags')]
    keeps of a document, with its [_id]. *)
Record DocumentSummary : Type := mkSummary {
  sum_id : ObjectId;
  sum_name : string;
  sum_size : option N;
  sum_mimeType : option string;
  sum_uploadedAt : Date;
  sum_lastAccessed : option Date;
  sum_uploadedBy : option ObjectId;
  sum_tags : list string
}.

Definition selectSummary (d : Document) : DocumentSummary :=
  mkSummary (doc_id d) (doc_name d) (doc_size d) (doc_mimeType d)
    (doc_uploadedAt d) (doc_lastAccessed d) (doc_uploadedBy d) (doc_tags d).

(** ** Responses *)

Inductive ResponseBody : Type :=
| ErrorJson (error : string)
| MessageJson (message : string)
| DocumentJson (d : Document)
| DocumentListJson (l : list DocumentSummary)
| PermissionListJson (l : list (Acl * option Grantor))
| UploadedJson (message : string) (documentId : ObjectId) (fileName : string)
    (size : option N).

Record Response : Type := mkResponse {
  statusCode : nat;
  responseBody : ResponseBody
}.

(** ** The document routes

    Each handler is given the [userId] that [authenticateToken] put on the
    request and one reading [now] of the clock; an error thrown inside its
    [try] block becomes the handler's 500 answer. *)

(** [GET /:id]. *)
Definition getDocumentRoute (users : list User) (now : Date)
    (userId documentId : ObjectId) (db : Database) : Response * Database :=
  if negb (hasPermission users (documents (aclCollection db)) now userId
             "document" documentId PERMISSIONS.READ)
  then (mkResponse 403 (ErrorJson "Access denied"), db)
  else
    match findDocumentById (documentCollection db) documentId with
    | None => (mkResponse 404 (ErrorJson "Document not found"), db)
    | Some document =>
        let document' := touchDocument now document in
        (mkResponse 200 (DocumentJson document'),
         mkDatabase (aclCollection db)
                    (saveDocument document' (documentCollection db)))
    end.

(** [GET /]: the ids come from [getUserAccessibleResources]; [$in] compares
    them with [_id] by value. *)
Definition listDocumentsRoute (users : list User) (now : Date) (heap : nat)
    (userId : ObjectId) (db : Database) : Response :=
  let accessibleDocIds :=
    getUserAccessibleResources users (documents (aclCollection db)) now heap
      userId "document" PERMISSIONS.READ in
  let found :=
    filter (fun d => existsb (N.eqb (doc_id d)) (idValues accessibleDocIds)
                     && String.eqb (doc_status d) "active")
           (documentCollection db) in
  mkResponse 200 (DocumentListJson (map selectSummary found)).

(** [PUT /:id/permissions]; the body fields are passed on as they are, and
    no expiry is passed. *)
Definition putPermissionsRoute (users : list User) (now : Date)
    (userId id : ObjectId) (granteeType_ : string)
    (granteeId_ : option ObjectId) (granteeName_ : option string)
    (permission_ : string) (db : Database) : Response * Database :=
  if negb (hasPermission users (documents (aclCollection db)) now userId
             "document" id PERMISSIONS.ADMIN)
  then (mkResponse 403
          (ErrorJson "Access denied. Admin permission required to manage permissions."),
        db)
  else
    let granted :=
      grantPermission users now "document" id granteeType_ granteeId_
        granteeName_ permission_ userId None (aclCollection db) in
    let db' := mkDatabase (snd granted) (documentCollection db) in
    match fst granted with
    | inl _ => (mkResponse 500 (ErrorJson "Failed to update permissions"), db')
    | inr _ => (mkResponse 200 (MessageJson "Permission granted successfully"), db')
    end.

(** [GET /:id/permissions]. *)
Definition getPermissionsRoute (users : list User) (now : Date)
    (userId id : ObjectId) (db : Database) : Response :=
  if negb (hasPermission users (documents (aclCollection db)) now userId
             "document" id PERMISSIONS.READ)
  then mkResponse 403 (ErrorJson "Access denied")
  else mkResponse 200
         (PermissionListJson
            (getResourcePermissions users (documents (aclCollection db)) now
               "document" id)).

(** [DELETE /:id]. [storageDelete path] tells whether
    [storageService.delete(path)] resolves ([true]) or throws. *)
Definition deleteDocumentRoute (storageDelete : string -> bool)
    (users : list User) (now : Date) (userId id : ObjectId) (db : Database)
    : Response * Database :=
  if negb (hasPermission users (documents (aclCollection db)) now userId
             "document" id PERMISSIONS.DELETE)
  then (mkResponse 403 (ErrorJson "Access denied"), db)
  else
    match findDocumentById (documentCollection db) id with
    | None => (mkResponse 404 (ErrorJson "Document not found"), db)
    | Some document =>
        if storageDelete (doc_path document) then
          (mkResponse 200 (MessageJson "Document deleted successfully"),
           mkDatabase (aclCollection db)
                      (saveDocument (markDeleted now document)
                                    (documentCollection db)))
        else (mkResponse 500 (ErrorJson "Failed to delete document"), db)
    end.

(** ** The upload route *)

(** [req.file] as multer's disk storage fills it in. *)
Record UploadedFile : Type := mkUploadedFile {
  file_originalname : string;
  file_mimetype : string;
  file_size : N;
  file_path : string
}.

(** How the collaborators of [POST /upload] behave on this request:
    whether reading the temporary file succeeds, what
    [metadataExtractor.extractMetadata] returns (the metadata and its
    [contentHash]; [None] when it throws), the path
    [storageService.upload] resolves to ([None] when it throws), and whether
    removing the temporary file succeeds. *)
Record UploadEnvironment : Type := mkUploadEnvironment {
  readsFile : bool;
  extracted : option (JsValue string * string);
  storedAt : option string;
  unlinksFile : bool
}.

(** [document.save()] of a new document: [name] and [path] are required,
    and [contentHash] carries a unique index. *)
Definition insertDocument (d : Document) (docs : list Document)
    : option (list Document) :=
  if String.eqb (doc_name d) "" || String.eqb (doc_path d) "" then None
  else if existsb (fun x => match doc_contentHash x, doc_contentHash d with
                            | Some h, Some h' => String.eqb h h'
                            | _, _ => false
                            end) docs
       then None
       else Some (docs ++ [d]).

(** [POST /upload]. The [_id] of the new document comes from the same
    generator as those of the grant records. *)
Definition uploadRoute (env : UploadEnvironment) (users : list User)
    (now : Date) (userId : ObjectId) (file : option UploadedFile)
    (db : Database) : Response * Database :=
  let failed := mkResponse 500 (ErrorJson "Failed to upload document") in
  match file with
  | None => (mkResponse 400 (ErrorJson "No file uploaded"), db)
  | Some f =>
      if negb (readsFile env) then (failed, db) else
      match extracted env with
      | None => (failed, db)
      | Some (metadata, contentHash) =>
          match storedAt env with
          | None => (failed, db)
          | Some filePath =>
              let acl := aclCollection db in
              let document :=
                mkDocument (nextObjectId acl) (file_originalname f) filePath
                  (Some (file_size f)) (Some (file_mimetype f))
                  (Some contentHash) metadata (Some userId) now None []
                  "active" now now in
              let acl1 := mkCollection (documents acl) (N.succ (nextObjectId acl)) in
              match insertDocument document (documentCollection db) with
              | None => (failed, mkDatabase acl1 (documentCollection db))
              | Some docs' =>
                  let granted :=
                    grantPermission users now "document" (doc_id document)
                      "user" (Some userId) None PERMISSIONS.ADMIN userId None
                      acl1 in
                  let db' := mkDatabase (snd granted) docs' in
                  match fst granted with
                  | inl _ => (failed, db')
                  | inr _ =>
                      if String.eqb (file_path f) "" || unlinksFile env then
                        (mkResponse 201
                           (UploadedJson "Document uploaded successfully"
                              (doc_id document) (doc_name document)
                              (doc_size document)),
                         db')
                      else (failed, db')
                  end
              end
          end
      end
  end.

(** ** extractTextFromXml *)

(** [numberToString] stands for [String(obj)] on numbers. *)
Fixpoint extractTextFromXml {Number : Type} (numberToString : Number -> string)
    (obj : JsValue Number) (text : string) : string :=
  match obj with
  | JsString s => (text ++ " " ++ s)%string
  | JsNumber n => (text ++ " " ++ numberToString n)%string
  | JsArray items =>
      (fix reduce (l : list (JsValue Number)) (acc : string) : string :=
         match l with
         | [] => acc
         | item :: rest => reduce rest (extractTextFromXml numberToString item acc)
         end) items text
  | JsObject props =>
      (fix each (l : list (string * JsValue Number)) (acc : string) : string :=
         match l with
         | [] => acc
         | (key, value) :: rest =>
             if negb (String.eqb key "$")
             then each rest (extractTextFromXml numberToString value acc)
             else each rest acc
         end) props text
  | JsNull => text
  | JsUndefined => text
  | JsBoolean _ => text
  end.

(** The value with every ['$'] property (where [xml2js] puts the
    attributes of an element) taken out, at every depth. *)
Fixpoint stripAttributes {Number : Type} (v : JsValue Number) : JsValue Number :=
  match v with
  | JsArray items => JsArray (map stripAttributes items)
  | JsObject props =>
      JsObject
        ((fix strip (l : list (string * JsValue Number)) :=
            match l with
            | [] => []
            | (key, value) :: rest =>
                if String.eqb key "$" then strip rest
                else (key, stripAttributes value) :: strip rest
            end) props)
  | other => other
  end.

(** A parsed [<note id="7"><to>Ann</to><body>Hi</body><body>there</body></note>]. *)
Definition sampleXml : JsValue string :=
  JsObject
    [("note",
      JsObject [("$", JsObject [("id", JsString "7")]);
                ("to", JsArray [JsString "Ann"]);
                ("body", JsArray [JsString "Hi"; JsString "there"])])].

(** Sample documents and a sample token check. *)
Definition sampleDocument (id : ObjectId) (status : string) : Document :=
  mkDocument id "report.pdf" "ab/cd/report" (Some 2048%N)
    (Some "application/pdf") (Some "abcd") JsNull (Some 2%N) 900%Z None
    ["q3"] status 900%Z 900%Z.

Definition sampleDatabase : Database :=
  mkDatabase (mkCollection [directReadP; publicRead; groupWriteEng] 20%N)
             [sampleDocument docD "active"; sampleDocument docE "active"].

Definition sampleFile : UploadedFile :=
  mkUploadedFile "notes.txt" "text/plain" 12%N "uploads/tmp42".

Definition sampleEnvironment : UploadEnvironment :=
  mkUploadEnvironment true (Some (JsObject [("fileName", JsString "notes.txt")], "ff00"))
    (Some "ff/00/notes") true.

Definition sampleVerify (token : string) : option TokenPayload :=
  if String.eqb token "good" then Some (mkPayload 1%N "pat") else None.

(** * Properties *)

(** ** Queries as boolean formulas *)

Lemma isSome_findOne (q : Acl -> bool) (acls : list Acl) :
  isSome (findOne q acls) = existsb q acls.
Proof.
  unfold findOne.
  induction acls as [|a rest IH]; simpl; [reflexivity|].
  destruct (q a); simpl; [reflexivity | exact IH].
Qed.

(** The three-branch decision written as one disjunction. *)
Lemma hasPermission_branches users acls now userId rt rid perm :
  hasPermission users acls now userId rt rid perm =
    existsb (directQuery rt rid userId PERMISSIONS.ADMIN now) acls
    || existsb (directQuery rt rid userId perm now) acls
    || match findById users userId with
       | Some user =>
           (0 <? List.length (groups user))%nat
           && existsb (groupQuery rt rid (groups user) perm now) acls
       | None => false
       end
    || existsb (publicQuery rt rid perm now) acls.
Proof.
  unfold hasPermission.
  rewrite !isSome_findOne.
  destruct (existsb (directQuery rt rid userId PERMISSIONS.ADMIN now) acls);
    simpl; [reflexivity|].
  destruct (existsb (directQuery rt rid userId perm now) acls);
    simpl; [reflexivity|].
  destruct (findById users userId) as [user|]; simpl.
  - destruct (0 <? List.length (groups user))%nat; simpl.
    + rewrite isSome_findOne.
      destruct (existsb (groupQuery rt rid (groups user) perm now) acls);
        reflexivity.
    + reflexivity.
  - reflexivity.
Qed.

Lemma directQuery_live rt rid uid perm now a :
  directQuery rt rid uid perm now a = true -> activeUnexpired now a = true.
Proof. unfold directQuery. intros H. apply andb_prop in H. tauto. Qed.

Lemma groupQuery_live rt rid names perm now a :
  groupQuery rt rid names perm now a = true -> activeUnexpired now a = true.
Proof. unfold groupQuery. intros H. apply andb_prop in H. tauto. Qed.

Lemma publicQuery_live rt rid perm now a :
  publicQuery rt rid perm now a = true -> activeUnexpired now a = true.
Proof. unfold publicQuery. intros H. apply andb_prop in H. tauto. Qed.

(** The shared tail, read as the two conditions it imposes. *)
Lemma activeUnexpired_iff now a :
  activeUnexpired now a = true <->
  active a = true /\
  (expiresAt a = Missing \/ exists d, expiresAt a = At d /\ (now < d)%Z).
Proof.
  unfold activeUnexpired, notExists, gtDate.
  rewrite andb_true_iff, orb_true_iff.
  destruct (expiresAt a) as [| |d]; split; intros [Ha Hb]; split; auto.
  - destruct Hb; discriminate.
  - destruct Hb as [Hb|[d [Hb _]]]; discriminate.
  - right. exists d. split; [reflexivity|].
    destruct Hb as [Hb|Hb]; [discriminate | now apply Z.ltb_lt].
  - right. destruct Hb as [Hb|[d' [Hb Hlt]]]; [discriminate|].
    injection Hb as <-. now apply Z.ltb_lt.
Qed.

Lemma expired_not_live now a d :
  expiresAt a = At d -> (d <= now)%Z -> activeUnexpired now a = false.
Proof.
  intros He Hle. unfold activeUnexpired. rewrite He. simpl.
  replace (now <? d)%Z with false by (symmetry; apply Z.ltb_ge; exact Hle).
  apply andb_false_r.
Qed.

Lemma existsb_filter_implied {A : Type} (q p : A -> bool) (l : list A) :
  (forall a, q a = true -> p a = true) ->
  existsb q (filter p l) = existsb q l.
Proof.
  intros Himp. induction l as [|a l IH]; simpl; [reflexivity|].
  destruct (p a) eqn:Hp; simpl.
  - now rewrite IH.
  - rewrite IH. destruct (q a) eqn:Hq; [|reflexivity].
    apply Himp in Hq. congruence.
Qed.

Lemma existsb_drop {A : Type} (q : A -> bool) (l1 l2 : list A) (a : A) :
  q a = false -> existsb q (l1 ++ a :: l2) = existsb q (l1 ++ l2).
Proof.
  intros Hq. rewrite !existsb_app. simpl. now rewrite Hq.
Qed.

(** ** The set of reachable resources *)

Lemma hydrate_addresses heap docs :
  map snd (hydrate heap docs) = seq heap (List.length docs).
Proof.
  revert heap. induction docs as [|a rest IH]; intros heap; simpl.
  - reflexivity.
  - now rewrite IH.
Qed.

Lemma hydrate_documents heap docs :
  map fst (hydrate heap docs) = docs.
Proof.
  revert heap. induction docs as [|a rest IH]; intros heap; simpl.
  - reflexivity.
  - now rewrite IH.
Qed.

Lemma hydrate_length heap docs :
  List.length (hydrate heap docs) = List.length docs.
Proof.
  revert heap. induction docs as [|a rest IH]; intros heap; simpl; auto.
Qed.

Lemma existsb_sameValueZero_fresh x s :
  ~ In (oid_address x) (map oid_address s) ->
  existsb (sameValueZero x) s = false.
Proof.
  induction s as [|y s IH]; simpl; intros Hn; [reflexivity|].
  unfold sameValueZero at 1.
  destruct (Nat.eqb_spec (oid_address x) (oid_address y)) as [E|E].
  - exfalso. apply Hn. left. now symmetry.
  - simpl. apply IH. intros Hin. apply Hn. now right.
Qed.

Lemma fold_setAdd_distinct xs : forall acc,
  NoDup (map oid_address (acc ++ xs)) ->
  fold_left setAdd xs acc = acc ++ xs.
Proof.
  induction xs as [|x xs IH]; intros acc Hnd; simpl.
  - now rewrite app_nil_r.
  - unfold setAdd at 2.
    rewrite existsb_sameValueZero_fresh.
    + rewrite IH; rewrite <- app_assoc; simpl; [reflexivity | exact Hnd].
    + rewrite map_app in Hnd. simpl in Hnd.
      apply NoDup_remove_2 in Hnd.
      intros Hin. apply Hnd. apply in_or_app. now left.
Qed.

(** A [Set] built from objects that are pairwise distinct references drops
    nothing, whatever ids they hold. *)
Lemma newSet_distinct_references xs :
  NoDup (map oid_address xs) -> newSet xs = xs.
Proof.
  intros Hnd. unfold newSet. now rewrite fold_setAdd_distinct.
Qed.

Lemma resourceIdObject_address hs :
  map oid_address (map resourceIdObject hs) = map snd hs.
Proof. rewrite map_map. reflexivity. Qed.

Lemma resourceIdObject_value heap docs :
  idValues (map resourceIdObject (hydrate heap docs)) = map resourceId docs.
Proof.
  unfold idValues. rewrite map_map.
  rewrite <- (hydrate_documents heap docs) at 2.
  rewrite map_map. reflexivity.
Qed.

(** The ids [getUserAccessibleResources] returns are those of the three query
    results laid end to end: no entry is ever merged with another. *)
Lemma getUserAccessibleResources_values users acls now heap userId rt perm :
  idValues (getUserAccessibleResources users acls now heap userId rt perm) =
    map resourceId (findAll (directAclsQuery rt userId perm now) acls)
    ++ match findById users userId with
       | Some user =>
           if (0 <? List.length (groups user))%nat
           then map resourceId
                  (findAll (groupAclsQuery rt (groups user) perm now) acls)
           else []
       | None => []
       end
    ++ map resourceId (findAll (publicAclsQuery rt perm now) acls).
Proof.
  unfold getUserAccessibleResources.
  set (d := findAll (directAclsQuery rt userId perm now) acls).
  set (p := findAll (publicAclsQuery rt perm now) acls).
  assert (Hval : forall h g,
    (g = [] \/ exists docs, g = hydrate (heap + List.length (hydrate heap d)) docs) ->
    h = (heap + List.length (hydrate heap d) + List.length g)%nat ->
    idValues (newSet (map resourceIdObject (hydrate heap d)
                      ++ map resourceIdObject g
                      ++ map resourceIdObject (hydrate h p))) =
    map resourceId d ++ map resourceId (map fst g) ++ map resourceId p).
  { intros h g Hg ->.
    rewrite newSet_distinct_references.
    - unfold idValues. rewrite !map_app.
      fold (idValues (map resourceIdObject (hydrate heap d))).
      fold (idValues (map resourceIdObject
              (hydrate (heap + List.length (hydrate heap d) + List.length g) p))).
      rewrite !resourceIdObject_value.
      do 2 f_equal. rewrite !map_map. reflexivity.
    - rewrite !map_app, !resourceIdObject_address, !hydrate_addresses.
      rewrite hydrate_length.
      assert (Hgs : map snd g = seq (heap + List.length d) (List.length g)).
      { destruct Hg as [->|[docs ->]]; [reflexivity|].
        rewrite hydrate_addresses, !hydrate_length. reflexivity. }
      rewrite Hgs, <- !seq_app. apply seq_NoDup. }
  destruct (findById users userId) as [user|].
  - destruct (0 <? List.length (groups user))%nat.
    + rewrite Hval; [|right; eexists; reflexivity|reflexivity].
      now rewrite hydrate_documents.
    + rewrite Hval; [reflexivity|now left|reflexivity].
  - rewrite Hval; [reflexivity|now left|reflexivity].
Qed.

(** ** Decisions and the hierarchy *)

(** Which stored grants make [hasPermission] answer [true]: a live grant on
    the resource that names the requested permission itself, through any of
    the three grantee kinds, or a live direct grant of [admin]. *)
Lemma hasPermission_true_iff users acls now userId rt rid perm :
  hasPermission users acls now userId rt rid perm = true <->
  exists a, In a acls
    /\ resourceType a = rt /\ resourceId a = rid
    /\ activeUnexpired now a = true
    /\ ((granteeType a = "user" /\ granteeId a = Some userId
           /\ (permission a = PERMISSIONS.ADMIN \/ permission a = perm))
        \/ (granteeType a = "group" /\ permission a = perm
              /\ exists user n, findById users userId = Some user
                   /\ granteeName a = Some n /\ In n (groups user))
        \/ (granteeType a = "public" /\ permission a = perm)).
Proof.
  rewrite hasPermission_branches, !orb_true_iff.
  assert (Hdirect : forall p a, directQuery rt rid userId p now a = true <->
            resourceType a = rt /\ resourceId a = rid
            /\ granteeType a = "user" /\ granteeId a = Some userId
            /\ permission a = p /\ activeUnexpired now a = true).
  { intros p a. unfold directQuery, eqOid.
    rewrite !andb_true_iff, !String.eqb_eq, N.eqb_eq.
    destruct (granteeId a) as [g|].
    - rewrite N.eqb_eq. split.
      + intros [[[[[? ?] ?] ->] ?] ?]. tauto.
      + intros (? & ? & ? & Hg & ? & ?). injection Hg as ->. tauto.
    - split; [intros [[[[[? ?] ?] ?] ?] ?]; discriminate|].
      intros (? & ? & ? & ? & ?); discriminate. }
  assert (Hgroup : forall names a, groupQuery rt rid names perm now a = true <->
            resourceType a = rt /\ resourceId a = rid
            /\ granteeType a = "group"
            /\ (exists n, granteeName a = Some n /\ In n names)
            /\ permission a = perm /\ activeUnexpired now a = true).
  { intros names a. unfold groupQuery, inNames.
    rewrite !andb_true_iff, !String.eqb_eq, N.eqb_eq.
    destruct (granteeName a) as [n|].
    - rewrite existsb_exists. split.
      + intros [[[[[? ?] ?] [m [Hm He]]] ?] ?].
        apply String.eqb_eq in He. subst m. repeat split; eauto.
      + intros (? & ? & ? & [m [Hm Hin]] & ? & ?). injection Hm as <-.
        repeat split; auto. exists n. split; [assumption | apply String.eqb_refl].
    - split; [intros [[[[[? ?] ?] ?] ?] ?]; discriminate|].
      intros (? & ? & ? & [m [Hm _]] & ?); discriminate. }
  assert (Hpublic : forall a, publicQuery rt rid perm now a = true <->
            resourceType a = rt /\ resourceId a = rid
            /\ granteeType a = "public"
            /\ permission a = perm /\ activeUnexpired now a = true).
  { intros a. unfold publicQuery.
    rewrite !andb_true_iff, !String.eqb_eq, N.eqb_eq. tauto. }
  split.
  - intros [[[H|H]|H]|H].
    + apply existsb_exists in H as [a [Hin Hq]]. apply Hdirect in Hq.
      exists a. intuition.
    + apply existsb_exists in H as [a [Hin Hq]]. apply Hdirect in Hq.
      exists a. intuition.
    + destruct (findById users userId) as [user|] eqn:Hu; [|discriminate].
      apply andb_prop in H as [_ H].
      apply existsb_exists in H as [a [Hin Hq]]. apply Hgroup in Hq.
      destruct Hq as (? & ? & ? & [n [? ?]] & ? & ?).
      exists a. repeat split; auto. right. left. repeat split; auto.
      exists user, n. auto.
    + apply existsb_exists in H as [a [Hin Hq]]. apply Hpublic in Hq.
      exists a. intuition.
  - intros [a (Hin & Hrt & Hrid & Hlive & Hkind)].
    destruct Hkind as [(Hgt & Hgid & [Hp|Hp]) | [(Hgt & Hp & user & n & Hu & Hn & Hmem) | (Hgt & Hp)]].
    + left. left. left. apply existsb_exists. exists a. split; [assumption|].
      apply Hdirect. tauto.
    + left. left. right. apply existsb_exists. exists a. split; [assumption|].
      apply Hdirect. tauto.
    + left. right. rewrite Hu. apply andb_true_intro. split.
      * apply Nat.ltb_lt. destruct (groups user); [contradiction | simpl; lia].
      * apply existsb_exists. exists a. split; [assumption|].
        apply Hgroup. repeat split; auto. exists n. auto.
    + right. apply existsb_exists. exists a. split; [assumption|].
      apply Hpublic. tauto.
Qed.

(** C1. A group grant of [write] to a group the principal belongs to should
    answer a request for [read] as well as for [write]; evaluated on the
    code, the request for [read] is denied ([write] is granted and [admin]
    denied, as expected). Only a direct [admin] grant is expanded. *)
Theorem hasPermission_group_write_denies_read :
  hasPermission sampleUsers [groupWriteEng] 1500%Z 1%N "document" docD "read" = false
  /\ hasPermission sampleUsers [groupWriteEng] 1500%Z 1%N "document" docD "write" = true
  /\ hasPermission sampleUsers [groupWriteEng] 1500%Z 1%N "document" docD "admin" = false.
Proof. repeat split; vm_compute; reflexivity. Qed.

(** C2. [getUserAccessibleResources] should list exactly the resources on
    which [hasPermission] holds. On the code the two differ both ways: a
    direct [admin] grant passes [hasPermission] for [read] while the listing
    for [read] is empty, and a direct [read] grant puts the resource in the
    listing for [admin] while [hasPermission] for [admin] is denied. *)
Theorem getUserAccessibleResources_differs_from_hasPermission :
  (hasPermission sampleUsers [directAdminP] 1500%Z 1%N "document" docD "read" = true
   /\ idValues (getUserAccessibleResources sampleUsers [directAdminP] 1500%Z 0
                  1%N "document" "read") = [])
  /\ (hasPermission sampleUsers [directReadP] 1500%Z 1%N "document" docD "admin" = false
      /\ idValues (getUserAccessibleResources sampleUsers [directReadP] 1500%Z 0
                     1%N "document" "admin") = [docD]).
Proof. repeat split; vm_compute; reflexivity. Qed.

(** C3. A resource reached through a direct grant and through a public grant
    should be listed once; on the code it is listed twice, because the two
    [resourceId] objects are different references and the [Set] keeps both. *)
Theorem getUserAccessibleResources_lists_resource_twice :
  idValues (getUserAccessibleResources sampleUsers [directReadP; publicRead]
              1500%Z 0 1%N "document" "read") = [docD; docD]
  /\ ~ NoDup (idValues (getUserAccessibleResources sampleUsers
                          [directReadP; publicRead] 1500%Z 0 1%N "document" "read")).
Proof.
  split; [vm_compute; reflexivity|].
  intros Hnd. vm_compute in Hnd.
  inversion Hnd as [|x l Hnotin _]. apply Hnotin. now left.
Qed.

(** ** Expiry *)

(** C6. Every branch of [hasPermission] reads only records with
    [active = true] whose [expiresAt] is absent or strictly in the future:
    the decision is the same on the collection restricted to those records,
    and a record whose [expiresAt] is not after [now] can be taken out of the
    collection without changing any decision, whatever its [active] flag. *)
Theorem hasPermission_never_satisfied_by_expired :
  forall users now userId rt rid perm,
    (forall a, activeUnexpired now a = true <->
       active a = true /\
       (expiresAt a = Missing \/ exists d, expiresAt a = At d /\ (now < d)%Z))
    /\ (forall acls,
          hasPermission users acls now userId rt rid perm =
          hasPermission users (filter (activeUnexpired now) acls) now userId rt rid perm)
    /\ (forall before after a d,
          expiresAt a = At d -> (d <= now)%Z ->
          hasPermission users (before ++ a :: after) now userId rt rid perm =
          hasPermission users (before ++ after) now userId rt rid perm).
Proof.
  intros users now userId rt rid perm. split; [|split].
  - intros a. apply activeUnexpired_iff.
  - intros acls. rewrite !hasPermission_branches.
    rewrite !(existsb_filter_implied _ (activeUnexpired now))
      by (intros a; first [apply directQuery_live | apply publicQuery_live]).
    destruct (findById users userId) as [user|]; [|reflexivity].
    rewrite (existsb_filter_implied _ (activeUnexpired now))
      by (intros a; apply groupQuery_live).
    reflexivity.
  - intros before after a d He Hle.
    pose proof (expired_not_live now a d He Hle) as Hdead.
    assert (Hd : forall p, directQuery rt rid userId p now a = false).
    { intros p. destruct (directQuery rt rid userId p now a) eqn:E; [|reflexivity].
      apply directQuery_live in E. congruence. }
    assert (Hg : forall names, groupQuery rt rid names perm now a = false).
    { intros names. destruct (groupQuery rt rid names perm now a) eqn:E; [|reflexivity].
      apply groupQuery_live in E. congruence. }
    assert (Hp : publicQuery rt rid perm now a = false).
    { destruct (publicQuery rt rid perm now a) eqn:E; [|reflexivity].
      apply publicQuery_live in E. congruence. }
    rewrite !hasPermission_branches.
    rewrite !(existsb_drop _ before after a) by (first [apply Hd | apply Hp]).
    destruct (findById users userId) as [user|]; [|reflexivity].
    rewrite (existsb_drop _ before after a) by apply Hg.
    reflexivity.
Qed.

(** An active direct grant that ran out at the very instant of the check is
    already ignored. *)
Lemma hasPermission_never_satisfied_by_expired_witness :
  expiresAt directReadExpiredP = At 2000%Z
  /\ (2000 <= 2000)%Z
  /\ active directReadExpiredP = true
  /\ hasPermission sampleUsers ([] ++ directReadExpiredP :: []) 2000%Z
       1%N "document" docD "read"
     = hasPermission sampleUsers ([] ++ []) 2000%Z 1%N "document" docD "read".
Proof.
  split; [reflexivity|]. split; [lia|]. split; [reflexivity|].
  apply (proj2 (proj2 (hasPermission_never_satisfied_by_expired
                         sampleUsers 2000%Z 1%N "document" docD "read"))
           [] [] directReadExpiredP 2000%Z).
  - reflexivity.
  - lia.
Defined.

(** ** Direct admin grants *)

(** What the first query of [hasPermission] does find: a stored direct
    grant of [admin] that is active and whose [expiresAt] is missing or a
    later date answers every request of the grantee on the resource. *)
Lemma hasPermission_direct_admin_all_four :
  forall users acls now P rt R a,
    In a acls ->
    resourceType a = rt -> resourceId a = R ->
    granteeType a = "user" -> granteeId a = Some P ->
    permission a = PERMISSIONS.ADMIN ->
    active a = true ->
    (expiresAt a = Missing \/ exists d, expiresAt a = At d /\ (now < d)%Z) ->
    Forall (fun x => hasPermission users acls now P rt R x = true)
           [PERMISSIONS.READ; PERMISSIONS.WRITE; PERMISSIONS.DELETE; PERMISSIONS.ADMIN].
Proof.
  intros users acls now P rt R a Hin Hrt Hrid Hgt Hgid Hperm Hact Hexp.
  assert (Hall : forall x, hasPermission users acls now P rt R x = true).
  { intros x. apply hasPermission_true_iff. exists a.
    repeat split; try assumption.
    - apply activeUnexpired_iff. split; assumption.
    - left. repeat split; try assumption. now left. }
  repeat constructor; apply Hall.
Qed.

Lemma hasPermission_direct_admin_all_four_witness :
  In directAdminP [groupWriteOps; directAdminP]
  /\ Forall (fun x => hasPermission sampleUsers [groupWriteOps; directAdminP]
                        1500%Z 1%N "document" docD x = true)
            [PERMISSIONS.READ; PERMISSIONS.WRITE; PERMISSIONS.DELETE; PERMISSIONS.ADMIN].
Proof.
  split; [right; left; reflexivity|].
  apply (hasPermission_direct_admin_all_four sampleUsers
           [groupWriteOps; directAdminP] 1500%Z 1%N "document" docD directAdminP).
  - right; left; reflexivity.
  - reflexivity.
  - reflexivity.
  - reflexivity.
  - reflexivity.
  - reflexivity.
  - reflexivity.
  - right. exists 9000%Z. split; [reflexivity | lia].
Defined.

(** C7. Granting [admin] to a principal on a resource should make
    [hasPermission] hold for all four permissions. Evaluated on the code,
    with the grant made the way the service and its routes make it (no
    expiry given): the record is stored, active, with [expiresAt: null],
    the first query of [hasPermission] does not select it, and the grantee
    is denied each of [read], [write], [delete] and [admin]. *)
Theorem granted_admin_is_denied :
  let call := grantPermission sampleUsers 1000%Z "document" docD "user"
                (Some 1%N) None "admin" 1%N None emptyCollection in
  fst call = inr (mkAcl 0%N "document" docD "user" (Some 1%N) None "admin" 1%N
                    1000%Z Null true 1000%Z 1000%Z)
  /\ documents (snd call)
     = [mkAcl 0%N "document" docD "user" (Some 1%N) None "admin" 1%N
          1000%Z Null true 1000%Z 1000%Z]
  /\ Forall (fun x => hasPermission sampleUsers (documents (snd call)) 1001%Z
                        1%N "document" docD x = false)
       [PERMISSIONS.READ; PERMISSIONS.WRITE; PERMISSIONS.DELETE; PERMISSIONS.ADMIN].
Proof.
  split; [vm_compute; reflexivity|]. split; [vm_compute; reflexivity|].
  repeat constructor; vm_compute; reflexivity.
Qed.

(** ** Revocation *)

Lemma eqOidOrNull_eq field v : eqOidOrNull field v = true <-> field = v.
Proof.
  unfold eqOidOrNull. destruct field as [x|], v as [y|]; split; intros H;
    try discriminate; try reflexivity.
  - apply N.eqb_eq in H. now subst.
  - injection H as ->. apply N.eqb_refl.
Qed.

Lemma revokeQuery_iff rt rid gt gid perm a :
  revokeQuery rt rid gt gid perm a = true <->
  resourceType a = rt /\ resourceId a = rid /\ granteeType a = gt
  /\ granteeId a = gid /\ permission a = perm /\ active a = true.
Proof.
  unfold revokeQuery.
  rewrite !andb_true_iff, !String.eqb_eq, N.eqb_eq, eqOidOrNull_eq. tauto.
Qed.

(** The filter reads five paths and the flag; records that agree on them are
    selected together or not at all. *)
Lemma revokeQuery_same_tuple rt rid gt gid perm a b :
  resourceType a = resourceType b -> resourceId a = resourceId b ->
  granteeType a = granteeType b -> granteeId a = granteeId b ->
  permission a = permission b -> active a = active b ->
  revokeQuery rt rid gt gid perm a = revokeQuery rt rid gt gid perm b.
Proof.
  unfold revokeQuery. intros -> -> -> -> -> ->. reflexivity.
Qed.

Lemma revokeQuery_deactivate rt rid gt gid perm now a :
  revokeQuery rt rid gt gid perm (deactivate now a) = false.
Proof. unfold revokeQuery, deactivate. simpl. apply andb_false_r. Qed.

Lemma revokePermission_documents now rt rid gt gid perm c :
  documents (snd (revokePermission now rt rid gt gid perm c)) =
  map (fun a => if revokeQuery rt rid gt gid perm a then deactivate now a else a)
      (documents c).
Proof. reflexivity. Qed.

Lemma revokePermission_nth now rt rid gt gid perm c i a :
  nth_error (documents c) i = Some a ->
  nth_error (documents (snd (revokePermission now rt rid gt gid perm c))) i =
  Some (if revokeQuery rt rid gt gid perm a then deactivate now a else a).
Proof.
  intros H. rewrite revokePermission_documents, nth_error_map, H. reflexivity.
Qed.

Lemma revoked_none_left now rt rid gt gid perm docs :
  filter (revokeQuery rt rid gt gid perm)
    (map (fun a => if revokeQuery rt rid gt gid perm a then deactivate now a else a) docs)
  = [].
Proof.
  induction docs as [|a docs IH]; simpl; [reflexivity|].
  destruct (revokeQuery rt rid gt gid perm a) eqn:E.
  - now rewrite revokeQuery_deactivate.
  - now rewrite E.
Qed.

Lemma map_unselected {A : Type} (q : A -> bool) (f : A -> A) (l : list A) :
  filter q l = [] -> map (fun a => if q a then f a else a) l = l.
Proof.
  induction l as [|a l IH]; simpl; [reflexivity|].
  destruct (q a); [discriminate|]. intros H. now rewrite IH.
Qed.

(** C4. [revokePermission] returns the number of active records matching the
    (resourceType, resourceId, granteeType, granteeId, permission) tuple,
    sets [active = false] on each of them and leaves every other record as it
    was; the same call made again right after returns 0 and changes
    nothing. *)
Theorem revokePermission_deactivates_all_then_zero :
  forall now later rt rid gt gid perm c,
    let first := revokePermission now rt rid gt gid perm c in
    let second := revokePermission later rt rid gt gid perm (snd first) in
    (forall a, revokeQuery rt rid gt gid perm a = true <->
       resourceType a = rt /\ resourceId a = rid /\ granteeType a = gt
       /\ granteeId a = gid /\ permission a = perm /\ active a = true)
    /\ fst first = List.length (filter (revokeQuery rt rid gt gid perm) (documents c))
    /\ (forall i a, nth_error (documents c) i = Some a ->
          revokeQuery rt rid gt gid perm a = true ->
          exists a', nth_error (documents (snd first)) i = Some a'
                     /\ active a' = false /\ a' = deactivate now a)
    /\ (forall i a, nth_error (documents c) i = Some a ->
          revokeQuery rt rid gt gid perm a = false ->
          nth_error (documents (snd first)) i = Some a)
    /\ List.length (documents (snd first)) = List.length (documents c)
    /\ second = (0, snd first).
Proof.
  intros now later rt rid gt gid perm c first second.
  split; [intros a; apply revokeQuery_iff|].
  split; [reflexivity|].
  split; [|split; [|split]].
  - intros i a Hi Hq. exists (deactivate now a).
    unfold first. rewrite (revokePermission_nth _ _ _ _ _ _ _ _ _ Hi), Hq.
    repeat split.
  - intros i a Hi Hq.
    unfold first. rewrite (revokePermission_nth _ _ _ _ _ _ _ _ _ Hi), Hq.
    reflexivity.
  - unfold first. rewrite revokePermission_documents. apply length_map.
  - unfold second, revokePermission, updateMany. simpl.
    rewrite revoked_none_left. simpl.
    rewrite map_unselected by apply revoked_none_left.
    reflexivity.
Qed.

(** Two active grants of [write] to different groups go at once, and the
    same call repeated reports nothing left to do. *)
Lemma revokePermission_deactivates_all_then_zero_witness :
  let c := mkCollection [groupWriteEng; directReadP; groupWriteOps] 20%N in
  let first := revokePermission 3000%Z "document" docD "group" None "write" c in
  nth_error (documents c) 2 = Some groupWriteOps
  /\ revokeQuery "document" docD "group" None "write" groupWriteOps = true
  /\ fst first = 2
  /\ (exists a', nth_error (documents (snd first)) 2 = Some a'
                 /\ active a' = false /\ a' = deactivate 3000%Z groupWriteOps)
  /\ revokePermission 3001%Z "document" docD "group" None "write" (snd first)
     = (0, snd first).
Proof.
  intros c first.
  pose proof (revokePermission_deactivates_all_then_zero
                3000%Z 3001%Z "document" docD "group" None "write" c)
    as (_ & Hcount & Hoff & _ & _ & Hagain).
  split; [reflexivity|]. split; [reflexivity|].
  split; [exact Hcount|]. split; [|exact Hagain].
  apply (Hoff 2 groupWriteOps); reflexivity.
Defined.

Lemma revokeQuery_renameGrantee rename rt rid gt gid perm a :
  revokeQuery rt rid gt gid perm (renameGrantee rename a) =
  revokeQuery rt rid gt gid perm a.
Proof. reflexivity. Qed.

Lemma deactivate_renameGrantee rename now a :
  deactivate now (renameGrantee rename a) = renameGrantee rename (deactivate now a).
Proof. reflexivity. Qed.

(** C10, as the code has it. The filter of [revokePermission] does not
    read [granteeName], but it does read [granteeId]. A call for grantee
    type [group] with no [granteeId] deactivates every active group grant of
    that permission on the resource that carries no [granteeId], whatever
    group it names, and leaves every record that carries a [granteeId] as it
    was; the outcome of the call is the same under any renaming of the
    grantees; and no call at all, with whatever arguments, separates two
    active group grants of one permission on one resource that agree on
    [granteeId]: after it their [active] flags are still equal. *)
Theorem revokePermission_group_ignores_granteeName :
  forall now rt rid perm c,
    let c' := snd (revokePermission now rt rid "group" None perm c) in
    (forall i a, nth_error (documents c) i = Some a ->
       resourceType a = rt -> resourceId a = rid ->
       granteeType a = "group" -> granteeId a = None ->
       permission a = perm -> active a = true ->
       exists a', nth_error (documents c') i = Some a'
                  /\ active a' = false /\ granteeName a' = granteeName a)
    /\ (forall i a g, nth_error (documents c) i = Some a ->
          granteeId a = Some g ->
          nth_error (documents c') i = Some a)
    /\ (forall rename,
          revokePermission now rt rid "group" None perm (renameGrantees rename c)
          = (fst (revokePermission now rt rid "group" None perm c),
             renameGrantees rename c'))
    /\ (forall rt' rid' gt' gid' perm' i j a b,
          nth_error (documents c) i = Some a ->
          nth_error (documents c) j = Some b ->
          resourceType a = rt -> resourceType b = rt ->
          resourceId a = rid -> resourceId b = rid ->
          granteeType a = "group" -> granteeType b = "group" ->
          granteeId a = granteeId b ->
          permission a = perm -> permission b = perm ->
          active a = true -> active b = true ->
          let d := documents (snd (revokePermission now rt' rid' gt' gid' perm' c)) in
          exists a' b', nth_error d i = Some a' /\ nth_error d j = Some b'
                        /\ active a' = active b').
Proof.
  intros now rt rid perm c c'. split; [|split; [|split]].
  - intros i a Hi Hrt Hrid Hgt Hgid Hperm Hact.
    exists (deactivate now a). unfold c'.
    rewrite (revokePermission_nth _ _ _ _ _ _ _ _ _ Hi).
    replace (revokeQuery rt rid "group" None perm a) with true
      by (symmetry; apply revokeQuery_iff; tauto).
    repeat split.
  - intros i a g Hi Hgid. unfold c'.
    rewrite (revokePermission_nth _ _ _ _ _ _ _ _ _ Hi).
    destruct (revokeQuery rt rid "group" None perm a) eqn:E; [|reflexivity].
    apply revokeQuery_iff in E. destruct E as (_ & _ & _ & E & _). congruence.
  - intros rename. unfold c', revokePermission, updateMany, renameGrantees. simpl.
    f_equal.
    + induction (documents c) as [|a docs IH]; simpl; [reflexivity|].
      rewrite revokeQuery_renameGrantee.
      destruct (revokeQuery rt rid "group" None perm a); simpl; now rewrite IH.
    + f_equal. rewrite !map_map. apply map_ext. intros a.
      rewrite revokeQuery_renameGrantee.
      destruct (revokeQuery rt rid "group" None perm a); reflexivity.
  - intros rt' rid' gt' gid' perm' i j a b Hi Hj
           Hrta Hrtb Hrida Hridb Hgta Hgtb Hgid Hpa Hpb Haa Hab d.
    unfold d.
    rewrite (revokePermission_nth _ _ _ _ _ _ _ _ _ Hi).
    rewrite (revokePermission_nth _ _ _ _ _ _ _ _ _ Hj).
    do 2 eexists. split; [reflexivity|]. split; [reflexivity|].
    rewrite (revokeQuery_same_tuple rt' rid' gt' gid' perm' a b) by congruence.
    destruct (revokeQuery rt' rid' gt' gid' perm' b); simpl; congruence.
Qed.

(** Revoking the [write] grants of groups on [docD] takes the grant of "ops"
    along with that of "eng", both stored without a [granteeId]. *)
Lemma revokePermission_group_ignores_granteeName_witness :
  let c := mkCollection [groupWriteEng; directReadP; groupWriteOps] 20%N in
  let c' := snd (revokePermission 3000%Z "document" docD "group" None "write" c) in
  (nth_error (documents c) 0 = Some groupWriteEng
   /\ nth_error (documents c) 2 = Some groupWriteOps
   /\ granteeId groupWriteEng = None /\ granteeId groupWriteOps = None
   /\ granteeName groupWriteEng <> granteeName groupWriteOps)
  /\ (exists a', nth_error (documents c') 0 = Some a'
                 /\ active a' = false /\ granteeName a' = Some "eng")
  /\ (exists a', nth_error (documents c') 2 = Some a'
                 /\ active a' = false /\ granteeName a' = Some "ops")
  /\ nth_error (documents c') 1 = Some directReadP.
Proof.
  intros c c'.
  pose proof (revokePermission_group_ignores_granteeName
                3000%Z "document" docD "write" c) as (Hoff & Hkept & _ & _).
  split; [|split; [|split]].
  - repeat split. discriminate.
  - apply (Hoff 0 groupWriteEng); reflexivity.
  - apply (Hoff 2 groupWriteOps); reflexivity.
  - apply (Hkept 1 directReadP 1%N); reflexivity.
Defined.

(** C10 as stated fails: a group grant that was stored with a [granteeId]
    is active, of that permission, on that resource, and survives the group
    revocation made without a [granteeId]; and the revocation that names its
    [granteeId] deactivates it alone, leaving the other group's grant of the
    same permission active. *)
Lemma group_grant_with_granteeId_revoked_apart :
  map granteeType (documents mixedGroupGrants) = ["group"; "group"]
  /\ map granteeId (documents mixedGroupGrants) = [Some 5%N; None]
  /\ map granteeName (documents mixedGroupGrants) = [Some "eng"; Some "ops"]
  /\ map active (documents mixedGroupGrants) = [true; true]
  /\ fst (revokePermission 2000%Z "document" docD "group" None "write"
            mixedGroupGrants) = 1
  /\ map active (documents (snd (revokePermission 2000%Z "document" docD "group"
                                   None "write" mixedGroupGrants)))
     = [true; false]
  /\ fst (revokePermission 2000%Z "document" docD "group" (Some 5%N) "write"
            mixedGroupGrants) = 1
  /\ map active (documents (snd (revokePermission 2000%Z "document" docD "group"
                                   (Some 5%N) "write" mixedGroupGrants)))
     = [false; true].
Proof. repeat split. Qed.

(** ** Granting *)

Lemma inStrings_In s l : inStrings s l = true <-> In s l.
Proof.
  unfold inStrings. rewrite existsb_exists. split.
  - intros [x [Hin He]]. apply String.eqb_eq in He. now subst.
  - intros Hin. exists s. split; [assumption | apply String.eqb_refl].
Qed.

Lemma inStrings_not_In s l : inStrings s l = false <-> ~ In s l.
Proof.
  rewrite <- inStrings_In. destruct (inStrings s l); split; congruence.
Qed.

Lemma validateAcl_builtEntry id id' now now' rt rid gt gid gname perm by_ expires :
  validateAcl (builtEntry id now rt rid gt gid gname perm by_ expires) =
  validateAcl (builtEntry id' now' rt rid gt gid gname perm by_ expires).
Proof. reflexivity. Qed.

(** A call that succeeds appended exactly the document it built. *)
Lemma grantPermission_success users now rt rid gt gid gname perm by_ expires c a c' :
  grantPermission users now rt rid gt gid gname perm by_ expires c = (inr a, c') ->
  a = builtEntry (nextObjectId c) now rt rid gt gid gname perm by_ expires
  /\ c' = mkCollection (documents c ++ [a]) (N.succ (nextObjectId c))
  /\ inStrings perm PERMISSIONS.values = true
  /\ unresolvedGrantee users gt gid = None
  /\ validateAcl a = None.
Proof.
  unfold grantPermission. fold (builtEntry (nextObjectId c) now rt rid gt gid
                                  gname perm by_ expires).
  destruct (inStrings perm PERMISSIONS.values) eqn:Hp; simpl; [|discriminate].
  destruct (unresolvedGrantee users gt gid) eqn:Hu; [discriminate|].
  destruct (validateAcl _) eqn:Hv; [discriminate|].
  intros H. injection H as <- <-. repeat split; assumption.
Qed.

(** Whether a call succeeds depends on its arguments and on the users, not
    on the collection or the clock. *)
Lemma grantPermission_succeeds_again users now now' rt rid gt gid gname perm
    by_ expires c a c' c2 :
  grantPermission users now rt rid gt gid gname perm by_ expires c = (inr a, c') ->
  grantPermission users now' rt rid gt gid gname perm by_ expires c2 =
    (inr (builtEntry (nextObjectId c2) now' rt rid gt gid gname perm by_ expires),
     mkCollection
       (documents c2
        ++ [builtEntry (nextObjectId c2) now' rt rid gt gid gname perm by_ expires])
       (N.succ (nextObjectId c2))).
Proof.
  intros H. apply grantPermission_success in H as (-> & _ & Hp & Hu & Hv).
  unfold grantPermission. fold (builtEntry (nextObjectId c2) now' rt rid gt gid
                                  gname perm by_ expires).
  rewrite Hp, Hu. simpl.
  rewrite (validateAcl_builtEntry _ (nextObjectId c) _ now), Hv. reflexivity.
Qed.

(** A call that fails left the documents as they were. *)
Lemma grantPermission_failure users now rt rid gt gid gname perm by_ expires c e c' :
  grantPermission users now rt rid gt gid gname perm by_ expires c = (inl e, c') ->
  documents c' = documents c.
Proof.
  unfold grantPermission.
  destruct (inStrings perm PERMISSIONS.values); simpl.
  - destruct (unresolvedGrantee users gt gid).
    + intros H. injection H as _ <-. reflexivity.
    + destruct (validateAcl _); [|discriminate].
      intros H. injection H as _ <-. reflexivity.
  - intros H. injection H as _ <-. reflexivity.
Qed.

(** C5, as the code has it. [grantPermission] rejects a permission outside
    the four values, and a [granteeId] given for grantee type [user] that no
    user document has; whenever it rejects, no document has been written.
    The pairing of grantee type and grantee fields is not checked: for
    grantee type [user] with no [granteeId] the document is written, with
    [granteeId] null. *)
Theorem grantPermission_rejections_precede_write :
  forall users now rt rid gt gid gname perm by_ expires c,
    let call := grantPermission users now rt rid gt gid gname perm by_ expires c in
    (~ In perm PERMISSIONS.values -> call = (inl (InvalidPermission perm), c))
    /\ (forall id, In perm PERMISSIONS.values -> gt = "user" -> gid = Some id ->
          findById users id = None -> call = (inl (UserNotFound id), c))
    /\ (forall e c', call = (inl e, c') -> documents c' = documents c)
    /\ (In perm PERMISSIONS.values -> In rt resourceTypeEnum ->
        gt = "user" -> gid = None ->
        exists a, call = (inr a, mkCollection (documents c ++ [a])
                                   (N.succ (nextObjectId c)))
                  /\ granteeType a = "user" /\ granteeId a = None).
Proof.
  intros users now rt rid gt gid gname perm by_ expires c call.
  split; [|split; [|split]].
  - intros Hn. apply inStrings_not_In in Hn.
    unfold call, grantPermission. now rewrite Hn.
  - intros id Hp -> -> Hu. apply inStrings_In in Hp.
    unfold call, grantPermission. rewrite Hp. simpl. now rewrite Hu.
  - intros e c'. apply grantPermission_failure.
  - intros Hp Hrt -> ->.
    exists (builtEntry (nextObjectId c) now rt rid "user" None gname perm by_ expires).
    split; [|split; reflexivity].
    unfold call, grantPermission.
    fold (builtEntry (nextObjectId c) now rt rid "user" None gname perm by_ expires).
    assert (Hp' : inStrings perm permissionEnum = true) by (apply inStrings_In, Hp).
    apply inStrings_In in Hp. apply inStrings_In in Hrt.
    rewrite Hp. cbn [negb unresolvedGrantee].
    unfold validateAcl. cbn [builtEntry resourceType granteeType permission].
    rewrite Hrt, Hp'. reflexivity.
Qed.

Lemma grantPermission_rejections_precede_write_witness :
  (~ In "own" PERMISSIONS.values
   /\ grantPermission sampleUsers 1000%Z "document" docD "user" (Some 1%N) None
        "own" 2%N None twiceGranted = (inl (InvalidPermission "own"), twiceGranted))
  /\ (findById sampleUsers 7%N = None
      /\ grantPermission sampleUsers 1000%Z "document" docD "user" (Some 7%N) None
           "read" 2%N None twiceGranted = (inl (UserNotFound 7%N), twiceGranted)).
Proof.
  assert (Hbad : ~ In "own" PERMISSIONS.values).
  { intros H. vm_compute in H. intuition discriminate. }
  split; split.
  - exact Hbad.
  - apply (proj1 (grantPermission_rejections_precede_write sampleUsers 1000%Z
                    "document" docD "user" (Some 1%N) None "own" 2%N None
                    twiceGranted)).
    exact Hbad.
  - reflexivity.
  - apply (proj1 (proj2 (grantPermission_rejections_precede_write sampleUsers
                           1000%Z "document" docD "user" (Some 7%N) None "read"
                           2%N None twiceGranted)) 7%N).
    + vm_compute. tauto.
    + reflexivity.
    + reflexivity.
    + reflexivity.
Defined.

(** C5 as stated fails: a grant to grantee type [user] with no [granteeId]
    is not rejected, and its document is written. *)
Lemma grantPermission_user_without_granteeId_written :
  grantPermission sampleUsers 1000%Z "document" docD "user" None None "read"
    2%N None emptyCollection
  = (inr (mkAcl 0%N "document" docD "user" None None "read" 2%N 1000%Z Null
            true 1000%Z 1000%Z),
     mkCollection [mkAcl 0%N "document" docD "user" None None "read" 2%N 1000%Z
                     Null true 1000%Z 1000%Z] 1%N).
Proof. vm_compute. reflexivity. Qed.

(** C8, as the code has it. A successful [grantPermission] appends one
    document, active and under the [_id] just generated, and leaves the
    documents already stored as they were. The same call made again succeeds
    again and appends a second document under a different [_id]. The two are
    not revocable apart: after any [revokePermission] call whatever, their
    [active] flags are equal. *)
Theorem grantPermission_appends_distinct_records :
  forall users now later rt rid gt gid gname perm by_ expires c a c1,
    grantPermission users now rt rid gt gid gname perm by_ expires c = (inr a, c1) ->
    documents c1 = documents c ++ [a]
    /\ acl_id a = nextObjectId c
    /\ active a = true
    /\ (Forall (fun d => (acl_id d < nextObjectId c)%N) (documents c) ->
        ~ In (acl_id a) (map acl_id (documents c)))
    /\ exists b c2,
         grantPermission users later rt rid gt gid gname perm by_ expires c1 = (inr b, c2)
         /\ documents c2 = documents c ++ [a; b]
         /\ acl_id b <> acl_id a
         /\ forall t rt' rid' gt' gid' perm',
              let d := documents (snd (revokePermission t rt' rid' gt' gid' perm' c2)) in
              exists a' b',
                nth_error d (List.length (documents c)) = Some a'
                /\ nth_error d (S (List.length (documents c))) = Some b'
                /\ acl_id a' = acl_id a /\ acl_id b' = acl_id b
                /\ active a' = active b'.
Proof.
  intros users now later rt rid gt gid gname perm by_ expires c a c1 H.
  pose proof (grantPermission_succeeds_again _ _ later _ _ _ _ _ _ _ _ _ _ _ c1 H)
    as Hagain.
  apply grantPermission_success in H as (Ha & Hc1 & _ & _ & _).
  split; [subst c1; reflexivity|].
  split; [subst a; reflexivity|].
  split; [subst a; reflexivity|].
  split.
  - intros Hbelow Hin. apply in_map_iff in Hin as [d [Hid Hd]].
    rewrite Forall_forall in Hbelow. apply Hbelow in Hd.
    subst a. simpl in Hid. lia.
  - set (b := builtEntry (nextObjectId c1) later rt rid gt gid gname perm by_ expires)
      in *.
    exists b, (mkCollection (documents c1 ++ [b]) (N.succ (nextObjectId c1))).
    split; [exact Hagain|].
    assert (Hdocs : documents c1 ++ [b] = documents c ++ [a; b]).
    { subst c1. simpl. now rewrite <- app_assoc. }
    split; [exact Hdocs|].
    split.
    + subst b a c1. simpl. lia.
    + intros t rt' rid' gt' gid' perm' d.
      assert (Hia : nth_error (documents c ++ [a; b]) (List.length (documents c))
                    = Some a).
      { rewrite nth_error_app2 by lia. now rewrite Nat.sub_diag. }
      assert (Hib : nth_error (documents c ++ [a; b]) (S (List.length (documents c)))
                    = Some b).
      { rewrite nth_error_app2 by lia.
        replace (S (List.length (documents c)) - List.length (documents c))%nat
          with 1%nat by lia.
        reflexivity. }
      unfold d. rewrite revokePermission_documents. simpl documents.
      rewrite Hdocs, !nth_error_map, Hia, Hib. simpl.
      do 2 eexists. split; [reflexivity|]. split; [reflexivity|].
      rewrite (revokeQuery_same_tuple rt' rid' gt' gid' perm' a b)
        by (subst a b; reflexivity).
      destruct (revokeQuery rt' rid' gt' gid' perm' b);
        repeat split; subst a b; reflexivity.
Qed.

Lemma grantPermission_appends_distinct_records_witness :
  let first := grantPermission sampleUsers 1000%Z "document" docD "user"
                 (Some 1%N) None "read" 2%N None emptyCollection in
  first = (inr (builtEntry 0%N 1000%Z "document" docD "user" (Some 1%N) None
                  "read" 2%N None),
           mkCollection [builtEntry 0%N 1000%Z "document" docD "user" (Some 1%N)
                           None "read" 2%N None] 1%N)
  /\ exists b c2,
       grantPermission sampleUsers 1100%Z "document" docD "user" (Some 1%N) None
         "read" 2%N None (snd first) = (inr b, c2)
       /\ List.length (documents c2) = 2
       /\ acl_id b <> 0%N.
Proof.
  intros first.
  assert (Hfirst : first =
            (inr (builtEntry 0%N 1000%Z "document" docD "user" (Some 1%N) None
                    "read" 2%N None),
             mkCollection [builtEntry 0%N 1000%Z "document" docD "user" (Some 1%N)
                             None "read" 2%N None] 1%N)) by reflexivity.
  split; [exact Hfirst|].
  destruct (grantPermission_appends_distinct_records sampleUsers 1000%Z 1100%Z
              "document" docD "user" (Some 1%N) None "read" 2%N None
              emptyCollection _ _ Hfirst)
    as (_ & _ & _ & _ & b & c2 & Hb & Hdocs & Hid & _).
  exists b, c2. split; [exact Hb|]. split; [|exact Hid].
  rewrite Hdocs. reflexivity.
Defined.

(** C8 as stated fails on "independently revocable": the same grant made
    twice yields two documents with different ids, and the one revocation
    that reaches either of them deactivates both. *)
Lemma twice_granted_revoked_together :
  map acl_id (documents twiceGranted) = [0%N; 1%N]
  /\ map active (documents twiceGranted) = [true; true]
  /\ fst (revokePermission 2000%Z "document" docD "user" (Some 1%N) "read"
            twiceGranted) = 2
  /\ map active (documents (snd (revokePermission 2000%Z "document" docD "user"
                                   (Some 1%N) "read" twiceGranted)))
     = [false; false].
Proof. repeat split. Qed.

(** ** Listing the grants of a resource *)

Lemma resourceQuery_iff rt rid now a :
  resourceQuery rt rid now a = true <->
  resourceType a = rt /\ resourceId a = rid /\ active a = true
  /\ (expiresAt a = Missing \/ exists d, expiresAt a = At d /\ (now < d)%Z).
Proof.
  unfold resourceQuery.
  rewrite !andb_true_iff, String.eqb_eq, N.eqb_eq, activeUnexpired_iff. tauto.
Qed.

Lemma filter_StronglySorted {A : Type} (R : A -> A -> Prop) (q : A -> bool) l :
  StronglySorted R l -> StronglySorted R (filter q l).
Proof.
  induction 1 as [|a l Hs IH Hall]; simpl; [constructor|].
  destruct (q a); [|exact IH].
  constructor; [exact IH|].
  rewrite Forall_forall in *. intros x Hx.
  apply filter_In in Hx as [Hx _]. now apply Hall.
Qed.

(** C9, as the code has it. [getResourcePermissions] returns documents of
    the collection in the order in which the collection holds them (the
    query has no sort): a selection of them in which every document is of
    the resource, active and not expired, and which holds every active
    document of the resource whose [expiresAt] is absent or a later date.
    Each is paired with the grantor looked up among the users ([null] when
    there is none). It is a read: it takes the collection and hands back no
    collection. When the collection is in [grantedAt] order, so is the
    result. Nothing is said here of a document stored with
    [expiresAt: null]. *)
Theorem getResourcePermissions_live_in_collection_order :
  forall users acls now rt rid,
    let result := getResourcePermissions users acls now rt rid in
    (exists keep : Acl -> bool,
       map fst result = filter keep acls
       /\ (forall a, keep a = true ->
             resourceType a = rt /\ resourceId a = rid /\ active a = true
             /\ (forall d, expiresAt a = At d -> (now < d)%Z))
       /\ (forall a, resourceType a = rt -> resourceId a = rid ->
             active a = true ->
             (expiresAt a = Missing
              \/ exists d, expiresAt a = At d /\ (now < d)%Z) ->
             keep a = true))
    /\ (forall a g, In (a, g) result ->
          match findById users (grantedBy a) with
          | Some u => g = Some (mkGrantor (user_id u) (username u) (displayName u))
          | None => g = None
          end)
    /\ (StronglySorted (fun a b => (grantedAt a <= grantedAt b)%Z) acls ->
        StronglySorted (fun a b => (grantedAt a <= grantedAt b)%Z) (map fst result)).
Proof.
  intros users acls now rt rid result.
  assert (Hfst : map fst result = filter (resourceQuery rt rid now) acls).
  { unfold result, getResourcePermissions, findAll.
    rewrite map_map. simpl. apply map_id. }
  split; [|split].
  - exists (resourceQuery rt rid now). split; [exact Hfst|]. split.
    + intros a Hq. apply resourceQuery_iff in Hq as (Hrt & Hrid & Hact & Hexp).
      repeat split; try assumption.
      intros d Hd. destruct Hexp as [Hm|[e [He Hlt]]]; [congruence|].
      rewrite Hd in He. injection He as ->. exact Hlt.
    + intros a Hrt Hrid Hact Hexp. apply resourceQuery_iff. tauto.
  - intros a g Hin. unfold result, getResourcePermissions in Hin.
    apply in_map_iff in Hin as [a0 [Heq _]]. injection Heq as -> <-.
    unfold populateGrantedBy.
    destruct (findById users (grantedBy a)); reflexivity.
  - intros Hs. rewrite Hfst. now apply filter_StronglySorted.
Qed.

Lemma getResourcePermissions_live_in_collection_order_witness :
  let acls := [groupWriteEng; directAdminP; directReadExpiredP] in
  StronglySorted (fun a b => (grantedAt a <= grantedAt b)%Z) acls
  /\ map fst (getResourcePermissions sampleUsers acls 2500%Z "document" docD)
     = [groupWriteEng; directAdminP]
  /\ StronglySorted (fun a b => (grantedAt a <= grantedAt b)%Z)
       (map fst (getResourcePermissions sampleUsers acls 2500%Z "document" docD)).
Proof.
  intros acls.
  assert (Hs : StronglySorted (fun a b => (grantedAt a <= grantedAt b)%Z) acls).
  { unfold acls.
    apply SSorted_cons; [apply SSorted_cons; [apply SSorted_cons;
      [apply SSorted_nil | apply Forall_nil] |] |].
    - apply Forall_cons; [simpl; lia | apply Forall_nil].
    - apply Forall_cons; [simpl; lia|].
      apply Forall_cons; [simpl; lia | apply Forall_nil]. }
  pose proof (getResourcePermissions_live_in_collection_order
                sampleUsers acls 2500%Z "document" docD) as (_ & _ & Hsorted).
  split; [exact Hs|]. split; [reflexivity|]. exact (Hsorted Hs).
Defined.

(** C9 as stated fails on the order: two live grants stored in the order in
    which they were made, the second stamped earlier than the first, come
    back in that order. *)
Lemma getResourcePermissions_not_by_grantedAt :
  map (fun r => grantedAt (fst r))
      (getResourcePermissions sampleUsers (documents skewedCollection) 3000%Z
         "document" docD)
  = [2000%Z; 1000%Z]
  /\ ~ StronglySorted Z.le [2000%Z; 1000%Z].
Proof.
  split; [vm_compute; reflexivity|].
  intros Hs. inversion Hs as [|x l _ Hall]. subst.
  inversion Hall as [|y l' Hle _]. lia.
Qed.

(** ** Where the sample grants come from *)

(** The sample grants that expire at 9000 are what [grantPermission] writes
    when called with that expiry. *)
Lemma sample_grants_granted :
  grantPermission sampleUsers 1000%Z "document" docD "group" None (Some "eng")
    "write" 2%N (Some 9000%Z) (mkCollection [] 10%N)
  = (inr groupWriteEng, mkCollection [groupWriteEng] 11%N)
  /\ grantPermission sampleUsers 1200%Z "document" docD "user" (Some 1%N) None
       "admin" 2%N (Some 9000%Z) (mkCollection [] 12%N)
     = (inr directAdminP, mkCollection [directAdminP] 13%N)
  /\ grantPermission sampleUsers 1300%Z "document" docD "user" (Some 1%N) None
       "read" 2%N (Some 9000%Z) (mkCollection [] 13%N)
     = (inr directReadP, mkCollection [directReadP] 14%N)
  /\ grantPermission sampleUsers 1400%Z "document" docD "public" None
       (Some "public") "read" 2%N (Some 9000%Z) (mkCollection [directReadP] 14%N)
     = (inr publicRead, mkCollection [directReadP; publicRead] 15%N).
Proof. repeat split. Qed.

(** A grant made with the expiry left out stores [expiresAt: null]; the read
    filter asks for the path to be missing or to hold a later date, so no
    read selects that document. *)
Lemma grant_without_expiry_not_selected users now later rt rid gt gid gname
    perm by_ c a c' :
  grantPermission users now rt rid gt gid gname perm by_ None c = (inr a, c') ->
  expiresAt a = Null /\ activeUnexpired later a = false.
Proof.
  intros H. apply grantPermission_success in H as (-> & _).
  split; reflexivity.
Qed.

(** * Further properties of the service *)

(** ** Decisions *)

(** X1. [hasPermission] answers [true] exactly when the collection holds a
    record on the resource that is active and unexpired and that is either a
    direct grant to the principal of [admin] or of the requested permission,
    or a group grant of the requested permission to a group of the
    principal's user document, or a public grant of the requested
    permission. *)
Theorem hasPermission_exact_grants :
  forall users acls now userId rt rid perm,
    hasPermission users acls now userId rt rid perm = true <->
    exists a, In a acls
      /\ resourceType a = rt /\ resourceId a = rid
      /\ active a = true
      /\ (expiresAt a = Missing \/ exists d, expiresAt a = At d /\ (now < d)%Z)
      /\ ((granteeType a = "user" /\ granteeId a = Some userId
             /\ (permission a = "admin" \/ permission a = perm))
          \/ (granteeType a = "group" /\ permission a = perm
                /\ exists user n, findById users userId = Some user
                     /\ granteeName a = Some n /\ In n (groups user))
          \/ (granteeType a = "public" /\ permission a = perm)).
Proof.
  intros. rewrite hasPermission_true_iff. split.
  - intros [a (Hin & Hrt & Hrid & Hlive & Hk)].
    apply activeUnexpired_iff in Hlive as [Hact Hexp].
    exists a. repeat split; assumption.
  - intros [a (Hin & Hrt & Hrid & Hact & Hexp & Hk)].
    exists a. repeat split; try assumption.
    apply activeUnexpired_iff. split; assumption.
Qed.

(** X2. There are no negative grants: a decision that is [true] stays [true]
    when the collection holds more records, in whatever order. *)
Theorem hasPermission_monotone :
  forall users acls acls' now userId rt rid perm,
    incl acls acls' ->
    hasPermission users acls now userId rt rid perm = true ->
    hasPermission users acls' now userId rt rid perm = true.
Proof.
  intros users acls acls' now userId rt rid perm Hincl H.
  apply hasPermission_true_iff in H as [a (Hin & Hrest)].
  apply hasPermission_true_iff. exists a. split; [apply Hincl, Hin | exact Hrest].
Qed.

Lemma hasPermission_monotone_witness :
  incl [groupWriteEng] [directReadP; groupWriteEng]
  /\ hasPermission sampleUsers [groupWriteEng] 1500%Z 1%N "document" docD "write" = true
  /\ hasPermission sampleUsers [directReadP; groupWriteEng] 1500%Z 1%N
       "document" docD "write" = true.
Proof.
  assert (Hincl : incl [groupWriteEng] [directReadP; groupWriteEng]).
  { intros x [<-|[]]. right. left. reflexivity. }
  split; [exact Hincl|]. split; [reflexivity|].
  apply (hasPermission_monotone sampleUsers [groupWriteEng]
           [directReadP; groupWriteEng] 1500%Z 1%N "document" docD "write" Hincl).
  reflexivity.
Defined.

(** X3. An active, unexpired public grant of a permission on a resource makes
    [hasPermission] hold for that permission for every principal id, also
    one that no user document carries. *)
Theorem hasPermission_public_for_anyone :
  forall users acls now userId a,
    In a acls ->
    granteeType a = "public" ->
    active a = true ->
    (expiresAt a = Missing \/ exists d, expiresAt a = At d /\ (now < d)%Z) ->
    hasPermission users acls now userId (resourceType a) (resourceId a)
      (permission a) = true.
Proof.
  intros users acls now userId a Hin Hgt Hact Hexp.
  apply hasPermission_true_iff. exists a.
  repeat split; try assumption.
  - apply activeUnexpired_iff. split; assumption.
  - right. right. split; [assumption | reflexivity].
Qed.

Lemma hasPermission_public_for_anyone_witness :
  findById sampleUsers 77%N = None
  /\ In publicRead [directReadP; publicRead]
  /\ hasPermission sampleUsers [directReadP; publicRead] 1500%Z 77%N
       "document" docD "read" = true.
Proof.
  split; [reflexivity|]. split; [right; left; reflexivity|].
  apply (hasPermission_public_for_anyone sampleUsers [directReadP; publicRead]
           1500%Z 77%N publicRead).
  - right; left; reflexivity.
  - reflexivity.
  - reflexivity.
  - right. exists 9000%Z. split; [reflexivity | lia].
Defined.

(** X4. Group grants count only through the groups of the principal's user
    document: for a principal with no user document, or whose document lists
    no group, the decision is the same with every group grant taken out. *)
Theorem hasPermission_without_groups :
  forall users acls now userId rt rid perm,
    (findById users userId = None
     \/ exists user, findById users userId = Some user /\ groups user = []) ->
    hasPermission users acls now userId rt rid perm =
    hasPermission users
      (filter (fun a => negb (String.eqb (granteeType a) "group")) acls)
      now userId rt rid perm.
Proof.
  intros users acls now userId rt rid perm Hu.
  rewrite !hasPermission_branches.
  assert (Hg : match findById users userId with
               | Some user => (0 <? List.length (groups user))%nat = false
               | None => True
               end).
  { destruct Hu as [->|[user [-> ->]]]; [exact I | reflexivity]. }
  assert (Hd : forall p a, directQuery rt rid userId p now a = true ->
                 negb (String.eqb (granteeType a) "group") = true).
  { intros p a H. unfold directQuery in H.
    rewrite !andb_true_iff, !String.eqb_eq in H.
    destruct H as [[[[[_ _] Hgt] _] _] _]. now rewrite Hgt. }
  assert (Hp : forall a, publicQuery rt rid perm now a = true ->
                 negb (String.eqb (granteeType a) "group") = true).
  { intros a H. unfold publicQuery in H.
    rewrite !andb_true_iff, !String.eqb_eq in H.
    destruct H as [[[[_ _] Hgt] _] _]. now rewrite Hgt. }
  rewrite !(existsb_filter_implied (directQuery rt rid userId _ now) _ acls (Hd _)).
  rewrite (existsb_filter_implied (publicQuery rt rid perm now) _ acls Hp).
  destruct (findById users userId) as [user|]; [|reflexivity].
  now rewrite Hg.
Qed.

Lemma hasPermission_without_groups_witness :
  (exists user, findById sampleUsers 2%N = Some user /\ groups user = [])
  /\ hasPermission sampleUsers [groupWriteEng; publicRead] 1500%Z 2%N
       "document" docD "write"
     = hasPermission sampleUsers [publicRead] 1500%Z 2%N "document" docD "write".
Proof.
  assert (Hu : exists user, findById sampleUsers 2%N = Some user /\ groups user = []).
  { exists userQ. split; reflexivity. }
  split; [exact Hu|].
  apply (hasPermission_without_groups sampleUsers [groupWriteEng; publicRead]
           1500%Z 2%N "document" docD "write").
  right. exact Hu.
Defined.

(** ** Revocation and decisions *)

Lemma deactivated_not_selected (q : Acl -> bool) (rq : Acl -> bool) t l :
  (forall a, q a = true -> active a = true) ->
  existsb q (map (fun a => if rq a then deactivate t a else a) l) =
  existsb q (filter (fun a => negb (rq a)) l).
Proof.
  intros Hq. induction l as [|a l IH]; simpl; [reflexivity|].
  destruct (rq a); simpl.
  - rewrite IH. destruct (q (deactivate t a)) eqn:E; [|reflexivity].
    apply Hq in E. discriminate.
  - now rewrite IH.
Qed.

Lemma activeUnexpired_active now a :
  activeUnexpired now a = true -> active a = true.
Proof. unfold activeUnexpired. intros H. apply andb_prop in H. tauto. Qed.

(** X5. After [revokePermission] every decision is the one that would be
    taken had the records the call selected never been stored; in
    particular a revocation never turns a denial into a grant. *)
Theorem hasPermission_after_revoke :
  forall users t rt rid gt gid perm c now userId rt' rid' perm',
    let after := documents (snd (revokePermission t rt rid gt gid perm c)) in
    hasPermission users after now userId rt' rid' perm' =
      hasPermission users
        (filter (fun a => negb (revokeQuery rt rid gt gid perm a)) (documents c))
        now userId rt' rid' perm'
    /\ (hasPermission users after now userId rt' rid' perm' = true ->
        hasPermission users (documents c) now userId rt' rid' perm' = true).
Proof.
  intros users t rt rid gt gid perm c now userId rt' rid' perm' after.
  assert (Heq : hasPermission users after now userId rt' rid' perm' =
      hasPermission users
        (filter (fun a => negb (revokeQuery rt rid gt gid perm a)) (documents c))
        now userId rt' rid' perm').
  { unfold after. rewrite revokePermission_documents, !hasPermission_branches.
    rewrite !(deactivated_not_selected (directQuery rt' rid' userId _ now))
      by (intros a H; apply directQuery_live in H;
          now apply activeUnexpired_active in H).
    rewrite (deactivated_not_selected (publicQuery rt' rid' perm' now))
      by (intros a H; apply publicQuery_live in H;
          now apply activeUnexpired_active in H).
    destruct (findById users userId) as [user|]; [|reflexivity].
    rewrite (deactivated_not_selected (groupQuery rt' rid' (groups user) perm' now))
      by (intros a H; apply groupQuery_live in H;
          now apply activeUnexpired_active in H).
    reflexivity. }
  split; [exact Heq|].
  rewrite Heq. intros H.
  apply hasPermission_true_iff in H as [a (Hin & Hrest)].
  apply hasPermission_true_iff. exists a.
  split; [|exact Hrest]. apply filter_In in Hin. tauto.
Qed.

(** X6. [revokePermission] keeps the ledger: the collection has the same
    documents in the same order, each with the fields it had, except that
    [active] is cleared and [updatedAt] stamped on the ones selected. No
    document is removed, none is re-activated, and the id generator is left
    alone. *)
Theorem revokePermission_keeps_ledger :
  forall t rt rid gt gid perm c,
    let c' := snd (revokePermission t rt rid gt gid perm c) in
    nextObjectId c' = nextObjectId c
    /\ Forall2 (fun a a' =>
                  acl_id a' = acl_id a
                  /\ resourceType a' = resourceType a
                  /\ resourceId a' = resourceId a
                  /\ granteeType a' = granteeType a
                  /\ granteeId a' = granteeId a
                  /\ granteeName a' = granteeName a
                  /\ permission a' = permission a
                  /\ grantedBy a' = grantedBy a
                  /\ grantedAt a' = grantedAt a
                  /\ expiresAt a' = expiresAt a
                  /\ createdAt a' = createdAt a
                  /\ (active a' = true -> a' = a)
                  /\ (active a = false -> a' = a))
               (documents c) (documents c').
Proof.
  intros t rt rid gt gid perm c c'. split; [reflexivity|].
  unfold c'. rewrite revokePermission_documents.
  induction (documents c) as [|a l IH]; simpl; constructor; [|exact IH].
  destruct (revokeQuery rt rid gt gid perm a) eqn:E.
  - repeat split; try reflexivity.
    + simpl. discriminate.
    + intros Hoff. apply revokeQuery_iff in E. destruct E as (_ & _ & _ & _ & _ & E).
      congruence.
  - repeat split; reflexivity.
Qed.

Lemma hasPermission_after_revoke_witness :
  let c := mkCollection [directReadP; publicRead] 20%N in
  let after := documents (snd (revokePermission 1600%Z "document" docD "user"
                                 (Some 1%N) "read" c)) in
  hasPermission sampleUsers after 1700%Z 1%N "document" docD "read" = true
  /\ hasPermission sampleUsers (documents c) 1700%Z 1%N "document" docD "read" = true
  /\ hasPermission sampleUsers after 1700%Z 1%N "document" docD "read" =
     hasPermission sampleUsers [publicRead] 1700%Z 1%N "document" docD "read".
Proof.
  intros c after.
  pose proof (hasPermission_after_revoke sampleUsers 1600%Z "document" docD
                "user" (Some 1%N) "read" c 1700%Z 1%N "document" docD "read")
    as [Heq Himp].
  split; [reflexivity|]. split; [apply Himp; reflexivity | exact Heq].
Defined.

Lemma revokePermission_keeps_ledger_witness :
  let c := mkCollection [directReadP; publicRead] 20%N in
  let c' := snd (revokePermission 1600%Z "document" docD "public" None "read" c) in
  map acl_id (documents c') = [13%N; 14%N]
  /\ map active (documents c') = [true; false]
  /\ Forall2 (fun a a' => acl_id a' = acl_id a /\ (active a' = true -> a' = a))
       (documents c) (documents c').
Proof.
  intros c c'.
  pose proof (proj2 (revokePermission_keeps_ledger 1600%Z "document" docD
                       "public" None "read" c)) as H.
  split; [reflexivity|]. split; [reflexivity|].
  eapply Forall2_impl; [|exact H].
  intros a a' Hf. split; [apply Hf|]. apply Hf.
Defined.

(** ** Granting and reading back *)

Lemma revokeQuery_builtEntry id now rt rid gt gid gname perm by_ expires :
  revokeQuery rt rid gt gid perm
    (builtEntry id now rt rid gt gid gname perm by_ expires) = true.
Proof.
  apply revokeQuery_iff. repeat split.
Qed.

(** X7. A grant stored with an expiry is read back until that expiry: after
    a successful [grantPermission] with [expiresAt = d], at any time before
    [d], [hasPermission] for the granted permission on the resource holds
    for the grantee of a [user] grant, for every principal under a [public]
    grant, and for every user whose document lists the named group under a
    [group] grant. *)
Theorem grantPermission_then_hasPermission :
  forall users now rt rid gt gid gname perm by_ d c a c' later,
    grantPermission users now rt rid gt gid gname perm by_ (Some d) c = (inr a, c') ->
    (later < d)%Z ->
    (forall u, gt = "user" -> gid = Some u ->
       hasPermission users (documents c') later u rt rid perm = true)
    /\ (forall u, gt = "public" ->
          hasPermission users (documents c') later u rt rid perm = true)
    /\ (forall u user g, gt = "group" -> gname = Some g ->
          findById users u = Some user -> In g (groups user) ->
          hasPermission users (documents c') later u rt rid perm = true).
Proof.
  intros users now rt rid gt gid gname perm by_ d c a c' later H Hlt.
  apply grantPermission_success in H as (Ha & Hc' & _).
  assert (Hin : In a (documents c')) by (subst c'; simpl; apply in_or_app; right; now left).
  assert (Hlive : activeUnexpired later a = true).
  { apply activeUnexpired_iff. subst a. split; [reflexivity|].
    right. exists d. split; [reflexivity | exact Hlt]. }
  split; [|split].
  - intros u -> ->. apply hasPermission_true_iff. exists a.
    subst a. repeat split; try assumption. left. repeat split. now right.
  - intros u ->. apply hasPermission_true_iff. exists a.
    subst a. repeat split; try assumption. right. right. split; reflexivity.
  - intros u user g -> -> Hu Hg. apply hasPermission_true_iff. exists a.
    subst a. repeat split; try assumption. right. left. repeat split.
    exists user, g. repeat split; assumption.
Qed.

Lemma grantPermission_then_hasPermission_witness :
  let call := grantPermission sampleUsers 1000%Z "document" docE "group" None
                (Some "eng") "delete" 2%N (Some 5000%Z) emptyCollection in
  (exists a, fst call = inr a)
  /\ (4999 < 5000)%Z
  /\ hasPermission sampleUsers (documents (snd call)) 4999%Z 1%N "document" docE
       "delete" = true.
Proof.
  intros call.
  split; [eexists; reflexivity|]. split; [lia|].
  eapply (proj2 (proj2 (grantPermission_then_hasPermission sampleUsers 1000%Z
            "document" docE "group" None (Some "eng") "delete" 2%N 5000%Z
            emptyCollection _ _ 4999%Z eq_refl ltac:(lia)))
            1%N userP "eng"); try reflexivity.
  left. reflexivity.
Defined.

(** A record stored with [expiresAt: null] is invisible to the three reads. *)
Lemma null_expiry_grant_invisible :
  forall users now rt rid gt gid gname perm by_ c a c',
    grantPermission users now rt rid gt gid gname perm by_ None c = (inr a, c') ->
    (forall later u rt' rid' perm',
       hasPermission users (documents c') later u rt' rid' perm' =
       hasPermission users (documents c) later u rt' rid' perm')
    /\ (forall later rt' rid',
          getResourcePermissions users (documents c') later rt' rid' =
          getResourcePermissions users (documents c) later rt' rid')
    /\ (forall later heap u rt' perm',
          getUserAccessibleResources users (documents c') later heap u rt' perm' =
          getUserAccessibleResources users (documents c) later heap u rt' perm').
Proof.
  intros users now rt rid gt gid gname perm by_ c a c' H.
  apply grantPermission_success in H as (Ha & Hc' & _).
  assert (Hdead : forall later, activeUnexpired later a = false)
    by (intros later; subst a; reflexivity).
  assert (Hfilter : forall (q : Acl -> bool) later,
            (forall x, q x = true -> activeUnexpired later x = true) ->
            filter q (documents c') = filter q (documents c)).
  { intros q later Hq. subst c'. simpl. rewrite filter_app. simpl.
    destruct (q a) eqn:E; [|apply app_nil_r].
    apply Hq in E. rewrite Hdead in E. discriminate. }
  split; [|split].
  - intros later u rt' rid' perm'.
    rewrite <- (app_nil_r (documents c)).
    replace (documents c') with (documents c ++ a :: []) by (subst c'; reflexivity).
    rewrite !hasPermission_branches.
    assert (Hd : forall p, directQuery rt' rid' u p later a = false).
    { intros p. destruct (directQuery rt' rid' u p later a) eqn:E; [|reflexivity].
      apply directQuery_live in E. rewrite Hdead in E. discriminate. }
    assert (Hp : publicQuery rt' rid' perm' later a = false).
    { destruct (publicQuery rt' rid' perm' later a) eqn:E; [|reflexivity].
      apply publicQuery_live in E. rewrite Hdead in E. discriminate. }
    rewrite !(existsb_drop _ (documents c) [] a) by (first [apply Hd | apply Hp]).
    destruct (findById users u) as [user|]; [|reflexivity].
    rewrite (existsb_drop _ (documents c) [] a); [reflexivity|].
    destruct (groupQuery rt' rid' (groups user) perm' later a) eqn:E; [|reflexivity].
    apply groupQuery_live in E. rewrite Hdead in E. discriminate.
  - intros later rt' rid'. unfold getResourcePermissions, findAll.
    rewrite (Hfilter _ later); [reflexivity|].
    intros x Hx. unfold resourceQuery in Hx. apply andb_prop in Hx. tauto.
  - intros later heap u rt' perm'. unfold getUserAccessibleResources, findAll.
    rewrite (Hfilter (directAclsQuery rt' u perm' later) later)
      by (intros x Hx; unfold directAclsQuery in Hx; apply andb_prop in Hx; tauto).
    rewrite (Hfilter (publicAclsQuery rt' perm' later) later)
      by (intros x Hx; unfold publicAclsQuery in Hx; apply andb_prop in Hx; tauto).
    destruct (findById users u) as [user|]; [|reflexivity].
    rewrite (Hfilter (groupAclsQuery rt' (groups user) perm' later) later)
      by (intros x Hx; unfold groupAclsQuery in Hx; apply andb_prop in Hx; tauto).
    reflexivity.
Qed.

(** X8. A grant made with the expiry left out is stored with
    [expiresAt: null], which no read query selects: after it every
    [hasPermission] decision, every [getResourcePermissions] listing and
    every [getUserAccessibleResources] listing is what it was before. *)
Theorem grantPermission_without_expiry_is_not_read :
  forall users now rt rid gt gid gname perm by_ c a c',
    grantPermission users now rt rid gt gid gname perm by_ None c = (inr a, c') ->
    (forall later u rt' rid' perm',
       hasPermission users (documents c') later u rt' rid' perm' =
       hasPermission users (documents c) later u rt' rid' perm')
    /\ (forall later rt' rid',
          getResourcePermissions users (documents c') later rt' rid' =
          getResourcePermissions users (documents c) later rt' rid')
    /\ (forall later heap u rt' perm',
          getUserAccessibleResources users (documents c') later heap u rt' perm' =
          getUserAccessibleResources users (documents c) later heap u rt' perm').
Proof. exact null_expiry_grant_invisible. Qed.

Lemma grantPermission_without_expiry_is_not_read_witness :
  let call := grantPermission sampleUsers 1000%Z "document" docE "user"
                (Some 1%N) None "admin" 1%N None emptyCollection in
  (exists a, fst call = inr a /\ active a = true /\ permission a = "admin")
  /\ hasPermission sampleUsers (documents (snd call)) 1001%Z 1%N "document" docE
       "read"
     = hasPermission sampleUsers [] 1001%Z 1%N "document" docE "read"
  /\ hasPermission sampleUsers (documents (snd call)) 1001%Z 1%N "document" docE
       "read" = false.
Proof.
  intros call.
  split; [eexists; repeat split|].
  split; [|reflexivity].
  apply (proj1 (grantPermission_without_expiry_is_not_read sampleUsers 1000%Z
                  "document" docE "user" (Some 1%N) None "admin" 1%N
                  emptyCollection _ _ eq_refl)).
Defined.

(** X9. Revoking right after granting: [revokePermission] called with the
    tuple of a grant that has just succeeded returns one more than the
    number of active records that already matched, and the new record is
    among the deactivated ones. *)
Theorem grantPermission_then_revokePermission :
  forall users now rt rid gt gid gname perm by_ expires c a c' t,
    grantPermission users now rt rid gt gid gname perm by_ expires c = (inr a, c') ->
    let r := revokePermission t rt rid gt gid perm c' in
    fst r = S (List.length (filter (revokeQuery rt rid gt gid perm) (documents c)))
    /\ nth_error (documents (snd r)) (List.length (documents c))
       = Some (deactivate t a)
    /\ documents (snd r) =
       documents (snd (revokePermission t rt rid gt gid perm c)) ++ [deactivate t a].
Proof.
  intros users now rt rid gt gid gname perm by_ expires c a c' t H r.
  apply grantPermission_success in H as (Ha & Hc' & _).
  assert (Hq : revokeQuery rt rid gt gid perm a = true)
    by (subst a; apply revokeQuery_builtEntry).
  assert (Hdocs : documents (snd r) =
       documents (snd (revokePermission t rt rid gt gid perm c)) ++ [deactivate t a]).
  { unfold r. rewrite !revokePermission_documents. subst c'. simpl documents.
    rewrite map_app. simpl. now rewrite Hq. }
  split; [|split].
  - unfold r, revokePermission, updateMany. simpl. subst c'. simpl.
    rewrite filter_app, length_app. simpl. rewrite Hq. simpl. lia.
  - rewrite Hdocs, revokePermission_documents.
    rewrite nth_error_app2; rewrite length_map; [|lia].
    now rewrite Nat.sub_diag.
  - exact Hdocs.
Qed.

Lemma grantPermission_then_revokePermission_witness :
  let call := grantPermission sampleUsers 1000%Z "document" docD "user"
                (Some 1%N) None "read" 2%N None twiceGranted in
  (exists a, fst call = inr a)
  /\ fst (revokePermission 1200%Z "document" docD "user" (Some 1%N) "read"
            (snd call)) = 3.
Proof.
  intros call. split; [eexists; reflexivity|].
  apply (proj1 (grantPermission_then_revokePermission sampleUsers 1000%Z
                  "document" docD "user" (Some 1%N) None "read" 2%N None
                  twiceGranted _ _ 1200%Z eq_refl)).
Defined.

(** ** Ids *)

Lemma grantPermission_generator users now rt rid gt gid gname perm by_ expires c :
  let c' := snd (grantPermission users now rt rid gt gid gname perm by_ expires c) in
  (documents c' = documents c
   /\ (nextObjectId c <= nextObjectId c')%N)
  \/ (exists a, documents c' = documents c ++ [a]
                /\ acl_id a = nextObjectId c
                /\ nextObjectId c' = N.succ (nextObjectId c)).
Proof.
  unfold grantPermission.
  destruct (inStrings perm PERMISSIONS.values); simpl.
  - destruct (unresolvedGrantee users gt gid); simpl.
    + left. split; [reflexivity | lia].
    + destruct (validateAcl _); simpl.
      * left. split; [reflexivity | lia].
      * right. eexists. repeat split.
  - left. split; [reflexivity | lia].
Qed.

(** X10. Stored ids stay pairwise distinct. If every stored [_id] lies below
    the generator and no two documents share one, the same holds after any
    [grantPermission] call, whether it succeeds or not, and after any
    [revokePermission] call. *)
Theorem idsFresh_preserved :
  forall users c,
    idsFresh c ->
    (forall now rt rid gt gid gname perm by_ expires,
       idsFresh (snd (grantPermission users now rt rid gt gid gname perm by_ expires c)))
    /\ (forall t rt rid gt gid perm,
          idsFresh (snd (revokePermission t rt rid gt gid perm c))).
Proof.
  intros users c [Hbelow Hnd]. split.
  - intros now rt rid gt gid gname perm by_ expires.
    destruct (grantPermission_generator users now rt rid gt gid gname perm by_ expires c)
      as [[Hd Hn] | [a (Hd & Hid & Hn)]]; unfold idsFresh; rewrite Hd.
    + split; [|exact Hnd].
      eapply Forall_impl; [|exact Hbelow]. simpl. intros d Hlt. lia.
    + rewrite Hn. split.
      * apply Forall_app. split.
        -- eapply Forall_impl; [|exact Hbelow]. simpl. intros d Hlt. lia.
        -- constructor; [lia | constructor].
      * rewrite map_app. simpl.
        assert (HA : Add (acl_id a) (map acl_id (documents c) ++ [])
                       (map acl_id (documents c) ++ [acl_id a])) by apply Add_app.
        rewrite app_nil_r in HA. apply (NoDup_Add HA).
        split; [exact Hnd|].
        intros Hin. apply in_map_iff in Hin as [d [Hdid Hdin]].
        rewrite Forall_forall in Hbelow. apply Hbelow in Hdin. lia.
  - intros t rt rid gt gid perm.
    assert (Hids : map acl_id (documents (snd (revokePermission t rt rid gt gid perm c)))
                   = map acl_id (documents c)).
    { rewrite revokePermission_documents, map_map. apply map_ext.
      intros a. destruct (revokeQuery rt rid gt gid perm a); reflexivity. }
    unfold idsFresh. rewrite Hids. split; [|exact Hnd].
    change (nextObjectId (snd (revokePermission t rt rid gt gid perm c)))
      with (nextObjectId c).
    apply Forall_forall. intros d Hd.
    assert (Hin : In (acl_id d) (map acl_id (documents c))).
    { rewrite <- Hids. now apply in_map. }
    apply in_map_iff in Hin as [d0 [Hid Hd0]].
    rewrite Forall_forall in Hbelow. rewrite <- Hid. now apply Hbelow.
Qed.

Lemma idsFresh_preserved_witness :
  idsFresh emptyCollection
  /\ idsFresh twiceGranted
  /\ idsFresh (snd (revokePermission 1200%Z "document" docD "user" (Some 1%N)
                      "read" twiceGranted)).
Proof.
  assert (H0 : idsFresh emptyCollection) by (split; constructor).
  assert (H1 : idsFresh (snd (grantPermission sampleUsers 1000%Z "document" docD
                                "user" (Some 1%N) None "read" 2%N None
                                emptyCollection)))
    by apply (proj1 (idsFresh_preserved sampleUsers emptyCollection H0)).
  assert (H2 : idsFresh twiceGranted)
    by apply (proj1 (idsFresh_preserved sampleUsers _ H1)).
  split; [exact H0|]. split; [exact H2|].
  apply (proj2 (idsFresh_preserved sampleUsers twiceGranted H2)).
Defined.

(** ** The hierarchy table *)

Ltac hierarchy_cases g :=
  unfold getPermissionHierarchy, PERMISSIONS.values, PERMISSIONS.ADMIN,
    PERMISSIONS.DELETE, PERMISSIONS.WRITE, PERMISSIONS.READ in *;
  destruct (String.eqb_spec g "admin") as [->|?];
  [|destruct (String.eqb_spec g "delete") as [->|?];
    [|destruct (String.eqb_spec g "write") as [->|?];
      [|destruct (String.eqb_spec g "read") as [->|?]]]].

Lemma getPermissionHierarchy_unknown g :
  ~ In g PERMISSIONS.values -> getPermissionHierarchy g = [].
Proof.
  intros Hn. hierarchy_cases g; try reflexivity;
    exfalso; apply Hn; simpl; tauto.
Qed.

Lemma getPermissionHierarchy_known g r :
  In r (getPermissionHierarchy g) ->
  In g PERMISSIONS.values /\ In r PERMISSIONS.values.
Proof.
  intros H. hierarchy_cases g; simpl in *; intuition.
Qed.

Lemma getPermissionHierarchy_trans g r q :
  In r (getPermissionHierarchy g) -> In q (getPermissionHierarchy r) ->
  In q (getPermissionHierarchy g).
Proof.
  intros Hr Hq. hierarchy_cases g; simpl in Hr;
    repeat (destruct Hr as [<-|Hr]; [vm_compute in Hq; simpl; tauto|]);
    contradiction.
Qed.

(** X11. [getPermissionHierarchy] lays the four permissions out as a chain:
    its answer for a permission starts with that permission, then lists the
    ones below it ([admin], [delete], [write], [read] in that order);
    membership in the answer is reflexive on the four values, transitive,
    antisymmetric and total; any other argument gets the empty list. *)
Theorem getPermissionHierarchy_chain :
  (forall g, In g PERMISSIONS.values ->
     hd_error (getPermissionHierarchy g) = Some g)
  /\ (forall g r, In r (getPermissionHierarchy g) ->
        In g PERMISSIONS.values /\ In r PERMISSIONS.values)
  /\ (forall g r q, In r (getPermissionHierarchy g) ->
        In q (getPermissionHierarchy r) -> In q (getPermissionHierarchy g))
  /\ (forall g r, In r (getPermissionHierarchy g) ->
        In g (getPermissionHierarchy r) -> g = r)
  /\ (forall g r, In g PERMISSIONS.values -> In r PERMISSIONS.values ->
        In r (getPermissionHierarchy g) \/ In g (getPermissionHierarchy r))
  /\ (forall g, ~ In g PERMISSIONS.values -> getPermissionHierarchy g = []).
Proof.
  split; [|split; [|split; [|split; [|split]]]].
  - intros g Hg. simpl in Hg.
    destruct Hg as [<-|[<-|[<-|[<-|[]]]]]; reflexivity.
  - apply getPermissionHierarchy_known.
  - apply getPermissionHierarchy_trans.
  - intros g r Hr Hg. hierarchy_cases g; simpl in Hr;
      repeat (destruct Hr as [<-|Hr];
              [vm_compute in Hg; intuition congruence|]);
      contradiction.
  - intros g r Hg Hr. simpl in Hg, Hr.
    destruct Hg as [<-|[<-|[<-|[<-|[]]]]];
      destruct Hr as [<-|[<-|[<-|[<-|[]]]]]; vm_compute; tauto.
  - apply getPermissionHierarchy_unknown.
Qed.

Lemma getPermissionHierarchy_chain_witness :
  In "write" (getPermissionHierarchy "delete")
  /\ In "read" (getPermissionHierarchy "write")
  /\ In "read" (getPermissionHierarchy "delete")
  /\ getPermissionHierarchy "owner" = [].
Proof.
  assert (H1 : In "write" (getPermissionHierarchy "delete")) by (vm_compute; tauto).
  assert (H2 : In "read" (getPermissionHierarchy "write")) by (vm_compute; tauto).
  split; [exact H1|]. split; [exact H2|]. split.
  - exact (proj1 (proj2 (proj2 getPermissionHierarchy_chain)) _ _ _ H1 H2).
  - apply (proj2 (proj2 (proj2 (proj2 (proj2 getPermissionHierarchy_chain))))).
    vm_compute. intuition discriminate.
Defined.

(** ** What the listing holds *)

Lemma directAclsQuery_iff rt uid perm now a :
  directAclsQuery rt uid perm now a = true <->
  resourceType a = rt /\ granteeType a = "user" /\ granteeId a = Some uid
  /\ In (permission a) (getPermissionHierarchy perm)
  /\ activeUnexpired now a = true.
Proof.
  unfold directAclsQuery, eqOid.
  rewrite !andb_true_iff, !String.eqb_eq, inStrings_In.
  destruct (granteeId a) as [g|].
  - rewrite N.eqb_eq. split.
    + intros [[[[? ?] ->] ?] ?]. tauto.
    + intros (? & ? & Hg & ? & ?). injection Hg as ->. tauto.
  - split; [intros [[[[? ?] ?] ?] ?]; discriminate|].
    intros (? & ? & ? & ?); discriminate.
Qed.

Lemma groupAclsQuery_iff rt names perm now a :
  groupAclsQuery rt names perm now a = true <->
  resourceType a = rt /\ granteeType a = "group"
  /\ (exists n, granteeName a = Some n /\ In n names)
  /\ In (permission a) (getPermissionHierarchy perm)
  /\ activeUnexpired now a = true.
Proof.
  unfold groupAclsQuery, inNames.
  rewrite !andb_true_iff, !String.eqb_eq, inStrings_In.
  destruct (granteeName a) as [n|].
  - rewrite existsb_exists. split.
    + intros [[[[? ?] [m [Hm He]]] ?] ?].
      apply String.eqb_eq in He. subst m. repeat split; eauto.
    + intros (? & ? & [m [Hm Hin]] & ? & ?). injection Hm as <-.
      repeat split; auto. exists n. split; [assumption | apply String.eqb_refl].
  - split; [intros [[[[? ?] ?] ?] ?]; discriminate|].
    intros (? & ? & [m [Hm _]] & ?); discriminate.
Qed.

Lemma publicAclsQuery_iff rt perm now a :
  publicAclsQuery rt perm now a = true <->
  resourceType a = rt /\ granteeType a = "public"
  /\ In (permission a) (getPermissionHierarchy perm)
  /\ activeUnexpired now a = true.
Proof.
  unfold publicAclsQuery.
  rewrite !andb_true_iff, !String.eqb_eq, inStrings_In. tauto.
Qed.

Lemma listed_iff users acls now heap userId rt perm id :
  In id (idValues (getUserAccessibleResources users acls now heap userId rt perm))
  <->
  exists a, In a acls
    /\ resourceId a = id /\ resourceType a = rt
    /\ activeUnexpired now a = true
    /\ In (permission a) (getPermissionHierarchy perm)
    /\ ((granteeType a = "user" /\ granteeId a = Some userId)
        \/ (granteeType a = "group"
              /\ exists user n, findById users userId = Some user
                   /\ granteeName a = Some n /\ In n (groups user))
        \/ granteeType a = "public").
Proof.
  rewrite getUserAccessibleResources_values, !in_app_iff. unfold findAll.
  split.
  - intros [H|[H|H]].
    + apply in_map_iff in H as [a [Hid Hin]]. apply filter_In in Hin as [Hin Hq].
      apply directAclsQuery_iff in Hq. exists a. intuition.
    + destruct (findById users userId) as [user|] eqn:Hu; [|contradiction].
      destruct (0 <? List.length (groups user))%nat; [|contradiction].
      apply in_map_iff in H as [a [Hid Hin]]. apply filter_In in Hin as [Hin Hq].
      apply groupAclsQuery_iff in Hq.
      destruct Hq as (? & ? & [n [? ?]] & ? & ?).
      exists a. repeat split; auto. right. left. split; [assumption|].
      exists user, n. auto.
    + apply in_map_iff in H as [a [Hid Hin]]. apply filter_In in Hin as [Hin Hq].
      apply publicAclsQuery_iff in Hq. exists a. intuition.
  - intros [a (Hin & Hid & Hrt & Hlive & Hperm & Hk)].
    destruct Hk as [[Hgt Hgid] | [(Hgt & user & n & Hu & Hn & Hmem) | Hgt]].
    + left. apply in_map_iff. exists a. split; [assumption|].
      apply filter_In. split; [assumption|]. apply directAclsQuery_iff. tauto.
    + right. left. rewrite Hu.
      replace (0 <? List.length (groups user))%nat with true
        by (symmetry; apply Nat.ltb_lt; destruct (groups user);
            [contradiction | simpl; lia]).
      apply in_map_iff. exists a. split; [assumption|].
      apply filter_In. split; [assumption|]. apply groupAclsQuery_iff.
      repeat split; auto. exists n. auto.
    + right. right. apply in_map_iff. exists a. split; [assumption|].
      apply filter_In. split; [assumption|]. apply publicAclsQuery_iff. tauto.
Qed.

(** X12. A resource id is in the result of [getUserAccessibleResources]
    exactly when the collection holds an active, unexpired record of that
    resource type and id whose permission is in
    [getPermissionHierarchy] of the requested permission, and that is a
    direct grant to the principal, a grant to one of the groups of the
    principal's user document, or a public grant. *)
Theorem getUserAccessibleResources_exact :
  forall users acls now heap userId rt perm id,
    In id (idValues (getUserAccessibleResources users acls now heap userId rt perm))
    <->
    exists a, In a acls
      /\ resourceId a = id /\ resourceType a = rt
      /\ active a = true
      /\ (expiresAt a = Missing \/ exists d, expiresAt a = At d /\ (now < d)%Z)
      /\ In (permission a) (getPermissionHierarchy perm)
      /\ ((granteeType a = "user" /\ granteeId a = Some userId)
          \/ (granteeType a = "group"
                /\ exists user n, findById users userId = Some user
                     /\ granteeName a = Some n /\ In n (groups user))
          \/ granteeType a = "public").
Proof.
  intros. rewrite listed_iff. split.
  - intros [a (Hin & Hid & Hrt & Hlive & Hrest)].
    apply activeUnexpired_iff in Hlive as [Hact Hexp].
    exists a. repeat split; try assumption; apply Hrest.
  - intros [a (Hin & Hid & Hrt & Hact & Hexp & Hrest)].
    exists a. repeat split; try assumption; try apply Hrest.
    apply activeUnexpired_iff. split; assumption.
Qed.

(** X13. Asked for a permission that is not one of the four values,
    [getUserAccessibleResources] returns the empty list, whatever the
    collection holds. *)
Theorem getUserAccessibleResources_unknown_permission :
  forall users acls now heap userId rt perm,
    ~ In perm PERMISSIONS.values ->
    getUserAccessibleResources users acls now heap userId rt perm = [].
Proof.
  intros users acls now heap userId rt perm Hn.
  destruct (getUserAccessibleResources users acls now heap userId rt perm)
    as [|x l] eqn:E; [reflexivity|].
  exfalso.
  assert (Hin : In (oid_value x)
            (idValues (getUserAccessibleResources users acls now heap userId rt perm)))
    by (rewrite E; left; reflexivity).
  apply listed_iff in Hin as [a (_ & _ & _ & _ & Hp & _)].
  rewrite (getPermissionHierarchy_unknown perm Hn) in Hp. exact Hp.
Qed.

Lemma getUserAccessibleResources_unknown_permission_witness :
  ~ In "owner" PERMISSIONS.values
  /\ getUserAccessibleResources sampleUsers [directAdminP; publicRead] 1500%Z 0
       1%N "document" "owner" = [].
Proof.
  assert (Hn : ~ In "owner" PERMISSIONS.values)
    by (vm_compute; intuition discriminate).
  split; [exact Hn|].
  apply (getUserAccessibleResources_unknown_permission sampleUsers
           [directAdminP; publicRead] 1500%Z 0 1%N "document" "owner" Hn).
Defined.

(** X14. The listing grows with the requested permission: whatever
    [getUserAccessibleResources] lists for a permission [r] it also lists
    for every permission [g] whose hierarchy answer contains [r]; so the
    resources listed for [read] are among those listed for [write], those
    among the ones for [delete], and those among the ones for [admin]. *)
Theorem getUserAccessibleResources_grows :
  forall users acls now heap heap' userId rt g r,
    In r (getPermissionHierarchy g) ->
    incl (idValues (getUserAccessibleResources users acls now heap userId rt r))
         (idValues (getUserAccessibleResources users acls now heap' userId rt g)).
Proof.
  intros users acls now heap heap' userId rt g r Hr id Hin.
  apply listed_iff in Hin as [a (Hin & Hid & Hrt & Hlive & Hp & Hk)].
  apply listed_iff. exists a. repeat split; try assumption.
  eapply getPermissionHierarchy_trans; eassumption.
Qed.

Lemma getUserAccessibleResources_grows_witness :
  In "read" (getPermissionHierarchy "admin")
  /\ idValues (getUserAccessibleResources sampleUsers [directReadP] 1500%Z 0 1%N
                 "document" "read") = [docD]
  /\ incl [docD]
       (idValues (getUserAccessibleResources sampleUsers [directReadP] 1500%Z 0
                    1%N "document" "admin")).
Proof.
  assert (H : In "read" (getPermissionHierarchy "admin")) by (vm_compute; tauto).
  split; [exact H|]. split; [reflexivity|].
  apply (getUserAccessibleResources_grows sampleUsers [directReadP] 1500%Z 0 0
           1%N "document" "admin" "read" H).
Defined.

(** ** When a grant is accepted *)

Lemma unresolvedGrantee_none users gt gid :
  unresolvedGrantee users gt gid = None <->
  (forall id, gt = "user" -> gid = Some id -> exists u, findById users id = Some u).
Proof.
  unfold unresolvedGrantee. destruct gid as [id|].
  - destruct (String.eqb_spec gt "user") as [->|Hne]; simpl.
    + destruct (findById users id) as [u|] eqn:Hu; simpl.
      * split; [|reflexivity]. intros _ id' _ Hid. injection Hid as <-.
        exists u. exact Hu.
      * split; [discriminate|]. intros H.
        destruct (H id eq_refl eq_refl) as [u Hu']. congruence.
    + split; [|reflexivity]. intros _ id' Hgt. contradiction.
  - split; [|reflexivity]. intros _ id' _ Hid. discriminate.
Qed.

(** X15. Called with no expiry or with an expiry that is a valid [Date],
    [grantPermission] succeeds exactly when the permission is one of the
    four values, the resource type and the grantee type are values of their
    schema enums, and a [granteeId] given for grantee type [user] belongs to
    a user document. With a valid permission and grantee, a resource type or
    grantee type outside its enum is rejected by [save()]: nothing is
    written, though an [_id] has been drawn. *)
Theorem grantPermission_accepted_iff :
  forall users now rt rid gt gid gname perm by_ expires c,
    dateInRange expires ->
    let call := grantPermission users now rt rid gt gid gname perm by_ expires c in
    let resolved :=
      forall id, gt = "user" -> gid = Some id ->
                 exists u, findById users id = Some u in
    ((exists a c', call = (inr a, c')) <->
       In perm PERMISSIONS.values /\ In rt resourceTypeEnum
       /\ In gt granteeTypeEnum /\ resolved)
    /\ (In perm PERMISSIONS.values -> resolved -> ~ In rt resourceTypeEnum ->
        call = (inl (SchemaValidation "resourceType"),
                mkCollection (documents c) (N.succ (nextObjectId c))))
    /\ (In perm PERMISSIONS.values -> resolved -> In rt resourceTypeEnum ->
        ~ In gt granteeTypeEnum ->
        call = (inl (SchemaValidation "granteeType"),
                mkCollection (documents c) (N.succ (nextObjectId c)))).
Proof.
  intros users now rt rid gt gid gname perm by_ expires c _ call resolved.
  assert (Hshape : In perm PERMISSIONS.values -> resolved ->
            call =
            match validateAcl (builtEntry (nextObjectId c) now rt rid gt gid gname
                                 perm by_ expires) with
            | Some path => (inl (SchemaValidation path),
                            mkCollection (documents c) (N.succ (nextObjectId c)))
            | None =>
                (inr (builtEntry (nextObjectId c) now rt rid gt gid gname perm
                        by_ expires),
                 mkCollection
                   (documents c ++ [builtEntry (nextObjectId c) now rt rid gt gid
                                      gname perm by_ expires])
                   (N.succ (nextObjectId c)))
            end).
  { intros Hp Hres. apply inStrings_In in Hp.
    apply (proj2 (unresolvedGrantee_none users gt gid)) in Hres.
    unfold call, grantPermission. rewrite Hp, Hres. reflexivity. }
  assert (Hval : validateAcl (builtEntry (nextObjectId c) now rt rid gt gid gname
                                perm by_ expires) =
                 if negb (inStrings rt resourceTypeEnum) then Some "resourceType"
                 else if negb (inStrings gt granteeTypeEnum) then Some "granteeType"
                 else if negb (inStrings perm permissionEnum) then Some "permission"
                 else None) by reflexivity.
  split; [|split].
  - split.
    + intros (a & c' & H). apply grantPermission_success in H
        as (Ha & _ & Hp & Hu & Hv).
      subst a. rewrite Hval in Hv.
      destruct (inStrings rt resourceTypeEnum) eqn:Hrt; [|discriminate].
      destruct (inStrings gt granteeTypeEnum) eqn:Hgt; [|discriminate].
      split; [now apply inStrings_In|].
      split; [now apply inStrings_In|].
      split; [now apply inStrings_In|].
      exact (proj1 (unresolvedGrantee_none users gt gid) Hu).
    + intros (Hp & Hrt & Hgt & Hres).
      rewrite (Hshape Hp Hres), Hval.
      apply inStrings_In in Hrt. apply inStrings_In in Hgt.
      assert (Hp' : inStrings perm permissionEnum = true) by (apply inStrings_In, Hp).
      rewrite Hrt, Hgt, Hp'. simpl. eauto.
  - intros Hp Hres Hrt. rewrite (Hshape Hp Hres), Hval.
    apply inStrings_not_In in Hrt. now rewrite Hrt.
  - intros Hp Hres Hrt Hgt. rewrite (Hshape Hp Hres), Hval.
    apply inStrings_In in Hrt. apply inStrings_not_In in Hgt.
    now rewrite Hrt, Hgt.
Qed.

Lemma grantPermission_accepted_iff_witness :
  dateInRange (Some 5000%Z)
  /\ (~ In "invoice" resourceTypeEnum
      /\ grantPermission sampleUsers 1000%Z "invoice" docD "public" None None "read"
           2%N (Some 5000%Z) twiceGranted
         = (inl (SchemaValidation "resourceType"),
            mkCollection (documents twiceGranted) 3%N))
  /\ (exists a c', grantPermission sampleUsers 1000%Z "folder" docD "role" None
                     (Some "auditor") "write" 2%N (Some 5000%Z) twiceGranted
                   = (inr a, c')).
Proof.
  assert (Hd : dateInRange (Some 5000%Z)) by (simpl; lia).
  assert (Hn : ~ In "invoice" resourceTypeEnum)
    by (vm_compute; intuition discriminate).
  assert (Hp : In "read" PERMISSIONS.values) by (vm_compute; tauto).
  split; [exact Hd|]. split; [split; [exact Hn|]|].
  - apply (proj1 (proj2 (grantPermission_accepted_iff sampleUsers 1000%Z
                           "invoice" docD "public" None None "read" 2%N
                           (Some 5000%Z) twiceGranted Hd)) Hp); [|exact Hn].
    intros id Hgt. discriminate.
  - apply (proj1 (grantPermission_accepted_iff sampleUsers 1000%Z "folder" docD
                    "role" None (Some "auditor") "write" 2%N (Some 5000%Z)
                    twiceGranted Hd)).
    repeat split; try (vm_compute; tauto).
    intros id Hgt. discriminate.
Defined.

(** ** Listings after a revocation *)

Lemma deactivated_not_found (q rq : Acl -> bool) t l :
  (forall a, q a = true -> active a = true) ->
  filter q (map (fun a => if rq a then deactivate t a else a) l) =
  filter q (filter (fun a => negb (rq a)) l).
Proof.
  intros Hq. induction l as [|a l IH]; simpl; [reflexivity|].
  destruct (rq a); simpl.
  - rewrite IH. destruct (q (deactivate t a)) eqn:E; [|reflexivity].
    apply Hq in E. discriminate.
  - now rewrite IH.
Qed.

(** X16. After [revokePermission] both listings are the ones that would be
    produced had the selected records never been stored: they drop out of
    [getResourcePermissions] and no longer make a resource appear in
    [getUserAccessibleResources]. *)
Theorem listings_after_revoke :
  forall users t rt rid gt gid perm c now,
    let after := documents (snd (revokePermission t rt rid gt gid perm c)) in
    let kept := filter (fun a => negb (revokeQuery rt rid gt gid perm a))
                  (documents c) in
    (forall rt' rid',
       getResourcePermissions users after now rt' rid' =
       getResourcePermissions users kept now rt' rid')
    /\ (forall heap userId rt' perm',
          getUserAccessibleResources users after now heap userId rt' perm' =
          getUserAccessibleResources users kept now heap userId rt' perm').
Proof.
  intros users t rt rid gt gid perm c now after kept.
  assert (Hafter : after =
            map (fun a => if revokeQuery rt rid gt gid perm a
                          then deactivate t a else a) (documents c))
    by apply revokePermission_documents.
  rewrite Hafter. unfold kept. split.
  - intros rt' rid'. unfold getResourcePermissions, findAll.
    rewrite deactivated_not_found; [reflexivity|].
    intros a H. unfold resourceQuery in H. apply andb_prop in H as [_ H].
    exact (activeUnexpired_active now a H).
  - intros heap userId rt' perm'. unfold getUserAccessibleResources, findAll.
    rewrite (deactivated_not_found (directAclsQuery rt' userId perm' now))
      by (intros a H; apply directAclsQuery_iff in H;
          destruct H as (_ & _ & _ & _ & H);
          exact (activeUnexpired_active now a H)).
    rewrite (deactivated_not_found (publicAclsQuery rt' perm' now))
      by (intros a H; apply publicAclsQuery_iff in H;
          destruct H as (_ & _ & _ & H);
          exact (activeUnexpired_active now a H)).
    destruct (findById users userId) as [user|]; [|reflexivity].
    rewrite (deactivated_not_found (groupAclsQuery rt' (groups user) perm' now))
      by (intros a H; apply groupAclsQuery_iff in H;
          destruct H as (_ & _ & _ & _ & H);
          exact (activeUnexpired_active now a H)).
    reflexivity.
Qed.

(** * Properties of the callers *)

(** ** The token check *)

(** No space among the characters of [s]. *)
Definition noSpace (s : string) : Prop :=
  ~ In " "%char (list_ascii_of_string s).

Lemma noSpace_cons c s : noSpace (String c s) -> c <> " "%char /\ noSpace s.
Proof.
  unfold noSpace. simpl. intros H. split.
  - intros ->. apply H. now left.
  - intros Hin. apply H. now right.
Qed.

Lemma splitSpaces_prefix s u :
  noSpace s -> splitSpaces (s ++ " " ++ u) = s :: splitSpaces u.
Proof.
  induction s as [|c s IH]; intros Hs.
  - reflexivity.
  - apply noSpace_cons in Hs as [Hc Hs].
    change (splitSpaces (String c (s ++ " " ++ u)) = String c s :: splitSpaces u).
    cbn [splitSpaces].
    destruct (Ascii.eqb_spec c " "%char) as [E|_]; [contradiction|].
    now rewrite (IH Hs).
Qed.

Lemma splitSpaces_single s : noSpace s -> splitSpaces s = [s].
Proof.
  induction s as [|c s IH]; intros Hs; simpl.
  - reflexivity.
  - apply noSpace_cons in Hs as [Hc Hs].
    destruct (Ascii.eqb_spec c " "%char) as [E|_]; [contradiction|].
    now rewrite (IH Hs).
Qed.

Lemma truthy_append_space s u : truthy (Some (s ++ " " ++ u)%string) = true.
Proof. destruct s; reflexivity. Qed.

(** X17. [authenticateToken] looks at the second space-separated piece of
    the header and at nothing else. A header with no space in it is answered
    401 without consulting [jwt.verify]; for a header [s ++ " " ++ t] the
    answer is 401 when [t] is empty and otherwise what verification of [t]
    gives, whatever the scheme word [s] is; and anything after a second
    space is ignored. *)
Theorem authenticateToken_second_piece :
  forall verify s t,
    noSpace s -> noSpace t ->
    authenticateToken verify (Some s) = Respond 401 "Access token required"
    /\ authenticateToken verify (Some (s ++ " " ++ t)%string) =
       match t with
       | EmptyString => Respond 401 "Access token required"
       | _ => match verify t with
              | None => Respond 403 "Invalid or expired token"
              | Some user => Next (payload_id user) (payload_username user)
              end
       end
    /\ forall rest,
         authenticateToken verify (Some (s ++ " " ++ t ++ " " ++ rest)%string) =
         authenticateToken verify (Some (s ++ " " ++ t)%string).
Proof.
  intros verify s t Hs Ht.
  assert (Htok : forall rest, headerToken (Some (s ++ " " ++ t ++ " " ++ rest)%string)
                              = Some t).
  { intros rest. unfold headerToken. rewrite truthy_append_space.
    rewrite (splitSpaces_prefix s _ Hs), (splitSpaces_prefix t _ Ht). reflexivity. }
  assert (Htok2 : headerToken (Some (s ++ " " ++ t)%string) = Some t).
  { unfold headerToken. rewrite truthy_append_space.
    rewrite (splitSpaces_prefix s _ Hs), (splitSpaces_single t Ht). reflexivity. }
  split; [|split].
  - unfold authenticateToken, headerToken.
    destruct (truthy (Some s)); [|reflexivity].
    now rewrite (splitSpaces_single s Hs).
  - unfold authenticateToken. rewrite Htok2. destruct t; reflexivity.
  - intros rest. unfold authenticateToken. now rewrite Htok, Htok2.
Qed.

Lemma authenticateToken_second_piece_witness :
  noSpace "Basic" /\ noSpace "good"
  /\ authenticateToken sampleVerify (Some "good")
     = Respond 401 "Access token required"
  /\ authenticateToken sampleVerify (Some "Basic good") = Next 1%N "pat"
  /\ authenticateToken sampleVerify (Some "Basic good and more")
     = authenticateToken sampleVerify (Some "Basic good").
Proof.
  assert (Hs : noSpace "Basic") by (unfold noSpace; simpl; intuition discriminate).
  assert (Ht : noSpace "good") by (unfold noSpace; simpl; intuition discriminate).
  destruct (authenticateToken_second_piece sampleVerify "Basic" "good" Hs Ht)
    as (H1 & H2 & H3).
  split; [exact Hs|]. split; [exact Ht|].
  split; [|split].
  - apply (proj1 (authenticateToken_second_piece sampleVerify "good" "" Ht
                    ltac:(unfold noSpace; simpl; tauto))).
  - exact H2.
  - exact (H3 "and more").
Defined.

(** ** Granting through the route *)

(** X18. [PUT /:id/permissions] writes only for an administrator of the
    document and at most one record: the documents collection is never
    touched; unless the answer is 200 the grant records are what they were;
    and on a 200 answer the caller passed the [admin] check and exactly one
    record was appended, active, on that document, with the body's grantee
    and permission, the caller as grantor and [expiresAt: null]. *)
Theorem putPermissionsRoute_writes_for_admin_only :
  forall users now userId id gt gid gname perm db,
    let r := putPermissionsRoute users now userId id gt gid gname perm db in
    let before := documents (aclCollection db) in
    let after := documents (aclCollection (snd r)) in
    documentCollection (snd r) = documentCollection db
    /\ In (statusCode (fst r)) [200; 403; 500]
    /\ (statusCode (fst r) <> 200 -> after = before)
    /\ (statusCode (fst r) = 200 ->
        hasPermission users before now userId "document" id "admin" = true
        /\ exists a, after = before ++ [a]
             /\ resourceType a = "document" /\ resourceId a = id
             /\ granteeType a = gt /\ granteeId a = gid /\ granteeName a = gname
             /\ permission a = perm /\ grantedBy a = userId
             /\ expiresAt a = Null /\ active a = true).
Proof.
  intros users now userId id gt gid gname perm db r before after.
  unfold after, before, r, putPermissionsRoute.
  destruct (hasPermission users (documents (aclCollection db)) now userId
              "document" id PERMISSIONS.ADMIN) eqn:Hadm; simpl.
  - destruct (grantPermission users now "document" id gt gid gname perm userId
                None (aclCollection db)) as [[e|a] c'] eqn:Hg; simpl.
    + apply grantPermission_failure in Hg.
      split; [reflexivity|]. split; [tauto|]. split; [intros _; exact Hg|].
      discriminate.
    + apply grantPermission_success in Hg as (Ha & Hc' & _).
      split; [reflexivity|]. split; [tauto|]. split; [congruence|].
      intros _. split; [exact Hadm|].
      exists a. subst c' a. repeat split.
  - split; [reflexivity|]. split; [tauto|]. split; [reflexivity|].
    discriminate.
Qed.

Lemma putPermissionsRoute_writes_for_admin_only_witness :
  let db := mkDatabase (mkCollection [directAdminP] 20%N)
              [sampleDocument docD "active"] in
  let r := putPermissionsRoute sampleUsers 1500%Z 1%N docD "user" (Some 2%N)
             None "read" db in
  statusCode (fst r) = 200
  /\ exists a, documents (aclCollection (snd r)) = [directAdminP] ++ [a]
       /\ granteeId a = Some 2%N /\ grantedBy a = 1%N /\ expiresAt a = Null.
Proof.
  intros db r.
  assert (Hs : statusCode (fst r) = 200) by reflexivity.
  split; [exact Hs|].
  destruct (proj2 (proj2 (proj2 (putPermissionsRoute_writes_for_admin_only
              sampleUsers 1500%Z 1%N docD "user" (Some 2%N) None "read" db))) Hs)
    as (_ & a & Hdocs & _ & _ & _ & Hgid & _ & _ & Hby & Hexp & _).
  exists a. repeat split; assumption.
Defined.

(** X19. A permission granted through [PUT /:id/permissions] is never read:
    the route passes no expiry, so whatever it answers, every
    [hasPermission] decision taken afterwards is the one that would have
    been taken before, and so are the answers of [GET /:id/permissions] and
    of the document listing. *)
Theorem putPermissionsRoute_changes_no_decision :
  forall users now userId id gt gid gname perm db,
    let db' := snd (putPermissionsRoute users now userId id gt gid gname perm db) in
    (forall later u rt rid p,
       hasPermission users (documents (aclCollection db')) later u rt rid p =
       hasPermission users (documents (aclCollection db)) later u rt rid p)
    /\ (forall later u rid,
          getPermissionsRoute users later u rid db' =
          getPermissionsRoute users later u rid db)
    /\ (forall later heap u,
          listDocumentsRoute users later heap u db' =
          listDocumentsRoute users later heap u db).
Proof.
  intros users now userId id gt gid gname perm db db'.
  assert (Hsame : documents (aclCollection db') = documents (aclCollection db)
                  \/ exists a c', grantPermission users now "document" id gt gid
                                    gname perm userId None (aclCollection db)
                                  = (inr a, c')
                                  /\ aclCollection db' = c').
  { unfold db', putPermissionsRoute.
    destruct (hasPermission users (documents (aclCollection db)) now userId
                "document" id PERMISSIONS.ADMIN); simpl; [|now left].
    destruct (grantPermission users now "document" id gt gid gname perm userId
                None (aclCollection db)) as [[e|a] c'] eqn:Hg; simpl.
    - left. now apply grantPermission_failure in Hg.
    - right. exists a, c'. split; reflexivity. }
  assert (Hdocs : documentCollection db' = documentCollection db).
  { unfold db', putPermissionsRoute.
    destruct (hasPermission _ _ _ _ _ _ _); simpl; [|reflexivity].
    destruct (fst _); reflexivity. }
  assert (Hreads :
    (forall later u rt rid p,
       hasPermission users (documents (aclCollection db')) later u rt rid p =
       hasPermission users (documents (aclCollection db)) later u rt rid p)
    /\ (forall later rt rid,
          getResourcePermissions users (documents (aclCollection db')) later rt rid =
          getResourcePermissions users (documents (aclCollection db)) later rt rid)
    /\ (forall later heap u rt p,
          getUserAccessibleResources users (documents (aclCollection db')) later
            heap u rt p =
          getUserAccessibleResources users (documents (aclCollection db)) later
            heap u rt p)).
  { destruct Hsame as [->|(a & c' & Hg & ->)].
    - repeat split.
    - exact (null_expiry_grant_invisible users now "document"
               id gt gid gname perm userId (aclCollection db) a c' Hg). }
  destruct Hreads as (Hh & Hr & Hl).
  split; [exact Hh|]. split.
  - intros later u rid. unfold getPermissionsRoute. now rewrite Hh, Hr.
  - intros later heap u. unfold listDocumentsRoute. now rewrite Hl, Hdocs.
Qed.

(** ** Listing, reading and deleting documents *)

(** Selecting among documents with distinct ids gives documents with
    distinct ids. *)
Lemma selected_ids_distinct (keep : Document -> bool) (docs : list Document) :
  NoDup (map doc_id docs) -> NoDup (map doc_id (filter keep docs)).
Proof.
  induction docs as [|d docs IH]; simpl; intros Hnd; [constructor|].
  inversion Hnd as [|x xs Hnotin Hrest]; subst.
  destruct (keep d); simpl; [|now apply IH].
  constructor; [|now apply IH].
  intros Hin. apply Hnotin. apply in_map_iff in Hin as [y [Hy Hyin]].
  apply filter_In in Hyin as [Hyin _]. apply in_map_iff. now exists y.
Qed.

Lemma existsb_eqb_In (x : ObjectId) (l : list ObjectId) :
  existsb (N.eqb x) l = true <-> In x l.
Proof.
  rewrite existsb_exists. split.
  - intros [y [Hy He]]. apply N.eqb_eq in He. now subst.
  - intros Hin. exists x. split; [assumption | apply N.eqb_refl].
Qed.

(** X20. [GET /] answers 200 with the summaries of exactly those documents
    whose status is [active] and on which an active, unexpired record grants
    the caller [read] by name (directly, through a group of the caller's
    user document, or to the public); a document is listed once even when
    several grants reach it, provided document ids are distinct. *)
Theorem listDocumentsRoute_contents :
  forall users now heap userId db,
    exists l,
      listDocumentsRoute users now heap userId db
        = mkResponse 200 (DocumentListJson l)
      /\ (forall s, In s l <->
            exists d a,
              In d (documentCollection db) /\ s = selectSummary d
              /\ doc_status d = "active"
              /\ In a (documents (aclCollection db))
              /\ resourceType a = "document" /\ resourceId a = doc_id d
              /\ permission a = "read"
              /\ active a = true
              /\ (expiresAt a = Missing
                  \/ exists e, expiresAt a = At e /\ (now < e)%Z)
              /\ ((granteeType a = "user" /\ granteeId a = Some userId)
                  \/ (granteeType a = "group"
                        /\ exists user n, findById users userId = Some user
                             /\ granteeName a = Some n /\ In n (groups user))
                  \/ granteeType a = "public"))
      /\ (NoDup (map doc_id (documentCollection db)) -> NoDup (map sum_id l)).
Proof.
  intros users now heap userId db. unfold listDocumentsRoute.
  eexists. split; [reflexivity|]. split.
  - intros s. rewrite in_map_iff. split.
    + intros [d [Hs Hd]]. apply filter_In in Hd as [Hd Hq].
      apply andb_prop in Hq as [Hid Hst].
      apply existsb_eqb_In in Hid. apply String.eqb_eq in Hst.
      apply listed_iff in Hid as [a (Ha & Hrid & Hrt & Hlive & Hp & Hk)].
      apply activeUnexpired_iff in Hlive as [Hact Hexp].
      exists d, a. repeat split; try assumption; try (now symmetry).
      vm_compute in Hp. destruct Hp as [Hp|[]]. now symmetry.
    + intros (d & a & Hd & -> & Hst & Ha & Hrt & Hrid & Hp & Hact & Hexp & Hk).
      exists d. split; [reflexivity|].
      apply filter_In. split; [assumption|].
      apply andb_true_intro. split; [|now apply String.eqb_eq].
      apply existsb_eqb_In. apply listed_iff. exists a.
      repeat split; try assumption.
      * apply activeUnexpired_iff. split; assumption.
      * rewrite Hp. vm_compute. now left.
  - intros Hnd. rewrite map_map. simpl.
    now apply selected_ids_distinct.
Qed.

(** Document [docD] is reached by a direct and by a public grant of [read],
    and is listed once. *)
Lemma listDocumentsRoute_contents_witness :
  NoDup (map doc_id (documentCollection sampleDatabase))
  /\ idValues (getUserAccessibleResources sampleUsers
                 (documents (aclCollection sampleDatabase)) 1500%Z 0 1%N
                 "document" "read") = [docD; docD]
  /\ exists l,
       listDocumentsRoute sampleUsers 1500%Z 0 1%N sampleDatabase
         = mkResponse 200 (DocumentListJson l)
       /\ map sum_id l = [docD]
       /\ NoDup (map sum_id l).
Proof.
  assert (Hnd : NoDup (map doc_id (documentCollection sampleDatabase))).
  { simpl. constructor; [|constructor; [|constructor]]; simpl.
    - intros [H|[]]. discriminate.
    - tauto. }
  split; [exact Hnd|]. split; [reflexivity|].
  destruct (listDocumentsRoute_contents sampleUsers 1500%Z 0 1%N sampleDatabase)
    as (l & Hl & _ & Hn).
  exists l. split; [exact Hl|]. split; [|exact (Hn Hnd)].
  injection Hl as <-. reflexivity.
Defined.

Lemma markDeleted_id now d : doc_id (markDeleted now d) = doc_id d.
Proof. unfold markDeleted. destruct (String.eqb (doc_status d) "deleted"); reflexivity. Qed.

Lemma markDeleted_status now d : doc_status (markDeleted now d) = "deleted".
Proof.
  unfold markDeleted. destruct (String.eqb_spec (doc_status d) "deleted"); auto.
Qed.

Lemma touchDocument_id now d : doc_id (touchDocument now d) = doc_id d.
Proof.
  unfold touchDocument.
  destruct (match doc_lastAccessed d with Some t => Z.eqb t now | None => false end);
    reflexivity.
Qed.

Lemma touchDocument_status now d : doc_status (touchDocument now d) = doc_status d.
Proof.
  unfold touchDocument.
  destruct (match doc_lastAccessed d with Some t => Z.eqb t now | None => false end);
    reflexivity.
Qed.

Lemma findDocumentById_saved docs id d d' :
  findDocumentById docs id = Some d -> doc_id d' = id ->
  findDocumentById (saveDocument d' docs) id = Some d'.
Proof.
  unfold findDocumentById, saveDocument. intros Hf Hid. subst id.
  induction docs as [|x docs IH]; simpl in *; [discriminate|].
  destruct (N.eqb (doc_id x) (doc_id d')) eqn:E; simpl.
  - now rewrite N.eqb_refl.
  - rewrite E. now apply IH.
Qed.

Lemma findDocumentById_id docs id d :
  findDocumentById docs id = Some d -> doc_id d = id.
Proof.
  unfold findDocumentById. intros H. apply find_some in H as [_ H].
  now apply N.eqb_eq.
Qed.

Lemma saveDocument_ids d docs :
  map doc_id (saveDocument d docs) = map doc_id docs.
Proof.
  unfold saveDocument. rewrite map_map. apply map_ext_in.
  intros x _. destruct (N.eqb (doc_id x) (doc_id d)) eqn:E; [|reflexivity].
  apply N.eqb_eq in E. now symmetry.
Qed.

(** X21. [DELETE /:id] is a soft delete that hides the document from the
    listing only. After a 200 answer the grant records are untouched, no
    document has been removed, the document is stored with status
    [deleted], no listing shows it any more, and [GET /:id] still serves it
    with 200 to any caller who passes the [read] check. *)
Theorem deleteDocumentRoute_soft :
  forall storageDelete users now userId id db r db',
    deleteDocumentRoute storageDelete users now userId id db = (r, db') ->
    statusCode r = 200 ->
    aclCollection db' = aclCollection db
    /\ map doc_id (documentCollection db') = map doc_id (documentCollection db)
    /\ (exists d, findDocumentById (documentCollection db) id = Some d
                  /\ storageDelete (doc_path d) = true
                  /\ findDocumentById (documentCollection db') id
                     = Some (markDeleted now d))
    /\ (forall later heap u l,
          listDocumentsRoute users later heap u db'
            = mkResponse 200 (DocumentListJson l) ->
          ~ In id (map sum_id l))
    /\ (forall later u,
          hasPermission users (documents (aclCollection db)) later u "document"
            id "read" = true ->
          exists d', fst (getDocumentRoute users later u id db')
                     = mkResponse 200 (DocumentJson d')
                     /\ doc_id d' = id /\ doc_status d' = "deleted").
Proof.
  intros storageDelete users now userId id db r db' H Hs.
  unfold deleteDocumentRoute in H.
  destruct (hasPermission users (documents (aclCollection db)) now userId
              "document" id PERMISSIONS.DELETE); simpl in H;
    [|injection H as <- <-; discriminate].
  destruct (findDocumentById (documentCollection db) id) as [d|] eqn:Hd;
    [|injection H as <- <-; discriminate].
  destruct (storageDelete (doc_path d)) eqn:Hsd;
    [|injection H as <- <-; discriminate].
  injection H as <- <-. simpl.
  pose proof (findDocumentById_id _ _ _ Hd) as Hid.
  assert (Hfound : findDocumentById
                     (saveDocument (markDeleted now d) (documentCollection db)) id
                   = Some (markDeleted now d))
    by (apply (findDocumentById_saved _ _ d);
        [exact Hd | now rewrite markDeleted_id]).
  split; [reflexivity|]. split; [apply saveDocument_ids|].
  split; [exists d; repeat split; assumption|]. split.
  - intros later heap u l Hl Hin. unfold listDocumentsRoute in Hl.
    injection Hl as <-. simpl in Hin.
    rewrite map_map in Hin. apply in_map_iff in Hin as [x [Hx Hxin]].
    apply filter_In in Hxin as [Hxin Hq]. apply andb_prop in Hq as [_ Hst].
    apply String.eqb_eq in Hst.
    unfold saveDocument in Hxin. apply in_map_iff in Hxin as [y [Hy Hyin]].
    rewrite markDeleted_id in Hy. simpl in Hx.
    destruct (N.eqb (doc_id y) (doc_id d)) eqn:E.
    + subst x. rewrite markDeleted_status in Hst. discriminate.
    + subst x. apply N.eqb_neq in E. congruence.
  - intros later u Hread. unfold getDocumentRoute. simpl.
    change PERMISSIONS.READ with "read". rewrite Hread. simpl.
    rewrite Hfound. simpl.
    eexists. split; [reflexivity|].
    rewrite touchDocument_id, touchDocument_status, markDeleted_id,
      markDeleted_status.
    split; [exact Hid | reflexivity].
Qed.

Lemma deleteDocumentRoute_soft_witness :
  let db := mkDatabase (mkCollection [directAdminP; publicRead] 20%N)
              [sampleDocument docD "active"] in
  let out := deleteDocumentRoute (fun _ => true) sampleUsers 1500%Z 1%N docD db in
  statusCode (fst out) = 200
  /\ map doc_status (documentCollection (snd out)) = ["deleted"]
  /\ exists d', fst (getDocumentRoute sampleUsers 1600%Z 2%N docD (snd out))
                = mkResponse 200 (DocumentJson d')
                /\ doc_id d' = docD /\ doc_status d' = "deleted".
Proof.
  intros db out.
  assert (Hs : statusCode (fst out) = 200) by reflexivity.
  split; [exact Hs|]. split; [reflexivity|].
  apply (proj2 (proj2 (proj2 (proj2 (deleteDocumentRoute_soft (fun _ => true)
           sampleUsers 1500%Z 1%N docD db (fst out) (snd out) eq_refl Hs))))
           1600%Z 2%N).
  reflexivity.
Defined.

(** With distinct ids, a stored document is determined by its id. *)
Lemma document_by_id (docs : list Document) (x y : Document) :
  NoDup (map doc_id docs) -> In x docs -> In y docs ->
  doc_id x = doc_id y -> x = y.
Proof.
  induction docs as [|d docs IH]; simpl; intros Hnd Hx Hy Hid; [contradiction|].
  inversion Hnd as [|b bs Hnotin Hrest]; subst.
  destruct Hx as [->|Hx], Hy as [->|Hy].
  - reflexivity.
  - exfalso. apply Hnotin. rewrite Hid. now apply in_map.
  - exfalso. apply Hnotin. rewrite <- Hid. now apply in_map.
  - now apply IH.
Qed.

Lemma touchDocument_fields now d :
  let d' := touchDocument now d in
  doc_id d' = doc_id d /\ doc_name d' = doc_name d /\ doc_path d' = doc_path d
  /\ doc_size d' = doc_size d /\ doc_mimeType d' = doc_mimeType d
  /\ doc_contentHash d' = doc_contentHash d /\ doc_metadata d' = doc_metadata d
  /\ doc_uploadedBy d' = doc_uploadedBy d /\ doc_uploadedAt d' = doc_uploadedAt d
  /\ doc_tags d' = doc_tags d /\ doc_status d' = doc_status d
  /\ doc_createdAt d' = doc_createdAt d
  /\ doc_lastAccessed d' = Some now
  /\ (doc_lastAccessed d = Some now -> d' = d)
  /\ (doc_lastAccessed d <> Some now -> doc_updatedAt d' = now).
Proof.
  unfold touchDocument.
  destruct (doc_lastAccessed d) as [t|] eqn:Hl.
  - destruct (Z.eqb_spec t now) as [->|Hne]; simpl.
    + repeat split; try assumption; congruence.
    + repeat split. intros H. congruence.
  - simpl. repeat split. discriminate.
Qed.

(** X22. [GET /:id], given a well-formed id, writes nothing but the access
    stamp. It answers 200, 403 or 404; the grant records are never touched;
    unless the answer is 200 the database is what it was; and, document ids
    being distinct, every stored document keeps its id, name, path, size,
    type, content hash, metadata, uploader, upload time, tags, status and
    creation time, every document but the requested one is left as it was,
    and on a 200 answer the requested one has [lastAccessed] set to the
    time of the request, with [updatedAt] set to it too unless
    [lastAccessed] already had that value, in which case nothing was
    written. *)
Theorem getDocumentRoute_stamps_one_document :
  forall users now userId id db,
    let out := getDocumentRoute users now userId id db in
    aclCollection (snd out) = aclCollection db
    /\ In (statusCode (fst out)) [200; 403; 404]
    /\ (statusCode (fst out) <> 200 -> snd out = db)
    /\ (NoDup (map doc_id (documentCollection db)) ->
        Forall2 (fun d d' =>
                   doc_id d' = doc_id d /\ doc_name d' = doc_name d
                   /\ doc_path d' = doc_path d /\ doc_size d' = doc_size d
                   /\ doc_mimeType d' = doc_mimeType d
                   /\ doc_contentHash d' = doc_contentHash d
                   /\ doc_metadata d' = doc_metadata d
                   /\ doc_uploadedBy d' = doc_uploadedBy d
                   /\ doc_uploadedAt d' = doc_uploadedAt d
                   /\ doc_tags d' = doc_tags d /\ doc_status d' = doc_status d
                   /\ doc_createdAt d' = doc_createdAt d
                   /\ (doc_id d <> id -> d' = d)
                   /\ (doc_id d = id -> statusCode (fst out) = 200 ->
                       doc_lastAccessed d' = Some now
                       /\ (doc_lastAccessed d = Some now -> d' = d)
                       /\ (doc_lastAccessed d <> Some now ->
                           doc_updatedAt d' = now)))
                (documentCollection db) (documentCollection (snd out))).
Proof.
  intros users now userId id db out. unfold out, getDocumentRoute.
  assert (Hrefl : forall (code : nat) (l : list Document), code <> 200 ->
            Forall2 (fun d d' =>
                   doc_id d' = doc_id d /\ doc_name d' = doc_name d
                   /\ doc_path d' = doc_path d /\ doc_size d' = doc_size d
                   /\ doc_mimeType d' = doc_mimeType d
                   /\ doc_contentHash d' = doc_contentHash d
                   /\ doc_metadata d' = doc_metadata d
                   /\ doc_uploadedBy d' = doc_uploadedBy d
                   /\ doc_uploadedAt d' = doc_uploadedAt d
                   /\ doc_tags d' = doc_tags d /\ doc_status d' = doc_status d
                   /\ doc_createdAt d' = doc_createdAt d
                   /\ (doc_id d <> id -> d' = d)
                   /\ (doc_id d = id -> code = 200 ->
                       doc_lastAccessed d' = Some now
                       /\ (doc_lastAccessed d = Some now -> d' = d)
                       /\ (doc_lastAccessed d <> Some now ->
                           doc_updatedAt d' = now))) l l).
  { intros code l Hcode. induction l as [|x l IH]; constructor; [|exact IH].
    repeat split; contradiction. }
  destruct (hasPermission users (documents (aclCollection db)) now userId
              "document" id PERMISSIONS.READ); simpl.
  - destruct (findDocumentById (documentCollection db) id) as [d|] eqn:Hd; simpl.
    + split; [reflexivity|]. split; [tauto|]. split; [congruence|].
      intros Hnd.
      pose proof (findDocumentById_id _ _ _ Hd) as Hid.
      assert (Hind : In d (documentCollection db)).
      { unfold findDocumentById in Hd. now apply find_some in Hd. }
      unfold saveDocument. rewrite touchDocument_id.
      assert (Hall : forall x, In x (documentCollection db) ->
                (N.eqb (doc_id x) (doc_id d) = true /\ x = d)
                \/ (N.eqb (doc_id x) (doc_id d) = false /\ doc_id x <> id)).
      { intros x Hx. destruct (N.eqb (doc_id x) (doc_id d)) eqn:E.
        - left. split; [reflexivity|]. apply N.eqb_eq in E.
          eapply document_by_id; eassumption.
        - right. split; [reflexivity|]. apply N.eqb_neq in E. congruence. }
      clear Hd Hind Hnd.
      induction (documentCollection db) as [|x l IH]; simpl; constructor.
      * destruct (Hall x (or_introl eq_refl)) as [[-> ->]|[-> Hne]].
        -- pose proof (touchDocument_fields now d) as Hf. simpl in Hf.
           destruct Hf as (H1 & H2 & H3 & H4 & H5 & H6 & H7 & H8 & H9 & H10
                           & H11 & H12 & H13 & H14 & H15).
           repeat split; try assumption.
           intros Hne. contradiction.
        -- repeat split; contradiction.
      * apply IH. intros y Hy. apply Hall. now right.
    + split; [reflexivity|]. split; [tauto|]. split; [reflexivity|].
      intros _. apply (Hrefl 404). discriminate.
  - split; [reflexivity|]. split; [tauto|]. split; [reflexivity|].
    intros _. apply (Hrefl 403). discriminate.
Qed.

Lemma getDocumentRoute_stamps_one_document_witness :
  let out := getDocumentRoute sampleUsers 1500%Z 1%N docD sampleDatabase in
  NoDup (map doc_id (documentCollection sampleDatabase))
  /\ statusCode (fst out) = 200
  /\ map doc_lastAccessed (documentCollection (snd out)) = [Some 1500%Z; None]
  /\ Forall2 (fun d d' => doc_name d' = doc_name d /\ doc_status d' = doc_status d
                          /\ (doc_id d <> docD -> d' = d))
       (documentCollection sampleDatabase) (documentCollection (snd out)).
Proof.
  intros out.
  assert (Hnd : NoDup (map doc_id (documentCollection sampleDatabase))).
  { simpl. constructor; [|constructor; [|constructor]]; simpl.
    - intros [H|[]]. discriminate.
    - tauto. }
  split; [exact Hnd|]. split; [reflexivity|]. split; [reflexivity|].
  eapply Forall2_impl;
    [|exact (proj2 (proj2 (proj2 (getDocumentRoute_stamps_one_document
                sampleUsers 1500%Z 1%N docD sampleDatabase))) Hnd)].
  intros d d' Hf. simpl in Hf. repeat split; apply Hf.
Defined.

(** ** Text of a parsed XML document *)

Section ExtractText.

Variable Number : Type.
Variable numberToString : Number -> string.

Let extract := extractTextFromXml numberToString.

(** Induction on values, with the hypothesis available for every item of an
    array and every property value of an object. *)
Fixpoint JsValue_nested_ind (P : JsValue Number -> Prop)
    (Hundef : P JsUndefined) (Hnull : P JsNull)
    (Hbool : forall b, P (JsBoolean b))
    (Hnum : forall n, P (JsNumber n))
    (Hstr : forall s, P (JsString s))
    (Harr : forall items, Forall P items -> P (JsArray items))
    (Hobj : forall props, Forall (fun kv => P (snd kv)) props -> P (JsObject props))
    (v : JsValue Number) {struct v} : P v :=
  match v with
  | JsUndefined => Hundef
  | JsNull => Hnull
  | JsBoolean b => Hbool b
  | JsNumber n => Hnum n
  | JsString s => Hstr s
  | JsArray items =>
      Harr items
        ((fix all (l : list (JsValue Number)) : Forall P l :=
            match l with
            | [] => Forall_nil P
            | x :: rest =>
                Forall_cons x
                  (JsValue_nested_ind P Hundef Hnull Hbool Hnum Hstr Harr Hobj x)
                  (all rest)
            end) items)
  | JsObject props =>
      Hobj props
        ((fix all (l : list (string * JsValue Number))
            : Forall (fun kv => P (snd kv)) l :=
            match l with
            | [] => Forall_nil _
            | kv :: rest =>
                Forall_cons kv
                  (JsValue_nested_ind P Hundef Hnull Hbool Hnum Hstr Harr Hobj (snd kv))
                  (all rest)
            end) props)
  end.

Lemma append_assoc (a b c : string) : ((a ++ b) ++ c = a ++ (b ++ c))%string.
Proof. induction a as [|x a IH]; simpl; [reflexivity | now rewrite IH]. Qed.

Lemma append_empty_r (a : string) : (a ++ "" = a)%string.
Proof. induction a as [|x a IH]; simpl; [reflexivity | now rewrite IH]. Qed.

Lemma extract_array_app items more text :
  extract (JsArray (items ++ more)) text =
  extract (JsArray more) (extract (JsArray items) text).
Proof.
  unfold extract. simpl. revert text.
  induction items as [|x items IH]; intros text; simpl; [reflexivity|].
  apply IH.
Qed.

Lemma extract_array_cons item items text :
  extract (JsArray (item :: items)) text =
  extract (JsArray items) (extract item text).
Proof. reflexivity. Qed.

Lemma extract_object_cons key value props text :
  extract (JsObject ((key, value) :: props)) text =
  extract (JsObject props)
    (if String.eqb key "$" then text else extract value text).
Proof. unfold extract. simpl. destruct (String.eqb key "$"); reflexivity. Qed.

Lemma extract_accumulates :
  forall obj text,
    extractTextFromXml numberToString obj text =
    (text ++ extractTextFromXml numberToString obj "")%string.
Proof.
  fold extract.
  induction obj as [| | b | n | s | items IH | props IH]
    using JsValue_nested_ind; intros text.
  - now rewrite append_empty_r.
  - now rewrite append_empty_r.
  - now rewrite append_empty_r.
  - reflexivity.
  - reflexivity.
  - revert text. induction IH as [|x items Hx _ IHitems]; intros text.
    + unfold extract. simpl. now rewrite append_empty_r.
    + rewrite !extract_array_cons.
      rewrite (IHitems (extract x text)), (IHitems (extract x "")), (Hx text).
      now rewrite append_assoc.
  - revert text. induction IH as [|[key value] props Hv _ IHprops]; intros text.
    + unfold extract. simpl. now rewrite append_empty_r.
    + rewrite !extract_object_cons. simpl in Hv.
      destruct (String.eqb key "$").
      * apply IHprops.
      * rewrite (IHprops (extract value text)), (IHprops (extract value "")),
          (Hv text).
        now rewrite append_assoc.
Qed.

(** X23. [extractTextFromXml] only ever appends: its result is the text it
    was given followed by what it extracts from the value starting from the
    empty text. *)
Theorem extractTextFromXml_appends :
  forall obj text,
    extractTextFromXml numberToString obj text =
    (text ++ extractTextFromXml numberToString obj "")%string.
Proof. exact extract_accumulates. Qed.

End ExtractText.

Section ExtractTextParts.

Variable Number : Type.
Variable numberToString : Number -> string.

Let extract := extractTextFromXml numberToString.

Lemma stripAttributes_object_cons key value (props : list (string * JsValue Number)) :
  stripAttributes (JsObject ((key, value) :: props)) =
  match stripAttributes (JsObject props) with
  | JsObject stripped =>
      JsObject (if String.eqb key "$" then stripped
                else (key, stripAttributes value) :: stripped)
  | other => other
  end.
Proof. simpl. destruct (String.eqb key "$"); reflexivity. Qed.

Lemma stripAttributes_object (props : list (string * JsValue Number)) :
  exists stripped, stripAttributes (JsObject props) = JsObject stripped.
Proof. simpl. eexists. reflexivity. Qed.

(** X24. Attributes never reach the text: [extractTextFromXml] gives the
    same result on a value and on the value with every ['$'] property
    removed at every depth. *)
Theorem extractTextFromXml_skips_attributes :
  forall obj text,
    extractTextFromXml numberToString (stripAttributes obj) text =
    extractTextFromXml numberToString obj text.
Proof.
  fold extract.
  induction obj as [| | b | n | s | items IH | props IH]
    using JsValue_nested_ind; intros text; try reflexivity.
  - revert text. induction IH as [|x items Hx _ IHitems]; intros text.
    + reflexivity.
    + change (stripAttributes (JsArray (x :: items)))
        with (JsArray (stripAttributes x :: map stripAttributes items)).
      rewrite !(extract_array_cons Number numberToString). fold extract.
      rewrite Hx. apply IHitems.
  - revert text. induction IH as [|[key value] props Hv _ IHprops]; intros text.
    + reflexivity.
    + rewrite stripAttributes_object_cons.
      destruct (stripAttributes_object props) as [stripped Hs].
      rewrite Hs in *.
      rewrite (extract_object_cons Number numberToString key value props).
      fold extract. simpl in Hv.
      destruct (String.eqb key "$") eqn:E.
      * apply IHprops.
      * rewrite (extract_object_cons Number numberToString key
                   (stripAttributes value) stripped).
        fold extract. rewrite E, Hv. apply IHprops.
Qed.

(** X25. The text of a compound value is made of the texts of its parts, in
    order: for an array, the texts of the items one after the other; for an
    object, the texts of the values of its properties other than ['$'];
    for a string, a space and the string; nothing for [null], [undefined]
    and booleans. *)
Theorem extractTextFromXml_by_parts :
  (forall items,
     extractTextFromXml numberToString (JsArray items) "" =
     String.concat ""
       (map (fun item => extractTextFromXml numberToString item "") items))
  /\ (forall props,
        extractTextFromXml numberToString (JsObject props) "" =
        String.concat ""
          (map (fun kv => extractTextFromXml numberToString (snd kv) "")
               (filter (fun kv => negb (String.eqb (fst kv) "$")) props)))
  /\ (forall s, extractTextFromXml numberToString (JsString s) "" = String " " s)
  /\ extractTextFromXml numberToString JsNull "" = ""
  /\ extractTextFromXml numberToString JsUndefined "" = ""
  /\ (forall b, extractTextFromXml numberToString (JsBoolean b) "" = "").
Proof.
  fold extract.
  assert (Hconcat : forall (a : string) (l : list string),
            String.concat "" (a :: l) = (a ++ String.concat "" l)%string).
  { intros a [|b l]; simpl; [now rewrite append_empty_r | reflexivity]. }
  split; [|split; [|repeat split]].
  - induction items as [|x items IH].
    + reflexivity.
    + rewrite (extract_array_cons Number numberToString). fold extract.
      unfold extract at 1.
      rewrite (extract_accumulates Number numberToString (JsArray items)).
      fold extract. rewrite IH. cbn [map]. now rewrite Hconcat.
  - induction props as [|[key value] props IH].
    + reflexivity.
    + rewrite (extract_object_cons Number numberToString). fold extract.
      cbn [filter fst]. destruct (String.eqb key "$"); cbn [negb].
      * exact IH.
      * unfold extract at 1.
        rewrite (extract_accumulates Number numberToString (JsObject props)).
        fold extract. rewrite IH. cbn [map snd]. now rewrite Hconcat.
Qed.

End ExtractTextParts.

(** The sample note yields the element texts and not the attribute. *)
Lemma sampleXml_text :
  extractTextFromXml (fun digits : string => digits) sampleXml "" = " Ann Hi there"
  /\ extractTextFromXml (fun digits : string => digits) (stripAttributes sampleXml) "note:"
     = "note: Ann Hi there".
Proof. split; reflexivity. Qed.

(** * Composition of the service's operations *)

(** X26. A grant with an expiry shows up in the listing of its resource and
    in no other: after a successful [grantPermission] with [expiresAt = d],
    at any time before [d], [getResourcePermissions] for that resource is
    the former listing followed by the new record with its grantor looked
    up, and the listing of every other resource is unchanged. *)
Theorem grantPermission_then_getResourcePermissions :
  forall users now rt rid gt gid gname perm by_ d c a c' later,
    grantPermission users now rt rid gt gid gname perm by_ (Some d) c = (inr a, c') ->
    (later < d)%Z ->
    getResourcePermissions users (documents c') later rt rid =
      getResourcePermissions users (documents c) later rt rid
      ++ [(a, populateGrantedBy users a)]
    /\ (forall rt' rid', rt' <> rt \/ rid' <> rid ->
          getResourcePermissions users (documents c') later rt' rid' =
          getResourcePermissions users (documents c) later rt' rid').
Proof.
  intros users now rt rid gt gid gname perm by_ d c a c' later H Hlt.
  apply grantPermission_success in H as (Ha & Hc' & _).
  assert (Hlive : activeUnexpired later a = true).
  { apply activeUnexpired_iff. subst a. split; [reflexivity|].
    right. exists d. split; [reflexivity | exact Hlt]. }
  subst c'. unfold getResourcePermissions, findAll. simpl documents. split.
  - rewrite filter_app, map_app. simpl.
    replace (resourceQuery rt rid later a) with true; [reflexivity|].
    symmetry. apply resourceQuery_iff. apply activeUnexpired_iff in Hlive.
    subst a. simpl in *. tauto.
  - intros rt' rid' Hne. rewrite filter_app. simpl.
    replace (resourceQuery rt' rid' later a) with false; [now rewrite app_nil_r|].
    symmetry. destruct (resourceQuery rt' rid' later a) eqn:E; [|reflexivity].
    apply resourceQuery_iff in E as (Hrt & Hrid & _). subst a. simpl in *.
    destruct Hne as [Hne|Hne]; exfalso; apply Hne; congruence.
Qed.

Lemma grantPermission_then_getResourcePermissions_witness :
  let call := grantPermission sampleUsers 1000%Z "document" docE "public" None
                (Some "public") "read" 2%N (Some 5000%Z)
                (mkCollection [directReadP] 20%N) in
  (exists a, fst call = inr a)
  /\ (4000 < 5000)%Z
  /\ List.length (getResourcePermissions sampleUsers (documents (snd call))
                    4000%Z "document" docE) = 1
  /\ getResourcePermissions sampleUsers (documents (snd call)) 4000%Z
       "document" docD
     = getResourcePermissions sampleUsers [directReadP] 4000%Z "document" docD.
Proof.
  intros call.
  destruct (grantPermission_then_getResourcePermissions sampleUsers 1000%Z
              "document" docE "public" None (Some "public") "read" 2%N 5000%Z
              (mkCollection [directReadP] 20%N) _ _ 4000%Z eq_refl ltac:(lia))
    as [Hsame Hother].
  split; [eexists; reflexivity|]. split; [lia|]. split.
  - exact (eq_trans (f_equal (@List.length _) Hsame) eq_refl).
  - apply (Hother "document" docD). right. discriminate.
Defined.

Lemma revoke_twice_flags (qa qb : Acl -> bool) ta tb l :
  (forall t a, qa (deactivate t a) = false) ->
  (forall t a, qb (deactivate t a) = false) ->
  map active (map (fun a => if qb a then deactivate tb a else a)
                  (map (fun a => if qa a then deactivate ta a else a) l))
  = map active (map (fun a => if qa a then deactivate ta a else a)
                    (map (fun a => if qb a then deactivate tb a else a) l))
  /\ map acl_id (map (fun a => if qb a then deactivate tb a else a)
                     (map (fun a => if qa a then deactivate ta a else a) l))
     = map acl_id l
  /\ (List.length (filter qa l)
      + List.length (filter qb (map (fun a => if qa a then deactivate ta a else a) l))
      = List.length (filter qb l)
        + List.length (filter qa (map (fun a => if qb a then deactivate tb a else a) l)))%nat.
Proof.
  intros Ha Hb.
  induction l as [|a l (IH1 & IH2 & IH3)]; [repeat split|].
  cbn [map filter].
  destruct (qa a) eqn:Ea; destruct (qb a) eqn:Eb;
    rewrite ?Ha, ?Hb, ?Ea, ?Eb; cbn [List.length active acl_id deactivate];
    rewrite IH1, IH2; repeat split; lia.
Qed.

(** X27. Revocations commute: two [revokePermission] calls made in either
    order leave every record with the same [active] flag (and the same
    [_id] at the same place), and the two counts returned add up to the same
    total. *)
Theorem revokePermission_commutes :
  forall t1 rt1 rid1 gt1 gid1 perm1 t2 rt2 rid2 gt2 gid2 perm2 c,
    let first1 := revokePermission t1 rt1 rid1 gt1 gid1 perm1 c in
    let then2 := revokePermission t2 rt2 rid2 gt2 gid2 perm2 (snd first1) in
    let first2 := revokePermission t2 rt2 rid2 gt2 gid2 perm2 c in
    let then1 := revokePermission t1 rt1 rid1 gt1 gid1 perm1 (snd first2) in
    map active (documents (snd then2)) = map active (documents (snd then1))
    /\ map acl_id (documents (snd then2)) = map acl_id (documents (snd then1))
    /\ (fst first1 + fst then2 = fst first2 + fst then1)%nat.
Proof.
  intros.
  pose proof (revoke_twice_flags (revokeQuery rt1 rid1 gt1 gid1 perm1)
                (revokeQuery rt2 rid2 gt2 gid2 perm2) t1 t2 (documents c)
                (fun t a => revokeQuery_deactivate rt1 rid1 gt1 gid1 perm1 t a)
                (fun t a => revokeQuery_deactivate rt2 rid2 gt2 gid2 perm2 t a))
    as (H1 & H2 & H3).
  pose proof (revoke_twice_flags (revokeQuery rt2 rid2 gt2 gid2 perm2)
                (revokeQuery rt1 rid1 gt1 gid1 perm1) t2 t1 (documents c)
                (fun t a => revokeQuery_deactivate rt2 rid2 gt2 gid2 perm2 t a)
                (fun t a => revokeQuery_deactivate rt1 rid1 gt1 gid1 perm1 t a))
    as (_ & H2' & _).
  unfold then2, then1, first1, first2, revokePermission, updateMany. simpl.
  split; [exact H1|]. split; [|exact H3].
  simpl in H2, H2'. now rewrite H2, H2'.
Qed.

(** * The upload route *)

(** What a 201 answer of [POST /upload] implies, with the grant call that
    was made. *)
Lemma uploadRoute_created env users now userId file db r db' :
  uploadRoute env users now userId file db = (r, db') ->
  statusCode r = 201 ->
  exists f metadata contentHash filePath a,
    file = Some f
    /\ extracted env = Some (metadata, contentHash)
    /\ storedAt env = Some filePath
    /\ let d := mkDocument (nextObjectId (aclCollection db)) (file_originalname f)
                  filePath (Some (file_size f)) (Some (file_mimetype f))
                  (Some contentHash) metadata (Some userId) now None []
                  "active" now now in
       let acl1 := mkCollection (documents (aclCollection db))
                     (N.succ (nextObjectId (aclCollection db))) in
       documentCollection db' = documentCollection db ++ [d]
       /\ grantPermission users now "document" (nextObjectId (aclCollection db))
            "user" (Some userId) None PERMISSIONS.ADMIN userId None acl1
          = (inr a, aclCollection db')
       /\ r = mkResponse 201
                (UploadedJson "Document uploaded successfully"
                   (nextObjectId (aclCollection db)) (file_originalname f)
                   (Some (file_size f))).
Proof.
  unfold uploadRoute. intros H Hs.
  destruct file as [f|]; [|injection H as <- <-; discriminate].
  destruct (readsFile env); simpl in H; [|injection H as <- <-; discriminate].
  destruct (extracted env) as [[metadata contentHash]|];
    [|injection H as <- <-; discriminate].
  destruct (storedAt env) as [filePath|]; [|injection H as <- <-; discriminate].
  destruct (insertDocument _ (documentCollection db)) as [docs'|] eqn:Hins;
    [|injection H as <- <-; discriminate].
  simpl doc_id in H.
  destruct (grantPermission users now "document" (nextObjectId (aclCollection db))
              "user" (Some userId) None PERMISSIONS.ADMIN userId None _)
    as [[e|a] c'] eqn:Hg; simpl in H; [injection H as <- <-; discriminate|].
  destruct (String.eqb (file_path f) "" || unlinksFile env);
    [|injection H as <- <-; discriminate].
  injection H as <- <-.
  exists f, metadata, contentHash, filePath, a.
  repeat split; try reflexivity.
  simpl. unfold insertDocument in Hins.
  destruct (String.eqb _ "" || String.eqb _ ""); [discriminate|].
  destruct (existsb _ (documentCollection db)); [discriminate|].
  now injection Hins as <-.
Qed.

(** X28. A 201 answer of [POST /upload] means that one document was stored,
    active, under the caller's name and a fresh id, and that one grant record
    was appended: [admin] on that document for the caller, granted by the
    caller, active, with [expiresAt: null]; the caller has a user document. *)
Theorem uploadRoute_stores_document_and_admin_grant :
  forall env users now userId file db r db',
    uploadRoute env users now userId file db = (r, db') ->
    statusCode r = 201 ->
    exists f d a,
      file = Some f
      /\ documentCollection db' = documentCollection db ++ [d]
      /\ doc_id d = nextObjectId (aclCollection db)
      /\ doc_name d = file_originalname f
      /\ doc_status d = "active"
      /\ doc_uploadedBy d = Some userId
      /\ responseBody r = UploadedJson "Document uploaded successfully"
                            (doc_id d) (doc_name d) (doc_size d)
      /\ documents (aclCollection db') = documents (aclCollection db) ++ [a]
      /\ resourceType a = "document" /\ resourceId a = doc_id d
      /\ granteeType a = "user" /\ granteeId a = Some userId
      /\ permission a = "admin" /\ grantedBy a = userId
      /\ expiresAt a = Null /\ active a = true
      /\ exists u, findById users userId = Some u.
Proof.
  intros env users now userId file db r db' H Hs.
  destruct (uploadRoute_created _ _ _ _ _ _ _ _ H Hs)
    as (f & metadata & contentHash & filePath & a & -> & _ & _ & Hdocs & Hg & ->).
  pose proof (grantPermission_success _ _ _ _ _ _ _ _ _ _ _ _ _ Hg)
    as (Ha & Hc' & _ & Hu & _).
  eexists f, _, a. split; [reflexivity|]. split; [exact Hdocs|].
  rewrite Hc'. subst a. simpl.
  repeat split.
  apply (proj1 (unresolvedGrantee_none users "user" (Some userId)) Hu userId);
    reflexivity.
Qed.

Lemma uploadRoute_stores_document_and_admin_grant_witness :
  let out := uploadRoute sampleEnvironment sampleUsers 1500%Z 1%N
               (Some sampleFile) sampleDatabase in
  statusCode (fst out) = 201
  /\ exists f d a,
       Some sampleFile = Some f
       /\ documentCollection (snd out) = documentCollection sampleDatabase ++ [d]
       /\ doc_id d = 20%N
       /\ documents (aclCollection (snd out))
          = documents (aclCollection sampleDatabase) ++ [a]
       /\ resourceId a = 20%N /\ permission a = "admin" /\ expiresAt a = Null.
Proof.
  intros out.
  assert (Hs : statusCode (fst out) = 201) by reflexivity.
  split; [exact Hs|].
  destruct (uploadRoute_stores_document_and_admin_grant sampleEnvironment
              sampleUsers 1500%Z 1%N (Some sampleFile) sampleDatabase
              (fst out) (snd out) eq_refl Hs)
    as (f & d & a & Hf & Hdocs & Hid & _ & _ & _ & _ & Hacl & _ & Hrid & _ & _
        & Hp & _ & He & _).
  exists f, d, a. repeat split; try assumption.
  now rewrite Hrid, Hid.
Defined.

Lemma insertDocument_inv d docs docs' :
  insertDocument d docs = Some docs' -> docs' = docs ++ [d].
Proof.
  unfold insertDocument.
  destruct (String.eqb _ "" || String.eqb _ ""); [discriminate|].
  destruct (existsb _ docs); [discriminate|].
  intros H. now injection H as <-.
Qed.

Lemma insertDocument_duplicate d docs x h :
  In x docs -> doc_contentHash x = Some h -> doc_contentHash d = Some h ->
  insertDocument d docs = None.
Proof.
  intros Hin Hx Hd. unfold insertDocument.
  destruct (String.eqb _ "" || String.eqb _ ""); [reflexivity|].
  replace (existsb _ docs) with true; [reflexivity|].
  symmetry. apply existsb_exists. exists x. split; [assumption|].
  rewrite Hx, Hd. apply String.eqb_refl.
Qed.

Lemma insertDocument_accepted d docs :
  doc_name d <> "" -> doc_path d <> "" ->
  (forall x, In x docs -> doc_contentHash x <> doc_contentHash d) ->
  doc_contentHash d <> None ->
  insertDocument d docs = Some (docs ++ [d]).
Proof.
  intros Hn Hp Hfresh Hsome. unfold insertDocument.
  apply String.eqb_neq in Hn. apply String.eqb_neq in Hp. rewrite Hn, Hp. simpl.
  replace (existsb _ docs) with false; [reflexivity|].
  symmetry. apply not_true_is_false. intros H.
  apply existsb_exists in H as [x [Hin Hx]].
  apply (Hfresh x Hin).
  destruct (doc_contentHash x) as [h|]; [|discriminate].
  destruct (doc_contentHash d) as [h'|]; [|discriminate].
  apply String.eqb_eq in Hx. now subst.
Qed.

(** X29. [POST /upload] is not atomic and refuses repeated content. It never
    removes a document or a grant record. When a stored document, whatever
    its status, already has the content hash of the upload, the answer is
    500 and nothing is stored. When the caller has no user document the
    answer is never 201 and no grant is written, yet the document is stored
    all the same once the file was read, its metadata extracted, the bytes
    stored and the document accepted. *)
Theorem uploadRoute_failures :
  forall env users now userId f db,
    let out := uploadRoute env users now userId (Some f) db in
    let docs := documentCollection db in
    let grants := documents (aclCollection db) in
    (exists ds, documentCollection (snd out) = docs ++ ds
                /\ (List.length ds <= 1)%nat)
    /\ (exists gs, documents (aclCollection (snd out)) = grants ++ gs
                   /\ (List.length gs <= 1)%nat)
    /\ (forall x m h, In x docs -> doc_contentHash x = Some h ->
          extracted env = Some (m, h) ->
          statusCode (fst out) = 500
          /\ documentCollection (snd out) = docs
          /\ documents (aclCollection (snd out)) = grants)
    /\ (findById users userId = None ->
        statusCode (fst out) <> 201
        /\ documents (aclCollection (snd out)) = grants
        /\ (forall m h p,
              readsFile env = true -> extracted env = Some (m, h) ->
              storedAt env = Some p ->
              file_originalname f <> "" -> p <> "" ->
              (forall x, In x docs -> doc_contentHash x <> Some h) ->
              statusCode (fst out) = 500
              /\ exists d, documentCollection (snd out) = docs ++ [d]
                           /\ doc_uploadedBy d = Some userId
                           /\ doc_status d = "active")).
Proof.
  intros env users now userId f db out docs grants.
  unfold out, docs, grants, uploadRoute.
  assert (Hnil : forall A (l : list A), exists xs, l = l ++ xs /\ (List.length xs <= 1)%nat).
  { intros A l. exists []. split; [now rewrite app_nil_r | simpl; lia]. }
  destruct (readsFile env) eqn:Hread; simpl.
  2:{ repeat split; try apply Hnil; try discriminate. }
  destruct (extracted env) as [[metadata contentHash]|] eqn:Hext; simpl.
  2:{ repeat split; try apply Hnil; try discriminate. }
  destruct (storedAt env) as [filePath|] eqn:Hst; simpl.
  2:{ repeat split; try apply Hnil; try discriminate. }
  set (d := mkDocument (nextObjectId (aclCollection db)) (file_originalname f)
              filePath (Some (file_size f)) (Some (file_mimetype f))
              (Some contentHash) metadata (Some userId) now None [] "active"
              now now).
  set (acl1 := mkCollection (documents (aclCollection db))
                 (N.succ (nextObjectId (aclCollection db)))).
  destruct (insertDocument d (documentCollection db)) as [docs'|] eqn:Hins; simpl.
  2:{ split; [apply Hnil|]. split; [apply Hnil|]. split; [repeat split|].
      intros Hu. split; [discriminate|]. split; [reflexivity|].
      intros m h p _ Hm Hp Hname Hpath Hfresh.
      injection Hm as <- <-. injection Hp as <-.
      rewrite (insertDocument_accepted d (documentCollection db)) in Hins;
        [discriminate | exact Hname | exact Hpath | | discriminate].
      intros x Hx. simpl. now apply Hfresh. }
  pose proof (insertDocument_inv _ _ _ Hins) as Hdocs'. subst docs'.
  assert (Hnodup : forall x m h, In x (documentCollection db) ->
            doc_contentHash x = Some h ->
            Some (metadata, contentHash) = Some (m, h) -> False).
  { intros x m h Hx Hh Hm. injection Hm as <- <-.
    rewrite (insertDocument_duplicate d (documentCollection db) x contentHash
               Hx Hh eq_refl) in Hins.
    discriminate. }
  assert (Hone : exists ds, documentCollection db ++ [d] = documentCollection db ++ ds
                            /\ (List.length ds <= 1)%nat).
  { exists [d]. split; [reflexivity | simpl; lia]. }
  change (doc_id d) with (nextObjectId (aclCollection db)).
  destruct (grantPermission users now "document" (nextObjectId (aclCollection db))
              "user" (Some userId) None PERMISSIONS.ADMIN userId None acl1)
    as [[e|a] c'] eqn:Hg; simpl.
  - pose proof (grantPermission_failure _ _ _ _ _ _ _ _ _ _ _ _ _ Hg) as Hsame.
    simpl in Hsame.
    split; [exact Hone|]. split; [rewrite Hsame; apply Hnil|].
    split; [intros x m h Hx Hh Hm; destruct (Hnodup x m h Hx Hh Hm)|].
    intros Hu. split; [discriminate|]. split; [exact Hsame|].
    intros m h p _ Hm Hp Hname Hpath Hfresh. split; [reflexivity|].
    exists d. repeat split.
  - pose proof (grantPermission_success _ _ _ _ _ _ _ _ _ _ _ _ _ Hg)
      as (Ha & Hc' & _ & Hres & _).
    assert (Hgs : exists gs, documents c' = documents (aclCollection db) ++ gs
                             /\ (List.length gs <= 1)%nat).
    { exists [a]. rewrite Hc'. split; [reflexivity | simpl; lia]. }
    assert (Huser : findById users userId = None -> False).
    { intros Hu.
      destruct (proj1 (unresolvedGrantee_none users "user" (Some userId)) Hres
                  userId eq_refl eq_refl) as [u Hu'].
      congruence. }
    destruct (String.eqb (file_path f) "" || unlinksFile env); simpl;
      (split; [exact Hone|]; split; [exact Hgs|];
       split; [intros x m h Hx Hh Hm; destruct (Hnodup x m h Hx Hh Hm)|];
       intros Hu; destruct (Huser Hu)).
Qed.

(** A caller without a user document leaves a stored document that nobody
    was granted; content already stored under a deleted document is
    refused. *)
Lemma uploadRoute_failures_witness :
  let orphan := uploadRoute sampleEnvironment sampleUsers 1500%Z 77%N
                  (Some sampleFile) sampleDatabase in
  let deleted := mkDatabase (aclCollection sampleDatabase)
                   [sampleDocument docD "deleted"] in
  let again := uploadRoute
                 (mkUploadEnvironment true (Some (JsNull, "abcd"))
                    (Some "ab/cd/again") true)
                 sampleUsers 1500%Z 1%N (Some sampleFile) deleted in
  findById sampleUsers 77%N = None
  /\ (statusCode (fst orphan) = 500
      /\ List.length (documentCollection (snd orphan)) = 3
      /\ documents (aclCollection (snd orphan))
         = documents (aclCollection sampleDatabase))
  /\ (statusCode (fst again) = 500
      /\ documentCollection (snd again) = [sampleDocument docD "deleted"]).
Proof.
  intros orphan deleted again.
  split; [reflexivity|]. split.
  - destruct (uploadRoute_failures sampleEnvironment sampleUsers 1500%Z 77%N
                sampleFile sampleDatabase) as (_ & _ & _ & Horphan).
    destruct (Horphan eq_refl) as (_ & Hacl & Hstored).
    destruct (Hstored _ "ff00" "ff/00/notes" eq_refl eq_refl eq_refl)
      as (Hs & d & Hd & _).
    + discriminate.
    + discriminate.
    + intros x [<-|[<-|[]]]; discriminate.
    + split; [exact Hs|]. split; [|exact Hacl].
      unfold orphan. rewrite Hd. reflexivity.
  - destruct (uploadRoute_failures
                (mkUploadEnvironment true (Some (JsNull, "abcd"))
                   (Some "ab/cd/again") true)
                sampleUsers 1500%Z 1%N sampleFile deleted) as (_ & _ & Hdup & _).
    destruct (Hdup (sampleDocument docD "deleted") JsNull "abcd")
      as (Hs & Hd & _); try reflexivity.
    + left. reflexivity.
    + split; [exact Hs | exact Hd].
Defined.

(** X30. Nobody can use an uploaded document. After a 201 answer of
    [POST /upload], provided no grant record already named the new id,
    [hasPermission] on the new document is [false] for every principal and
    permission at all later times: the uploader's own [GET /:id] is
    answered 403 and the document appears in no listing. *)
Theorem uploadRoute_document_unreachable :
  forall env users now userId file db r db',
    uploadRoute env users now userId file db = (r, db') ->
    statusCode r = 201 ->
    (forall a, In a (documents (aclCollection db)) ->
               resourceId a <> nextObjectId (aclCollection db)) ->
    let id := nextObjectId (aclCollection db) in
    forall later u,
      (forall perm,
         hasPermission users (documents (aclCollection db')) later u "document"
           id perm = false)
      /\ statusCode (fst (getDocumentRoute users later u id db')) = 403
      /\ (forall heap l,
            listDocumentsRoute users later heap u db'
              = mkResponse 200 (DocumentListJson l) ->
            ~ In id (map sum_id l)).
Proof.
  intros env users now userId file db r db' H Hs Hfresh id later u.
  destruct (uploadRoute_created _ _ _ _ _ _ _ _ H Hs)
    as (f & metadata & contentHash & filePath & a & -> & _ & _ & Hdocs & Hg & ->).
  destruct (null_expiry_grant_invisible _ _ _ _ _ _ _ _ _ _ _ _ Hg)
    as (Hsame & _ & Hlist).
  simpl documents in Hsame, Hlist.
  assert (Hdenied : forall perm,
            hasPermission users (documents (aclCollection db')) later u
              "document" id perm = false).
  { intros perm. rewrite Hsame.
    destruct (hasPermission users (documents (aclCollection db)) later u
                "document" id perm) eqn:E; [|reflexivity].
    apply hasPermission_true_iff in E as [x (Hx & _ & Hrid & _)].
    destruct (Hfresh x Hx Hrid). }
  split; [exact Hdenied|]. split.
  - unfold getDocumentRoute. rewrite Hdenied. reflexivity.
  - intros heap l Hl Hin. unfold listDocumentsRoute in Hl. injection Hl as <-.
    rewrite map_map in Hin. apply in_map_iff in Hin as [x [Hx Hxin]].
    apply filter_In in Hxin as [_ Hq]. apply andb_prop in Hq as [Hq _].
    apply existsb_eqb_In in Hq. rewrite Hlist in Hq.
    apply listed_iff in Hq as [y (Hy & Hrid & _)].
    simpl in Hx. apply (Hfresh y Hy). rewrite Hrid. exact Hx.
Qed.

Lemma uploadRoute_document_unreachable_witness :
  let out := uploadRoute sampleEnvironment sampleUsers 1500%Z 1%N
               (Some sampleFile) sampleDatabase in
  statusCode (fst out) = 201
  /\ (forall a, In a (documents (aclCollection sampleDatabase)) ->
                resourceId a <> 20%N)
  /\ statusCode (fst (getDocumentRoute sampleUsers 1600%Z 1%N 20%N (snd out))) = 403.
Proof.
  intros out.
  assert (Hs : statusCode (fst out) = 201) by reflexivity.
  assert (Hfresh : forall a, In a (documents (aclCollection sampleDatabase)) ->
                             resourceId a <> 20%N).
  { intros a [<-|[<-|[<-|[]]]]; discriminate. }
  split; [exact Hs|]. split; [exact Hfresh|].
  apply (uploadRoute_document_unreachable sampleEnvironment sampleUsers 1500%Z
           1%N (Some sampleFile) sampleDatabase (fst out) (snd out) eq_refl Hs
           Hfresh 1600%Z 1%N).
Defined.
